(** * PyWekaClassifiers: the ARFF reader/writer of [pywekaclassifiers/arff.py]

    A shallow embedding of the typed-value model ([Value] and its
    subclasses), the line-oriented parser, the dense/sparse writer and the
    [append] engine of [ArffFile], followed by the theorems that settle
    the properties stated about them.

    Conventions of the embedding.
    - A Python [str] is a [string]: a sequence of 8-bit characters, read as
      the code points 0..255.
    - A Python [int] is a [Z]; a Python [float] is a binary64 value of
      [SpecFloat.spec_float] (precision 53, [emax] 1024).
    - A raised exception is the [Raise] case of [result]; the exception
      class is kept, the message is not.
    - [self.attribute_types] and [self.attribute_data] are only ever used
      through key lookup, key membership and assignment, so they are
      [gmap]s; a name-keyed row is iterated in insertion order by
      [append], so it is an association list with the Python [dict]
      operations on it.
    - Text conversions of floats, decimals and dates, and the date parser
      of [dateutil], are collaborators outside the module: they are the
      fields of [Host], and every definition that reaches them takes the
      host as its first argument. *)

From Stdlib Require Import ZArith QArith Ascii String List Bool Lia.
From Stdlib Require Import Decimal DecimalString DecimalZ DecimalFacts.
From Stdlib Require Import SpecFloat Sorted.
From stdpp Require Import base option list gmap strings.

Local Open Scope Z_scope.
Local Open Scope stdpp_scope.

(** ** Exceptions and results *)

Inductive exn : Type :=
  | ValueError
  | TypeError
  | OverflowError
  | KeyError
  | IndexError
  | AssertionError
  | AttributeError
  | NotImplementedError
  | InvalidOperation
  | Exception.

Inductive result (A : Type) : Type :=
  | Ok (a : A)
  | Raise (e : exn).
Arguments Ok {A} a.
Arguments Raise {A} e.

#[global] Instance result_ret : MRet result := fun _ a => Ok a.
#[global] Instance result_bind : MBind result := fun _ _ f m =>
  match m with
  | Ok a => f a
  | Raise e => Raise e
  end.

#[global] Instance result_fmap : FMap result := fun _ _ f m =>
  match m with
  | Ok a => Ok (f a)
  | Raise e => Raise e
  end.

Definition is_ok {A} (r : result A) : bool :=
  match r with Ok _ => true | Raise _ => false end.

(** [py_assert c]: [AssertionError] unless [c]. *)
Definition py_assert (c : bool) : result unit :=
  if c then Ok tt else Raise AssertionError.

(** [x if o is present, else raise e]. *)
Definition from_option {A} (e : exn) (o : option A) : result A :=
  match o with Some a => Ok a | None => Raise e end.

(** ** Characters and strings, with the Python [str] methods the module uses *)

Module Py.

Definition dquote : ascii := "034"%char.
Definition squote : ascii := "039"%char.
Definition backslash : ascii := "092"%char.
Definition LF : ascii := "010"%char.

Definition chr (c : ascii) : string := String c EmptyString.

Definition code (c : ascii) : N := N_of_ascii c.

(** [str.isspace] on one character, for the code points below 256. *)
Definition isspace (c : ascii) : bool :=
let n := code c in
((9 <=? n) && (n <=? 13) || (28 <=? n) && (n <=? 32)
 || (n =? 133) || (n =? 160))%N.

(** The line boundaries of [str.splitlines], for the code points below 256. *)
Definition islinebreak (c : ascii) : bool :=
let n := code c in
((10 <=? n) && (n <=? 13) || (28 <=? n) && (n <=? 30) || (n =? 133))%N.

Definition isdigit (c : ascii) : bool :=
let n := code c in ((48 <=? n) && (n <=? 57))%N.

Definition isalpha_ (c : ascii) : bool :=
let n := code c in
((65 <=? n) && (n <=? 90) || (97 <=? n) && (n <=? 122) || (n =? 95))%N.

(** [str.lower] on one character (ASCII and Latin-1 capitals). *)
Definition lower_char (c : ascii) : ascii :=
let n := code c in
if ((65 <=? n) && (n <=? 90)
    || (192 <=? n) && (n <=? 222) && negb (n =? 215))%N
then ascii_of_N (n + 32) else c.

Fixpoint lower (s : string) : string :=
match s with
| EmptyString => EmptyString
| String c s' => String (lower_char c) (lower s')
end.

Fixpoint lstrip (s : string) : string :=
match s with
| EmptyString => EmptyString
| String c s' => if isspace c then lstrip s' else s
end.

(** [rstrip]: a character is kept when it is not a space or when
  something is kept after it. *)
Fixpoint rstrip (s : string) : string :=
match s with
| EmptyString => EmptyString
| String c s' =>
    match rstrip s' with
    | EmptyString => if isspace c then EmptyString else chr c
    | r => String c r
    end
end.

Definition strip (s : string) : string := rstrip (lstrip s).

Definition startswith (s p : string) : bool := String.prefix p s.

Fixpoint last_char (s : string) : option ascii :=
match s with
| EmptyString => None
| String c EmptyString => Some c
| String _ s' => last_char s'
end.

Definition first_char (s : string) : option ascii :=
match s with
| EmptyString => None
| String c _ => Some c
end.

(** [s[1:]] *)
Definition tail (s : string) : string :=
match s with
| EmptyString => EmptyString
| String _ s' => s'
end.

(** [s[:-1]] *)
Fixpoint init (s : string) : string :=
match s with
| EmptyString => EmptyString
| String _ EmptyString => EmptyString
| String c s' => String c (init s')
end.

(** [c in s] for a one-character [c]. *)
Fixpoint contains (c : ascii) (s : string) : bool :=
match s with
| EmptyString => false
| String a s' => Ascii.eqb a c || contains c s'
end.

(** [s.split(c)] for a one-character separator: never the empty list. *)
Fixpoint split_on (c : ascii) (s : string) : list string :=
match s with
| EmptyString => [EmptyString]
| String a s' =>
    if Ascii.eqb a c then EmptyString :: split_on c s'
    else match split_on c s' with
         | x :: xs => String a x :: xs
         | [] => [chr a]
         end
end.

(** [s.split()]: the maximal runs of non-space characters. *)
Fixpoint split_ws (s : string) : list string :=
match s with
| EmptyString => []
| String a s' =>
    if isspace a then split_ws s'
    else if default true (isspace <$> first_char s')
         then chr a :: split_ws s'
         else match split_ws s' with
              | w :: ws => String a w :: ws
              | [] => [chr a]
              end
end.

(** [s.splitlines()]: a line ends at a line boundary; CR LF is one
  boundary; no empty last line after a final boundary. *)
Fixpoint splitlines (s : string) : list string :=
match s with
| EmptyString => []
| String a s' =>
    if islinebreak a
    then EmptyString ::
         match s' with
         | String b s'' =>
             if (code a =? 13)%N && (code b =? 10)%N
             then splitlines s''
             else splitlines s'
         | EmptyString => []
         end
    else match splitlines s' with
         | l :: ls => String a l :: ls
         | [] => [chr a]
         end
end.

(** [sep.join(l)] *)
Definition join (sep : string) (l : list string) : string :=
String.concat sep l.

(** [s.replace(old, new)] for a non-empty [old]: the non-overlapping
  occurrences, leftmost first. *)
Fixpoint drop (n : nat) (s : string) : string :=
match n, s with
| O, _ => s
| S n', String _ s' => drop n' s'
| S _, EmptyString => EmptyString
end.

Fixpoint replace_go (fuel : nat) (old new s : string) : string :=
match fuel with
| O => s
| S fuel' =>
    if String.prefix old s
    then new +:+ replace_go fuel' old new (drop (String.length old) s)
    else match s with
         | EmptyString => EmptyString
         | String c s' => String c (replace_go fuel' old new s')
         end
end.
Definition replace (old new s : string) : string :=
replace_go (S (String.length s)) old new s.

(** [str(n)] and ["%d" % n] for an integer. *)
Definition str_of_Z (z : Z) : string := NilZero.string_of_int (Z.to_int z).

(** [int(s)] for a string: surrounding white space is dropped, one sign
  is allowed, and single underscores may separate digits.  [None] is
  [ValueError]. *)
Fixpoint digits_go (prev_digit : bool) (s : string) : option string :=
match s with
| EmptyString => if prev_digit then Some EmptyString else None
| String c s' =>
    if isdigit c then String c <$> digits_go true s'
    else if Ascii.eqb c "_" && prev_digit
         then match s' with
              | EmptyString => None
              | _ => digits_go false s'
              end
         else None
end.

Definition nat_of_digits (s : string) : option Z :=
match s with
| EmptyString => None
| _ => d ← digits_go false s; Z.of_uint <$> NilEmpty.uint_of_string d
end.

Definition int_of_str (s : string) : option Z :=
match strip s with
| String "-" s' => Z.opp <$> nat_of_digits s'
| String "+" s' => nat_of_digits s'
| s' => nat_of_digits s'
end.

End Py.

(** ** Python scalars *)

Definition MISSING : string := "?".

(** A [datetime.datetime] value (naive). *)
Record datetime : Type := MkDatetime {
  dt_year : Z; dt_month : Z; dt_day : Z;
  dt_hour : Z; dt_minute : Z; dt_second : Z
}.

(** A [decimal.Decimal] value: [(-1)^neg * coeff * 10^exp], an infinity or
    a NaN. *)
Inductive decimal : Type :=
  | DecFinite (neg : bool) (coeff : N) (exp : Z)
  | DecInfinity (neg : bool)
  | DecNaN.

(** The payloads a [Value] or a row holds. *)
Inductive pyval : Type :=
  | PStr (s : string)
  | PInt (z : Z)
  | PFloat (f : spec_float)
  | PDecimal (d : decimal)
  | PDate (d : datetime).

Definition is_str (v : pyval) : bool :=
  match v with PStr _ => true | _ => false end.

(** The number a numeric payload denotes, for the exact mixed comparisons
    of Python. *)
Inductive numval : Type :=
  | NFinite (q : Q)
  | NInfinity (neg : bool)
  | NNaN.

Definition pow_Q (b : Z) (e : Z) : Q := Qpower (inject_Z b) e.

Definition numval_of_float (f : spec_float) : numval :=
  match f with
  | S754_zero _ => NFinite 0
  | S754_infinity s => NInfinity s
  | S754_nan => NNaN
  | S754_finite s m e =>
      NFinite (inject_Z (if s then Z.neg m else Z.pos m) * pow_Q 2 e)
  end.

Definition numval_of_decimal (d : decimal) : numval :=
  match d with
  | DecFinite s c e =>
      NFinite (inject_Z (if s then - Z.of_N c else Z.of_N c) * pow_Q 10 e)
  | DecInfinity s => NInfinity s
  | DecNaN => NNaN
  end.

Definition numval_of (v : pyval) : option numval :=
  match v with
  | PInt z => Some (NFinite (inject_Z z))
  | PFloat f => Some (numval_of_float f)
  | PDecimal d => Some (numval_of_decimal d)
  | PStr _ | PDate _ => None
  end.

Definition numval_eqb (a b : numval) : bool :=
  match a, b with
  | NFinite p, NFinite q => Qeq_bool p q
  | NInfinity s, NInfinity t => Bool.eqb s t
  | _, _ => false
  end.

Definition datetime_eqb (a b : datetime) : bool :=
  (dt_year a =? dt_year b) && (dt_month a =? dt_month b)
  && (dt_day a =? dt_day b) && (dt_hour a =? dt_hour b)
  && (dt_minute a =? dt_minute b) && (dt_second a =? dt_second b).

(** [a == b] on payloads. *)
Definition py_eq (a b : pyval) : bool :=
  match a, b with
  | PStr s, PStr t => String.eqb s t
  | PDate d, PDate e => datetime_eqb d e
  | PStr _, _ | _, PStr _ | PDate _, _ | _, PDate _ => false
  | _, _ =>
      match numval_of a, numval_of b with
      | Some x, Some y => numval_eqb x y
      | _, _ => false
      end
  end.

Definition is_missing (v : pyval) : bool := py_eq v (PStr MISSING).

(** ** The host: conversions the module delegates *)

Record Host : Type := MkHost {
  (** [float(s)] for a string; [None] is [ValueError] *)
  float_of_str : string -> option spec_float;
  (** [str(f)] for a float *)
  str_of_float : spec_float -> string;
  (** [Decimal(s)] for a string; [None] is [InvalidOperation] *)
  Decimal_of_str : string -> option decimal;
  (** [str(d)] and [float(d)] for a [Decimal] *)
  str_of_Decimal : decimal -> string;
  float_of_Decimal : decimal -> spec_float;
  (** [str(d)] and [repr(d)] for a [datetime] *)
  str_of_datetime : datetime -> string;
  repr_of_datetime : datetime -> string;
  (** [repr(s)] for a string *)
  repr_of_str : string -> string;
  (** [dateutil.parser.parse(s)]; [None] is its [ValueError] *)
  dateutil_parse : string -> option datetime;
  (** [d.strftime(fmt)] *)
  strftime : datetime -> string -> string
}.

(** [float(n)] for an [int]: round to nearest even; an [int] that rounds
    to an infinity is [OverflowError]. *)
Definition float_of_Z (z : Z) : result spec_float :=
  match binary_normalize 53 1024 z 0 false with
  | S754_infinity _ => Raise OverflowError
  | f => Ok f
  end.

(** [int(f)] for a float: truncation toward zero. *)
Definition Z_of_float (f : spec_float) : result Z :=
  match f with
  | S754_zero _ => Ok 0
  | S754_infinity _ => Raise OverflowError
  | S754_nan => Raise ValueError
  | S754_finite s m e =>
      let a := if 0 <=? e then Z.pos m * 2 ^ e else Z.pos m / 2 ^ (- e) in
      Ok (if s then - a else a)
  end.

(** [int(d)] for a [Decimal]: truncation toward zero. *)
Definition Z_of_decimal (d : decimal) : result Z :=
  match d with
  | DecFinite s c e =>
      let a := if 0 <=? e then Z.of_N c * 10 ^ e else Z.of_N c / 10 ^ (- e) in
      Ok (if s then - a else a)
  | DecInfinity _ => Raise OverflowError
  | DecNaN => Raise ValueError
  end.

Section Scalars.
Context (host : Host).

(** [str(v)] *)
Definition py_str (v : pyval) : string :=
  match v with
  | PStr s => s
  | PInt z => Py.str_of_Z z
  | PFloat f => str_of_float host f
  | PDecimal d => str_of_Decimal host d
  | PDate d => str_of_datetime host d
  end.

(** [repr(v)] *)
Definition py_repr (v : pyval) : string :=
  match v with
  | PStr s => repr_of_str host s
  | PInt z => Py.str_of_Z z
  | PFloat f => str_of_float host f
  | PDecimal d => "Decimal('" +:+ str_of_Decimal host d +:+ "')"
  | PDate d => repr_of_datetime host d
  end.

(** [int(v)] *)
Definition py_int (v : pyval) : result Z :=
  match v with
  | PStr s => from_option ValueError (Py.int_of_str s)
  | PInt z => Ok z
  | PFloat f => Z_of_float f
  | PDecimal d => Z_of_decimal d
  | PDate _ => Raise TypeError
  end.

(** [float(v)] *)
Definition py_float (v : pyval) : result spec_float :=
  match v with
  | PStr s => from_option ValueError (float_of_str host s)
  | PInt z => float_of_Z z
  | PFloat f => Ok f
  | PDecimal d => Ok (float_of_Decimal host d)
  | PDate _ => Raise TypeError
  end.
End Scalars.

(** ** Attribute types and the typed values *)

Inductive atype : Type :=
  | TYPE_INTEGER
  | TYPE_NUMERIC
  | TYPE_REAL
  | TYPE_STRING
  | TYPE_NOMINAL
  | TYPE_DATE.

#[global] Instance atype_eq_dec : EqDecision atype.
Proof. solve_decision. Defined.

Definition atype_name (t : atype) : string :=
  match t with
  | TYPE_INTEGER => "integer"
  | TYPE_NUMERIC => "numeric"
  | TYPE_REAL => "real"
  | TYPE_STRING => "string"
  | TYPE_NOMINAL => "nominal"
  | TYPE_DATE => "date"
  end.

(** [at in NUMERIC_TYPES] *)
Definition in_NUMERIC_TYPES (t : atype) : bool :=
  match t with
  | TYPE_INTEGER | TYPE_NUMERIC | TYPE_REAL => true
  | _ => false
  end.

(** The subclasses of [Value]. *)
Inductive kind : Type := KInteger | KNumeric | KString | KNominal | KDate.

#[global] Instance kind_eq_dec : EqDecision kind.
Proof. solve_decision. Defined.

(** The class attribute [c_type]. *)
Definition c_type (k : kind) : atype :=
  match k with
  | KInteger => TYPE_INTEGER
  | KNumeric => TYPE_NUMERIC
  | KString => TYPE_STRING
  | KNominal => TYPE_NOMINAL
  | KDate => TYPE_DATE
  end.

Definition TYPE_TO_CLASS (t : atype) : kind :=
  match t with
  | TYPE_INTEGER => KInteger
  | TYPE_NUMERIC => KNumeric
  | TYPE_STRING => KString
  | TYPE_NOMINAL => KNominal
  | TYPE_REAL => KNumeric
  | TYPE_DATE => KDate
  end.

(** A [Value] object: its class, and its slots [value] and [cls]. *)
Record Value : Type := MkValue {
  kind_of : kind;
  value : pyval;
  cls : bool
}.

(** [Value.__eq__], for two [Value] objects. *)
Definition Value_eq (a b : Value) : bool := py_eq (value a) (value b).

(** An entry of a row: a [Value] object or a bare scalar. *)
Inductive cell : Type :=
  | CValue (v : Value)
  | CRaw (p : pyval).

Section Values.
Context (host : Host).

(** [Integer(v, cls)] *)
Definition Int (v : pyval) (c : bool) : result Value :=
  if negb (is_missing v)
  then z ← py_int v; Ok (MkValue KInteger (PInt z) c)
  else Ok (MkValue KInteger v c).

(** [Numeric(v, cls)] *)
Definition Num (v : pyval) (c : bool) : result Value :=
  if negb (is_missing v)
  then f ← py_float host v; Ok (MkValue KNumeric (PFloat f) c)
  else Ok (MkValue KNumeric v c).

(** [String(v, cls)] *)
Definition Str (v : pyval) (c : bool) : result Value :=
  Ok (MkValue KString (PStr (py_str host v)) c).

(** [Nominal(v, cls)] *)
Definition Nom (v : pyval) (c : bool) : result Value :=
  Ok (MkValue KNominal v c).

(** [Date(v, cls)] *)
Definition Dt (v : pyval) (c : bool) : result Value :=
  Ok (MkValue KDate v c).

(** [K(v)] for the class [K] of a kind. *)
Definition new_Value (k : kind) (v : pyval) : result Value :=
  match k with
  | KInteger => Int v false
  | KNumeric => Num v false
  | KString => Str v false
  | KNominal => Nom v false
  | KDate => Dt v false
  end.

(** [try: return K(v) / except ValueError: pass], followed by [next]. *)
Definition try_ValueError (r next : result Value) : result Value :=
  match r with
  | Raise ValueError => next
  | _ => r
  end.

(** [wrap_value]: the result [None] of falling off the end is not
    reachable, since [Date(v)] never raises. *)
Definition wrap_value (v : cell) : result Value :=
  match v with
  | CValue x => Ok x
  | CRaw p =>
      if is_missing p then Str p false
      else if is_str p then Str p false
      else try_ValueError (Num p false)
             (try_ValueError (Int p false) (Dt p false))
  end.
End Values.

(** ** Rows and the name-keyed [dict] *)

(** A Python [dict] with string keys, in insertion order; the keys of a
    well-formed one are pairwise distinct. *)
Definition dict (A : Type) : Type := list (string * A).

Section Dict.
Context {A : Type}.

(** [d.get(k)] *)
Fixpoint dict_get (k : string) (d : dict A) : option A :=
  match d with
  | [] => None
  | (k', v) :: d' => if String.eqb k' k then Some v else dict_get k d'
  end.

(** [k in d] *)
Definition dict_mem (k : string) (d : dict A) : bool :=
  match dict_get k d with Some _ => true | None => false end.

(** [del d[k]], for a key that may be absent *)
Fixpoint dict_del (k : string) (d : dict A) : dict A :=
  match d with
  | [] => []
  | (k', v) :: d' =>
      if String.eqb k' k then dict_del k d' else (k', v) :: dict_del k d'
  end.

(** [d[k] = v]: an existing key keeps its place *)
Fixpoint dict_set (k : string) (v : A) (d : dict A) : dict A :=
  match d with
  | [] => [(k, v)]
  | (k', v') :: d' =>
      if String.eqb k' k then (k', v) :: d' else (k', v') :: dict_set k v d'
  end.

(** [dict(pairs)] *)
Definition dict_of_pairs (l : list (string * A)) : dict A :=
  fold_left (fun d kv => dict_set kv.1 kv.2 d) l [].

(** [list(d)], the keys *)
Definition dict_keys (d : dict A) : list string := map fst d.
End Dict.

(** A row: positional, or name-keyed. *)
Inductive row : Type :=
  | RList (l : list cell)
  | RDict (d : dict cell).

(** [a == b] on two entries of rows; a [Value] and a bare scalar are never
    equal, each side answering [NotImplemented]. *)
Definition cell_eq (a b : cell) : bool :=
  match a, b with
  | CValue x, CValue y => Value_eq x y
  | CRaw p, CRaw q => py_eq p q
  | _, _ => false
  end.

(** [a == b] on two name-keyed rows: the same keys, with equal values. *)
Definition dict_eq (a b : dict cell) : bool :=
  (length a =? length b)%nat
  && forallb (fun kv => match dict_get kv.1 b with
                        | Some w => cell_eq kv.2 w
                        | None => false
                        end) a.

Definition row_eq (a b : row) : bool :=
  match a, b with
  | RDict x, RDict y => dict_eq x y
  | RList x, RList y =>
      (length x =? length y)%nat
      && forallb (fun p => cell_eq p.1 p.2) (combine x y)
  | _, _ => false
  end.

(** ** The dataset *)

(** What [attribute_data] holds for an attribute. *)
Inductive adata : Type :=
  | DNone
  | DList (vs : list pyval)
  | DSet (vs : list pyval)
  | DPattern (p : string).

(** [self.comment]: a list of lines while it is filled, one string once
    the header is reached. *)
Inductive comment_t : Type :=
  | CommentLines (ls : list string)
  | CommentText (s : string).

Inductive pstate : Type := st_comment | st_in_header | st_data.

#[global] Instance pstate_eq_dec : EqDecision pstate.
Proof. solve_decision. Defined.

Inductive format : Type := DENSE | SPARSE.

Definition DEFAULT_DATE_FORMAT : string := "yyyy-MM-dd HH:mm:ss".

(** The attributes of an [ArffFile] object.  [fout] is the open stream
    with the lines printed to it so far; [state] exists once [parse] has
    set it; [stdout] collects what is printed to the standard output. *)
Record ArffFile : Type := MkArff {
  relation : string;
  attributes : list string;
  attribute_types : gmap string atype;
  attribute_data : gmap string adata;
  comment : comment_t;
  data : list row;
  lineno : Z;
  fout : option (list string);
  class_attr_name : option string;
  state : option pstate;
  stdout : list string
}.

Definition set_relation (x : string) (a : ArffFile) : ArffFile :=
  MkArff x (attributes a) (attribute_types a) (attribute_data a) (comment a)
    (data a) (lineno a) (fout a) (class_attr_name a) (state a) (stdout a).
Definition set_attributes (x : list string) (a : ArffFile) : ArffFile :=
  MkArff (relation a) x (attribute_types a) (attribute_data a) (comment a)
    (data a) (lineno a) (fout a) (class_attr_name a) (state a) (stdout a).
Definition set_attribute_types (x : gmap string atype) (a : ArffFile) :=
  MkArff (relation a) (attributes a) x (attribute_data a) (comment a)
    (data a) (lineno a) (fout a) (class_attr_name a) (state a) (stdout a).
Definition set_attribute_data (x : gmap string adata) (a : ArffFile) :=
  MkArff (relation a) (attributes a) (attribute_types a) x (comment a)
    (data a) (lineno a) (fout a) (class_attr_name a) (state a) (stdout a).
Definition set_comment (x : comment_t) (a : ArffFile) : ArffFile :=
  MkArff (relation a) (attributes a) (attribute_types a) (attribute_data a) x
    (data a) (lineno a) (fout a) (class_attr_name a) (state a) (stdout a).
Definition set_data (x : list row) (a : ArffFile) : ArffFile :=
  MkArff (relation a) (attributes a) (attribute_types a) (attribute_data a)
    (comment a) x (lineno a) (fout a) (class_attr_name a) (state a) (stdout a).
Definition set_lineno (x : Z) (a : ArffFile) : ArffFile :=
  MkArff (relation a) (attributes a) (attribute_types a) (attribute_data a)
    (comment a) (data a) x (fout a) (class_attr_name a) (state a) (stdout a).
Definition set_fout (x : option (list string)) (a : ArffFile) : ArffFile :=
  MkArff (relation a) (attributes a) (attribute_types a) (attribute_data a)
    (comment a) (data a) (lineno a) x (class_attr_name a) (state a) (stdout a).
Definition set_class_attr_name (x : option string) (a : ArffFile) :=
  MkArff (relation a) (attributes a) (attribute_types a) (attribute_data a)
    (comment a) (data a) (lineno a) (fout a) x (state a) (stdout a).
Definition set_state (x : option pstate) (a : ArffFile) : ArffFile :=
  MkArff (relation a) (attributes a) (attribute_types a) (attribute_data a)
    (comment a) (data a) (lineno a) (fout a) (class_attr_name a) x (stdout a).
Definition set_stdout (x : list string) (a : ArffFile) : ArffFile :=
  MkArff (relation a) (attributes a) (attribute_types a) (attribute_data a)
    (comment a) (data a) (lineno a) (fout a) (class_attr_name a) (state a) x.

(** [ArffFile()] with [clear()]: the empty dataset (no [state] yet). *)
Definition ArffFile_new : ArffFile :=
  MkArff "" [] ∅ ∅ (CommentLines []) [] 0 None None None [].

(** [print(s, file=self.fout)] on an open stream. *)
Definition print_fout (s : string) (a : ArffFile) : ArffFile :=
  match fout a with
  | Some out => set_fout (Some (out ++ [s])) a
  | None => a
  end.

(** [print(s)] *)
Definition print_stdout (s : string) (a : ArffFile) : ArffFile :=
  set_stdout (stdout a ++ [s]) a.

(** [self.attribute_types[name]] *)
Definition type_of (a : ArffFile) (name : string) : result atype :=
  from_option KeyError (attribute_types a !! name).

(** [self.esc(s)] *)
Definition esc (s : string) : string :=
  Py.replace "''" "'" (String Py.squote s +:+ Py.chr Py.squote).

(** [convert_weka_to_py_date_pattern] *)
Definition convert_weka_to_py_date_pattern (p : string) : string :=
  let p := Py.replace "yyyy" "%Y" p in
  let p := Py.replace "MM" "%m" p in
  let p := Py.replace "dd" "%d" p in
  let p := Py.replace "HH" "%H" p in
  let p := Py.replace "mm" "%M" p in
  let p := Py.replace "ss" "%S" p in
  p.

(** ** The writer *)

Section Writer.
Context (host : Host).

(** [str(e)] for an entry of a row: a [Value] prints as the [repr] of
    its payload. *)
Definition cell_str (c : cell) : string :=
  match c with
  | CValue x => py_repr host (value x)
  | CRaw p => py_str host p
  end.

(** [e == MISSING] for an entry of a row. *)
Definition cell_is_missing (c : cell) : bool :=
  match c with
  | CValue _ => false
  | CRaw p => is_missing p
  end.

(** [smart_quote], local to [write_line]. *)
Definition smart_quote (v : pyval) : pyval :=
  match v with
  | PStr s =>
      if Py.contains " " s
         && negb (bool_decide (Py.first_char s = Some Py.dquote))
      then PStr (String Py.dquote s +:+ Py.chr Py.dquote)
      else v
  | _ => v
  end.

(** The elements met when iterating over [self.attribute_data[name]]. *)
Definition adata_iter (a : ArffFile) (name : string) : result (list pyval) :=
  match attribute_data a !! name with
  | None => Raise KeyError
  | Some DNone => Raise TypeError
  | Some (DList vs) | Some (DSet vs) => Ok vs
  | Some (DPattern p) => Ok (map (fun c => PStr (Py.chr c)) (list_ascii_of_string p))
  end.

(** The dense branch of [write_line]: one field per zipped pair. *)
Definition dense_field (a : ArffFile) (e : cell) (name : string)
  : result string :=
  t ← type_of a name;
  if in_NUMERIC_TYPES t then Ok (cell_str e)
  else match t with
       | TYPE_STRING =>
           match e with
           | CRaw (PStr s) => Ok (esc s)
           | _ => Raise TypeError
           end
       | TYPE_NOMINAL => Ok (cell_str e)
       | _ => Raise Exception
       end.

Fixpoint dense_fields (a : ArffFile) (d : list cell) (names : list string)
  : result (list string) :=
  match d, names with
  | e :: d', n :: names' =>
      s ← dense_field a e n;
      r ← dense_fields a d' names';
      Ok (s :: r)
  | _, _ => Ok []
  end.

(** The sparse branch, first loop: an entry of a positional row is
    wrapped according to the declared type of its attribute. *)
Definition wrap_entry (a : ArffFile) (k : string) (c : cell) : result cell :=
  match c with
  | CValue _ => Ok c
  | CRaw p =>
      if is_missing p then CValue <$> Str host p false
      else match attribute_types a !! k with
           | Some TYPE_NUMERIC | Some TYPE_REAL => CValue <$> Num host p false
           | Some TYPE_STRING => CValue <$> Str host p false
           | Some TYPE_INTEGER => CValue <$> Int p false
           | Some TYPE_NOMINAL => CValue <$> Nom p false
           | Some TYPE_DATE => CValue <$> Dt p false
           | None => Raise Exception
           end
  end.

Fixpoint wrap_entries (a : ArffFile) (d : dict cell) : result (dict cell) :=
  match d with
  | [] => Ok []
  | (k, c) :: d' =>
      c' ← wrap_entry a k c;
      r ← wrap_entries a d';
      Ok ((k, c') :: r)
  end.

(** [dict(zip(self.attributes, d))] and the wrapping of its entries. *)
Definition dict_of_row (a : ArffFile) (d : row) : result (dict cell) :=
  match d with
  | RDict m => Ok m
  | RList l => wrap_entries a (dict_of_pairs (combine (attributes a) l))
  end.

(** The date branch: the pattern of the attribute, converted, applied
    to the payload read as a calendar value. *)
Definition format_date (a : ArffFile) (name : string) (payload : pyval)
  : result pyval :=
  p ← match attribute_data a !! name with
      | None => Ok DEFAULT_DATE_FORMAT
      | Some (DPattern p) => Ok p
      | Some _ => Raise AttributeError
      end;
  let date_format := convert_weka_to_py_date_pattern p in
  d ← match payload with
      | PStr s => from_option ValueError (dateutil_parse host s)
      | PDate d => Ok d
      | _ => Raise AssertionError
      end;
  Ok (PStr (strftime host d date_format)).

(** The value a present entry resolves to (the [if]/[elif] chain at the
    head of the second loop). *)
Definition resolve (a : ArffFile) (name : string) (c : cell) : result pyval :=
  match c with
  | CRaw p => Ok (if is_missing p then PStr MISSING else p)
  | CValue x =>
      if is_missing (value x) then Ok (PStr MISSING)
      else match kind_of x with
           | KString =>
               Ok (PStr (String Py.dquote (py_str host (value x))
                         +:+ Py.chr Py.dquote))
           | KDate => format_date a name (value x)
           | _ => Ok (value x)
           end
  end.

(** The test that drops a column: a value other than the missing
    marker, for a nominal attribute, whose text is not among the texts
    of the declared values. *)
Definition dropped (a : ArffFile) (name : string) (v : pyval) : result bool :=
  if negb (is_missing v) then
    t ← type_of a name;
    if bool_decide (t = TYPE_NOMINAL) then
      vs ← adata_iter a name;
      Ok (negb (bool_decide (py_str host v ∈ map (py_str host) vs)))
    else Ok false
  else Ok false.

(** ['%i %s' % (i, smart_quote(v))] *)
Definition token (i : Z) (v : pyval) : string :=
  Py.str_of_Z i +:+ " " +:+ py_str host (smart_quote v).

(** The second loop: the tokens of the columns, in schema order. *)
Fixpoint sparse_tokens (a : ArffFile) (d : dict cell) (i : Z)
    (names : list string) : result (list string) :=
  match names with
  | [] => Ok []
  | name :: names' =>
      match dict_get name d with
      | None => sparse_tokens a d (i + 1) names'
      | Some c =>
          v ← resolve a name c;
          omit ← dropped a name v;
          r ← sparse_tokens a d (i + 1) names';
          Ok (if (omit : bool) then r else token i v :: r)
      end
  end.

(** The end of the sparse branch: no line for a single token that
    contains the missing marker, or for no token. *)
Definition sparse_line (line : list string) : option string :=
  match line with
  | [t] => if Py.contains "?" t then None
           else Some ("{" +:+ Py.join ", " line +:+ "}")
  | [] => None
  | _ => Some ("{" +:+ Py.join ", " line +:+ "}")
  end.

(** [write_line(d, fmt)], the text it returns: [None] is the bare
    [return].  What the call leaves in the row [d] is in [write_line_row]
    below. *)
Definition write_line (a : ArffFile) (d : row) (fmt : format)
  : result (option string) :=
  match fmt with
  | DENSE =>
      match d with
      | RDict _ => Raise AssertionError
      | RList l =>
          line ← dense_fields a l (attributes a);
          Ok (Some (Py.join "," line))
      end
  | SPARSE =>
      m ← dict_of_row a d;
      line ← sparse_tokens a m 0 (attributes a);
      Ok (sparse_line line)
  end.
End Writer.

(** *** The header *)

Section Header.
Context (host : Host).

Definition numval_ltb (a b : numval) : bool :=
  match a, b with
  | NFinite p, NFinite q => negb (Qle_bool q p)
  | NInfinity true, NFinite _ | NFinite _, NInfinity false
  | NInfinity true, NInfinity false => true
  | _, _ => false
  end.

Definition datetime_key (d : datetime) : list Z :=
  [dt_year d; dt_month d; dt_day d; dt_hour d; dt_minute d; dt_second d].

Fixpoint lex_ltb (a b : list Z) : bool :=
  match a, b with
  | x :: a', y :: b' => (x <? y) || (x =? y) && lex_ltb a' b'
  | [], _ :: _ => true
  | _, _ => false
  end.

(** [a < b] on payloads; [TypeError] across strings, numbers and dates. *)
Definition py_lt (a b : pyval) : result bool :=
  match a, b with
  | PStr s, PStr t => Ok (String.ltb s t)
  | PDate d, PDate e => Ok (lex_ltb (datetime_key d) (datetime_key e))
  | _, _ =>
      match numval_of a, numval_of b with
      | Some x, Some y => Ok (numval_ltb x y)
      | _, _ => Raise TypeError
      end
  end.

(** [sorted(l)], as a stable insertion sort on [<]. *)
Fixpoint insert_sorted (x : pyval) (l : list pyval) : result (list pyval) :=
  match l with
  | [] => Ok [x]
  | y :: l' =>
      b ← py_lt x y;
      if (b : bool) then Ok (x :: l)
      else r ← insert_sorted x l'; Ok (y :: r)
  end.

Definition py_sorted (l : list pyval) : result (list pyval) :=
  fold_left (fun acc x => s ← acc; insert_sorted x s) l (Ok []).

(** ["%s" % self.attribute_data.get(a, DEFAULT_DATE_FORMAT)] *)
Definition date_pattern_text (a : ArffFile) (name : string) : string :=
  match attribute_data a !! name with
  | None => DEFAULT_DATE_FORMAT
  | Some DNone => "None"
  | Some (DPattern p) => p
  | Some (DList vs) => "[" +:+ Py.join ", " (map (py_repr host) vs) +:+ "]"
  | Some (DSet []) => "set()"
  | Some (DSet vs) => "{" +:+ Py.join ", " (map (py_repr host) vs) +:+ "}"
  end.

(** The [@attribute] directive of one attribute. *)
Definition attribute_line (a : ArffFile) (name : string) : result string :=
  t ← type_of a name;
  match t with
  | TYPE_INTEGER => Ok ("@attribute " +:+ esc name +:+ " integer")
  | TYPE_NUMERIC | TYPE_REAL => Ok ("@attribute " +:+ esc name +:+ " numeric")
  | TYPE_STRING => Ok ("@attribute " +:+ esc name +:+ " string")
  | TYPE_NOMINAL =>
      vs ← adata_iter a name;
      nom_vals ← py_sorted (filter (fun v => is_missing v = false) vs);
      Ok ("@attribute " +:+ esc name +:+ " {"
          +:+ Py.join "," (map (py_str host) nom_vals) +:+ "}")
  | TYPE_DATE =>
      Ok ("@attribute " +:+ esc name +:+ " date "
          +:+ String Py.dquote (date_pattern_text a name)
          +:+ Py.chr Py.dquote)
  end.

(** [write_attributes]: the lines it prints. *)
Fixpoint attribute_lines (a : ArffFile) (names : list string)
  : result (list string) :=
  match names with
  | [] => Ok []
  | n :: names' =>
      l ← attribute_line a n;
      r ← attribute_lines a names';
      Ok (l :: r)
  end.

Definition write_attributes (a : ArffFile) : result (list string) :=
  attribute_lines a (attributes a).

(** ['% ' + re.sub("\n", "\n% ", '\n'.join(self.comment))] *)
Definition comment_line (a : ArffFile) : string :=
  let joined :=
    match comment a with
    | CommentLines ls => Py.join (Py.chr Py.LF) ls
    | CommentText s => Py.join (Py.chr Py.LF) (map Py.chr (list_ascii_of_string s))
    end in
  "% " +:+ Py.replace (Py.chr Py.LF) (String Py.LF "% ") joined.

(** The lines printed for the rows: a row whose line is [None] or
    empty prints nothing. *)
Fixpoint data_lines (a : ArffFile) (fmt : format) (rows : list row)
  : result (list string) :=
  match rows with
  | [] => Ok []
  | d :: rows' =>
      line_str ← write_line host a d fmt;
      r ← data_lines a fmt rows';
      Ok (match line_str with
          | Some (String c s) => String c s :: r
          | _ => r
          end)
  end.

(** [write]: the arguments of the successive [print] calls. *)
Definition write_lines (a : ArffFile) (fmt : format)
    (schema_only data_only : bool) : result (list string) :=
  _ ← py_assert (negb (schema_only && data_only));
  header ← (if data_only then Ok []
            else attrs ← write_attributes a;
                 Ok (comment_line a :: ("@relation " +:+ relation a) :: attrs));
  rows ← (if schema_only then Ok []
          else ls ← data_lines a fmt (data a); Ok ("@data" :: ls));
  Ok (header ++ rows).

(** What a stream holds after the given [print] calls. *)
Definition text_of (lines : list string) : string :=
  String.concat "" (map (fun l => l +:+ Py.chr Py.LF) lines).

(** [write(fmt=..., schema_only=..., data_only=...)] with [fout=None]:
    the text of a fresh [StringIO]. *)
Definition write (a : ArffFile) (fmt : format)
    (schema_only data_only : bool) : result string :=
  text_of <$> write_lines a fmt schema_only data_only.

(** *** What writing does to the stored rows

    The date branch of [write_line] assigns the formatted text to the
    payload of the [Date] value it formats ([v.value = v = ...]), and that
    value is the object the row holds.  The definitions below give the row
    after the call beside the text; [write_line] above is the text alone.
    Each entry of a row is taken as an object of its own. *)

(** The entry after the [if]/[elif] chain has resolved it to [v]. *)
Definition resolved_cell (c : cell) (v : pyval) : cell :=
  match c with
  | CValue x =>
      if negb (is_missing (value x)) && bool_decide (kind_of x = KDate)
      then CValue (MkValue KDate v (cls x))
      else c
  | CRaw _ => c
  end.

(** The second loop of the sparse branch on the name-keyed row [d]: the
    row after the loop, and the tokens.  A later column of the same name
    meets the value as the earlier one left it. *)
Fixpoint sparse_loop (a : ArffFile) (d : dict cell) (i : Z)
    (names : list string) : result (dict cell * list string) :=
  match names with
  | [] => Ok (d, [])
  | name :: names' =>
      match dict_get name d with
      | None => sparse_loop a d (i + 1) names'
      | Some c =>
          v ← resolve host a name c;
          let d1 := dict_set name (resolved_cell c v) d in
          omit ← dropped host a name v;
          '(d', r) ← sparse_loop a d1 (i + 1) names';
          Ok (d', if (omit : bool) then r else token host i v :: r)
      end
  end.

(** The entries of a positional row after the loop has run on
    [m = dict(zip(names, row))]: the dict holds the [Value] object of the
    last position zipped under each name; a bare entry was wrapped in an
    object of the dict's own. *)
Fixpoint restore (m : dict cell) (ps : list (string * cell)) : list cell :=
  match ps with
  | [] => []
  | (n, c) :: ps' =>
      match c with
      | CValue _ =>
          if bool_decide (n ∈ map fst ps') then c
          else default c (dict_get n m)
      | CRaw _ => c
      end :: restore m ps'
  end.

Definition row_after (a : ArffFile) (d : row) (m : dict cell) : row :=
  match d with
  | RDict _ => RDict m
  | RList l =>
      RList (restore m (combine (attributes a) l)
             ++ skipn (length (attributes a)) l)
  end.

(** [write_line(d, fmt)]: the row [d] after the call, and the text. *)
Definition write_line_row (a : ArffFile) (d : row) (fmt : format)
  : result (row * option string) :=
  match fmt with
  | DENSE => s ← write_line host a d DENSE; Ok (d, s)
  | SPARSE =>
      m ← dict_of_row host a d;
      '(m', line) ← sparse_loop a m 0 (attributes a);
      Ok (row_after a d m', sparse_line line)
  end.

(** The loop of [write] over the rows: the rows after it, and the lines
    printed. *)
Fixpoint data_lines_rows (a : ArffFile) (fmt : format) (rows : list row)
  : result (list row * list string) :=
  match rows with
  | [] => Ok ([], [])
  | d :: rows' =>
      '(d', line_str) ← write_line_row a d fmt;
      '(ds, r) ← data_lines_rows a fmt rows';
      Ok (d' :: ds,
          match line_str with
          | Some (String c s) => String c s :: r
          | _ => r
          end)
  end.

(** [write] on the stream [fout]: the stored rows after the call, and
    the arguments of the successive [print] calls. *)
Definition write_rows (a : ArffFile) (fmt : format)
    (schema_only data_only : bool) : result (list row * list string) :=
  _ ← py_assert (negb (schema_only && data_only));
  header ← (if data_only then Ok []
            else attrs ← write_attributes a;
                 Ok (comment_line a :: ("@relation " +:+ relation a) :: attrs));
  '(ds, rows) ← (if schema_only then Ok (data a, [])
                 else '(ds, ls) ← data_lines_rows a fmt (data a);
                      Ok (ds, "@data" :: ls));
  Ok (ds, header ++ rows).

(** [open_stream(class_attr_name)]: the header and the rows held so far
    go to the new stream; the rows are left as the two calls of [write]
    leave them. *)
Definition open_stream (a : ArffFile) (name : option string)
  : result ArffFile :=
  let a := set_fout (Some []) a in
  let a := match name with
           | Some (String c s) => set_class_attr_name (Some (String c s)) a
           | _ => a
           end in
  '(ds1, l1) ← write_rows a SPARSE true false;
  let a := set_data ds1 a in
  '(ds2, l2) ← write_rows a SPARSE false true;
  Ok (set_data ds2 (set_fout (Some (l1 ++ l2)) a)).

(** [close_stream]: the stream is closed; the text written to it is
    what its file holds. *)
Definition close_stream (a : ArffFile) : ArffFile * option string :=
  (set_fout None a, text_of <$> fout a).
End Header.

(** ** The parser *)

Module Re.
Import Py.

(** The longest prefix of characters that satisfy [p], and the rest. *)
Fixpoint span (p : ascii -> bool) (s : string) : string * string :=
  match s with
  | EmptyString => (EmptyString, EmptyString)
  | String c s' =>
      if p c then let '(w, r) := span p s' in (String c w, r)
      else (EmptyString, s)
  end.

Definition ident_char (c : ascii) : bool :=
  isalpha_ c || isdigit c
  || Ascii.eqb c "-" || Ascii.eqb c "[" || Ascii.eqb c "]".

(** [[a-zA-Z_][a-zA-Z0-9_\-\[\]]*] at the head of [s] *)
Definition match_ident (s : string) : option string :=
  match s with
  | String c s' =>
      if isalpha_ c then Some (String c (span ident_char s').1) else None
  | EmptyString => None
  end.

(** [\{[^\}]*\}] at the head of [s] *)
Definition match_braced (s : string) : option string :=
  match s with
  | String "{" s' =>
      let '(w, r) := span (fun c => negb (Ascii.eqb c "}")) s' in
      match r with
      | String _ _ => Some (String "{" w +:+ "}")
      | EmptyString => None
      end
  | _ => None
  end.

(** [q[^q]+q] at the head of [s], for a quote character [q] *)
Definition match_quoted (q : ascii) (s : string) : option string :=
  match s with
  | String c s' =>
      if Ascii.eqb c q then
        let '(w, r) := span (fun c => negb (Ascii.eqb c q)) s' in
        match w, r with
        | String _ _, String _ _ => Some (String q w +:+ chr q)
        | _, _ => None
        end
      else None
  | EmptyString => None
  end.

(** The pattern of [__parse_attribute] at the head of [s]: the first
    alternative that matches. *)
Definition match_token (s : string) : option string :=
  match match_ident s with
  | Some t => Some t
  | None =>
      match match_braced s with
      | Some t => Some t
      | None =>
          match match_quoted squote s with
          | Some t => Some t
          | None => match_quoted dquote s
          end
      end
  end.

(** [p.findall(s)]: the matches from left to right, the search resuming
    after each match; [skip] characters are still part of the last
    match. *)
Fixpoint findall_go (skip : nat) (s : string) : list string :=
  match s with
  | EmptyString => []
  | String _ s' =>
      match skip with
      | S k => findall_go k s'
      | O =>
          match match_token s with
          | Some t => t :: findall_go (String.length t - 1) s'
          | None => findall_go 0 s'
          end
      end
  end.
Definition findall (s : string) : list string := findall_go 0 s.

(** [STRIP_QUOTES_REGEX.sub('', s)]: one quote character is removed at
    the start, and one at the end (or before a final line feed). *)
Definition is_quote (c : ascii) : bool :=
  Ascii.eqb c squote || Ascii.eqb c dquote.

Fixpoint strip_end_quote (s : string) : string :=
  match s with
  | EmptyString => EmptyString
  | String c EmptyString => if is_quote c then EmptyString else s
  | String c (String d EmptyString as s') =>
      if is_quote c && Ascii.eqb d LF then s'
      else String c (strip_end_quote s')
  | String c s' => String c (strip_end_quote s')
  end.

Definition strip_quotes (s : string) : string :=
  match s with
  | String c s' => if is_quote c then strip_end_quote s' else strip_end_quote s
  | EmptyString => EmptyString
  end.

(** [re.split(r'(?<!\\),', s)]: the pieces between the commas that do
    not follow a backslash. *)
Fixpoint split_commas_go (after_backslash : bool) (s : string) : list string :=
  match s with
  | EmptyString => [EmptyString]
  | String c s' =>
      if Ascii.eqb c "," && negb after_backslash
      then EmptyString :: split_commas_go false s'
      else match split_commas_go (Ascii.eqb c backslash) s' with
           | x :: xs => String c x :: xs
           | [] => [chr c]
           end
  end.
Definition split_commas (s : string) : list string := split_commas_go false s.

(** The first element of [re.findall] for the pattern of a sparse
    column: digits at the start, white space, then the rest of the
    string, which holds no line feed.  The two groups of the one possible
    match, [None] when the list is empty. *)
Definition index_value (s : string) : option (string * string) :=
  let '(digits, r) := span isdigit s in
  let '(spaces, v) := span isspace r in
  match digits, spaces with
  | String _ _, String _ _ =>
      if contains LF v then None else Some (digits, v)
  | _, _ => None
  end.
End Re.

Section Parser.
Context (host : Host).

(** [define_attribute(name, atype, data)] for an [atype] that [TYPES]
    lists: the three assignments.  [TYPES] lists every type but [real];
    the call itself is [define_attribute_call]. *)
Definition define_attribute (name : string) (t : atype) (d : adata)
    (a : ArffFile) : ArffFile :=
  set_attribute_data (<[name := d]> (attribute_data a))
    (set_attribute_types (<[name := t]> (attribute_types a))
       (set_attributes (attributes a ++ [name]) a)).

(** A call of [define_attribute]: the name is appended first and the
    assertion [atype in TYPES] comes next, so for [real] the caller gets
    [AssertionError] (with the name already listed, and no type for it). *)
Definition define_attribute_call (name : string) (t : atype) (d : adata)
    (a : ArffFile) : result ArffFile :=
  if bool_decide (t = TYPE_REAL) then Raise AssertionError
  else Ok (define_attribute name t d a).

(** [__parse_relation] *)
Definition parse_relation (l : string) (a : ArffFile) : result ArffFile :=
  name ← from_option IndexError (Py.split_ws l !! 1%nat);
  Ok (set_relation name a).

(** [__parse_attribute] *)
Definition parse_attribute (l : string) (a : ArffFile) : result ArffFile :=
  let l := map Py.strip (Re.findall l) in
  name ← from_option IndexError (l !! 1%nat);
  let name := Re.strip_quotes name in
  atype ← from_option IndexError (l !! 2%nat);
  if String.eqb atype "integer" then Ok (define_attribute name TYPE_INTEGER DNone a)
  else if String.eqb atype "real" || String.eqb atype "numeric"
  then Ok (define_attribute name TYPE_NUMERIC DNone a)
  else if String.eqb atype "string" then Ok (define_attribute name TYPE_STRING DNone a)
  else if String.eqb atype "date" then
    let data := match l !! 3%nat with
                | Some p => DPattern (Re.strip_quotes p)
                | None => DNone
                end in
    Ok (define_attribute name TYPE_DATE data a)
  else if bool_decide (Py.first_char atype = Some "{"%char)
          && bool_decide (Py.last_char atype = Some "}"%char)
  then
    let values := map Py.strip (Py.split_on "," (Py.init (Py.tail atype))) in
    Ok (define_attribute name TYPE_NOMINAL (DList (map PStr values)) a)
  else Raise NotImplementedError.

(** The quotes around a sparse value are dropped when its first and
    last characters are the same quote character. *)
Definition unquote (v : string) : result string :=
  match Py.first_char v, Py.last_char v with
  | Some c, Some d =>
      Ok (if Ascii.eqb c d && Re.is_quote c then Py.init (Py.tail v) else v)
  | _, _ => Raise IndexError
  end.

(** One piece of a sparse line: the name and the [Value] it gives. *)
Definition parse_sparse_part (a : ArffFile) (part : string)
  : result (string * cell) :=
  '(index, v) ← from_option IndexError (Re.index_value (Py.strip part));
  index ← from_option ValueError (Py.int_of_str index);
  v ← unquote v;
  name ← from_option IndexError (attributes a !! Z.to_nat index);
  t ← type_of a name;
  x ← (if String.eqb v MISSING then Str host (PStr v) false
       else new_Value host (TYPE_TO_CLASS t) (PStr v));
  Ok (name, CValue x).

Fixpoint parse_sparse_parts (a : ArffFile) (parts : list string)
    (dline : dict cell) : result (dict cell) :=
  match parts with
  | [] => Ok dline
  | part :: parts' =>
      '(name, x) ← parse_sparse_part a part;
      parse_sparse_parts a parts' (dict_set name x dline)
  end.

(** [v in self.attribute_data[n]] for a field of a dense row. *)
Definition nominal_member (a : ArffFile) (n : string) (v : cell)
  : result bool :=
  match attribute_data a !! n with
  | None => Raise KeyError
  | Some DNone => Raise TypeError
  | Some (DList vs) | Some (DSet vs) =>
      Ok (match v with
          | CRaw p => existsb (py_eq p) vs
          | CValue _ => false
          end)
  | Some (DPattern pat) =>
      match v with
      | CRaw (PStr s) =>
          Ok (existsb (fun i => String.prefix s (Py.drop i pat))
                (seq 0 (S (String.length pat))))
      | _ => Raise TypeError
      end
  end.

(** The loop of [_parse_data] over the zipped names and fields: a
    field of a [date] attribute meets no branch and adds nothing. *)
Fixpoint dense_datum (a : ArffFile) (names : list string) (l : list cell)
  : result (list cell) :=
  match names, l with
  | n :: names', v :: l' =>
      t ← type_of a n;
      here ←
        (if cell_is_missing v then Ok [v]
         else match t with
              | TYPE_INTEGER =>
                  match v with
                  | CRaw p => z ← py_int p; Ok [CRaw (PInt z)]
                  | CValue _ => Raise TypeError
                  end
              | TYPE_NUMERIC | TYPE_REAL =>
                  d ← from_option InvalidOperation
                        (Decimal_of_str host (cell_str host v));
                  Ok [CRaw (PDecimal d)]
              | TYPE_STRING => Ok [v]
              | TYPE_NOMINAL =>
                  b ← nominal_member a n v;
                  if (b : bool) then Ok [v] else Raise Exception
              | TYPE_DATE => Ok []
              end);
      rest ← dense_datum a names' l';
      Ok (here ++ rest)
  | _, _ => Ok []
  end.

(** ["Warning: line %d contains %i values but it should contain %i
    values" % (lineno, found, expected)] *)
Definition count_warning (lineno : Z) (found expected : nat) : string :=
  "Warning: line " +:+ Py.str_of_Z lineno
  +:+ " contains " +:+ Py.str_of_Z (Z.of_nat found)
  +:+ " values but it should contain " +:+ Py.str_of_Z (Z.of_nat expected)
  +:+ " values".

(** The end of [_parse_data], from the field count on. *)
Definition store_dense (l : list cell) (a : ArffFile) : result ArffFile :=
  if negb (length l =? length (attributes a))%nat then
    Ok (print_stdout
          (count_warning (lineno a) (length l) (length (attributes a))) a)
  else
    datum ← dense_datum a (attributes a) l;
    match fout a with
    | Some _ =>
        line_str ← write_line host a (RList datum) SPARSE;
        Ok (match line_str with
            | Some (String c s) => print_fout (String c s) a
            | _ => a
            end)
    | None => Ok (set_data (data a ++ [RList datum]) a)
    end.

(** The argument of [_parse_data]: a line of text or a row. *)
Inductive line_arg : Type :=
  | LStr (s : string)
  | LRow (r : row).

(** [set(x) == set(y)] for two lists of strings. *)
Definition same_set (x y : list string) : bool :=
  forallb (fun s => bool_decide (s ∈ y)) x
  && forallb (fun s => bool_decide (s ∈ x)) y.

(** [_parse_data] *)
Definition parse_data (l : line_arg) (a : ArffFile) : result ArffFile :=
  match l with
  | LStr s =>
      let s := Py.strip s in
      if Py.startswith s "{" then
        _ ← py_assert (bool_decide (Py.last_char s = Some "}"%char));
        _ ← py_assert (negb (bool_decide (is_Some (fout a))));
        dline ← parse_sparse_parts a (Re.split_commas (Py.init (Py.tail s))) [];
        Ok (set_data (data a ++ [RDict dline]) a)
      else
        store_dense (map (fun f => CRaw (PStr (Py.strip f))) (Py.split_on "," s)) a
  | LRow (RDict d) =>
      _ ← py_assert (length d =? length (attributes a))%nat;
      _ ← py_assert (same_set (map esc (dict_keys d)) (map esc (attributes a)));
      l ← mapM (fun name => from_option KeyError (dict_get name d)) (attributes a);
      store_dense l a
  | LRow (RList l) => store_dense l a
  end.
End Parser.

Section Dataset.
Context (host : Host).

(** The [in_header] branch of [parseline]: three independent tests. *)
Definition parse_header_line (l : string) (a : ArffFile) : result ArffFile :=
  let ll := Py.lower l in
  a ← (if Py.startswith ll "@relation " then parse_relation l a else Ok a);
  a ← (if Py.startswith ll "@attribute " then parse_attribute l a else Ok a);
  Ok (if Py.startswith ll "@data" then set_state (Some st_data) a else a).

(** [parseline]: the first line that is not a comment closes the
    comment and is read again as a header line. *)
Definition parseline (l : string) (a : ArffFile) : result ArffFile :=
  match state a with
  | None => Raise AttributeError
  | Some st_comment =>
      match comment a with
      | CommentText _ => Raise AttributeError
      | CommentLines ls =>
          if bool_decide (Py.first_char l = Some "%"%char)
          then Ok (set_comment (CommentLines (ls ++ [Py.drop 2 l])) a)
          else parse_header_line l
                 (set_state (Some st_in_header)
                    (set_comment (CommentText (Py.join (Py.chr Py.LF) ls)) a))
      end
  | Some st_in_header => parse_header_line l a
  | Some st_data =>
      match Py.first_char l with
      | Some c => if Ascii.eqb c "%" then Ok a else parse_data host (LStr l) a
      | None => Ok a
      end
  end.

(** The loop of [parse] over the lines. *)
Fixpoint parse_lines (schema_only : bool) (ls : list string) (a : ArffFile)
  : result ArffFile :=
  match ls with
  | [] => Ok a
  | l :: ls' =>
      a ← parseline l a;
      let a := set_lineno (lineno a + 1) a in
      if schema_only && bool_decide (state a = Some st_data) then Ok a
      else parse_lines schema_only ls' a
  end.

(** [ArffFile.parse(s, schema_only)] *)
Definition parse (s : string) (schema_only : bool) : result ArffFile :=
  parse_lines schema_only (Py.splitlines s)
    (set_lineno 1 (set_state (Some st_comment) ArffFile_new)).

(** [self.attributes.remove(name); self.attributes.append(name)], the
    [ValueError] of a name that is not listed being passed over. *)
Fixpoint remove_first (name : string) (l : list string) : list string :=
  match l with
  | [] => []
  | x :: l' => if String.eqb x name then l' else x :: remove_first name l'
  end.

Definition move_to_end (name : string) (l : list string) : list string :=
  if bool_decide (name ∈ l) then remove_first name l ++ [name] else l.

(** [v.value not in self.attribute_data[k]], for the payload of a
    [Nominal] value. *)
Definition value_member (a : ArffFile) (k : string) (p : pyval)
  : result bool :=
  match attribute_data a !! k with
  | None => Raise KeyError
  | Some DNone => Raise TypeError
  | Some (DList vs) | Some (DSet vs) => Ok (existsb (py_eq p) vs)
  | Some (DPattern pat) =>
      match p with
      | PStr s =>
          Ok (existsb (fun i => String.prefix s (Py.drop i pat))
                (seq 0 (S (String.length pat))))
      | _ => Raise TypeError
      end
  end.

(** The state the loop of [append] threads: the dataset, the row (from
    which entries are deleted while streaming) and [schema_change]. *)
Record append_state : Type := MkAppend {
  ap_self : ArffFile;
  ap_line : dict cell;
  ap_schema_change : bool
}.

(** [self.attribute_types.get(k, v.c_type if isinstance(v, Value) else None)] *)
Definition prior_type_of (a : ArffFile) (k : string) (v : cell) : option atype :=
  match attribute_types a !! k with
  | Some t => Some t
  | None => match v with
            | CValue x => Some (c_type (kind_of x))
            | CRaw _ => None
            end
  end.

(** The [Value] the loop works on: a bare scalar is wrapped by the class
    of the prior type (the missing marker as a [String]); the debugging
    [print] of the source goes to the standard output. *)
Definition item_value (k : string) (v : cell) (a : ArffFile)
  : result (Value * ArffFile) :=
  match v with
  | CValue x => Ok (x, a)
  | CRaw p =>
      if is_missing p then x ← Str host p false; Ok (x, a)
      else
        let prior_type := prior_type_of a k v in
        let a := print_stdout
                   ("prior_type: " +:+ default "None" (atype_name <$> prior_type)
                    +:+ " " +:+ k +:+ " " +:+ py_str host p) a in
        t ← from_option KeyError prior_type;
        x ← new_Value host (TYPE_TO_CLASS t) p;
        Ok (x, a)
  end.

(** [if v.value != MISSING: assert prior_type == v.c_type] *)
Definition check_prior_type (prior_type : option atype) (x : Value)
  : result unit :=
  if negb (is_missing (value x))
  then py_assert (bool_decide (prior_type = Some (c_type (kind_of x))))
  else Ok tt.

(** [if k not in self.attribute_types]: while streaming the entry is
    deleted from the row; otherwise the attribute is declared. *)
Definition declare_item (k : string) (x : Value) (s : append_state)
  : append_state :=
  let a := ap_self s in
  if negb (bool_decide (is_Some (attribute_types a !! k))) then
    match fout a with
    | Some _ => MkAppend a (dict_del k (ap_line s)) (ap_schema_change s)
    | None =>
        MkAppend
          (set_attributes (attributes a ++ [k])
             (set_attribute_types
                (<[k := c_type (kind_of x)]> (attribute_types a)) a))
          (ap_line s) true
    end
  else s.

(** [if isinstance(v, Nominal)]: while streaming the entry is deleted
    when its attribute is not listed or its value is not declared;
    otherwise a value that is not declared is added to the set. *)
Definition nominal_item (k : string) (x : Value) (s : append_state)
  : result append_state :=
  let a := ap_self s in
  if bool_decide (kind_of x = KNominal) then
    match fout a with
    | Some _ =>
        if negb (bool_decide (k ∈ attributes a))
        then Ok (MkAppend a (dict_del k (ap_line s)) (ap_schema_change s))
        else
          b ← value_member a k (value x);
          Ok (MkAppend a (if (b : bool) then ap_line s
                          else dict_del k (ap_line s))
                (ap_schema_change s))
    | None =>
        let a := match attribute_data a !! k with
                 | Some _ => a
                 | None => set_attribute_data
                             (<[k := DSet []]> (attribute_data a)) a
                 end in
        b ← value_member a k (value x);
        if (b : bool) then Ok (MkAppend a (ap_line s) (ap_schema_change s))
        else match attribute_data a !! k with
             | Some (DSet vs) =>
                 Ok (MkAppend
                       (set_attribute_data
                          (<[k := DSet (vs ++ [value x])]> (attribute_data a)) a)
                       (ap_line s) true)
             | _ => Raise AttributeError
             end
    end
  else Ok s.

(** [if v.cls]: the first flagged attribute becomes the class attribute;
    a flag on another attribute fails the assertion. *)
Definition class_item (k : string) (x : Value) (a : ArffFile)
  : result ArffFile :=
  if cls x then
    match class_attr_name a with
    | None => Ok (set_class_attr_name (Some k) a)
    | Some c => _ ← py_assert (String.eqb c k); Ok a
    end
  else Ok a.

(** [if self.class_attr_name]: the class attribute, when it is listed,
    goes last. *)
Definition class_last (a : ArffFile) : ArffFile :=
  match class_attr_name a with
  | Some (String c s) =>
      set_attributes (move_to_end (String c s) (attributes a)) a
  | _ => a
  end.

(** One turn of the loop of [append], for the item [(k, v)]. *)
Definition append_item (k : string) (v : cell) (s : append_state)
  : result append_state :=
  let prior_type := prior_type_of (ap_self s) k v in
  '(x, a) ← item_value k v (ap_self s);
  _ ← check_prior_type prior_type x;
  let s := declare_item k x (MkAppend a (ap_line s) (ap_schema_change s)) in
  s ← nominal_item k x s;
  a ← class_item k x (ap_self s);
  Ok (MkAppend (class_last a) (ap_line s) (ap_schema_change s)).

Fixpoint append_items (items : list (string * cell)) (s : append_state)
  : result append_state :=
  match items with
  | [] => Ok s
  | (k, v) :: items' => s ← append_item k v s; append_items items' s
  end.

(** [append(line, schema_only, update_schema)] *)
Definition append (line : row) (schema_only update_schema : bool)
    (a : ArffFile) : result ArffFile :=
  match line with
  | RDict d =>
      s ← (if update_schema then
             s ← append_items d (MkAppend a d false);
             _ ← (if ap_schema_change s
                  then py_assert (negb (bool_decide (is_Some (fout (ap_self s)))))
                  else Ok tt);
             Ok s
           else Ok (MkAppend a d false));
      let a := ap_self s in
      if negb schema_only then
        match fout a with
        | Some _ =>
            line_str ← write_line host a (RDict (ap_line s)) SPARSE;
            Ok (match line_str with
                | Some (String c t) => print_fout (String c t) a
                | _ => a
                end)
        | None => Ok (set_data (data a ++ [RDict (ap_line s)]) a)
        end
      else Ok a
  | RList l =>
      _ ← py_assert (length l =? length (attributes a))%nat;
      parse_data host (LRow (RList l)) a
  end.
End Dataset.

(** ** The other methods of the dataset *)

(** [set_class(name)] *)
Definition set_class (name : string) (a : ArffFile) : result ArffFile :=
  _ ← py_assert (bool_decide (name ∈ attributes a));
  Ok (set_attributes (remove_first name (attributes a) ++ [name]) a).

(** The key of [alphabetize_attributes]: [(name == class_attr_name, name)],
    and [<] on two keys. *)
Definition is_class_name (c : option string) (name : string) : bool :=
  bool_decide (c = Some name).

Definition key_ltb (c : option string) (x y : string) : bool :=
  (negb (is_class_name c x) && is_class_name c y)
  || (Bool.eqb (is_class_name c x) (is_class_name c y) && String.ltb x y).

(** [list.sort(key=...)], as a stable insertion sort on [<] of the keys. *)
Fixpoint insert_by_key (c : option string) (x : string) (l : list string)
  : list string :=
  match l with
  | [] => [x]
  | y :: l' => if key_ltb c x y then x :: l else y :: insert_by_key c x l'
  end.

Definition sort_by_key (c : option string) (l : list string) : list string :=
  fold_left (fun acc x => insert_by_key c x acc) l [].

(** [alphabetize_attributes] *)
Definition alphabetize_attributes (a : ArffFile) : ArffFile :=
  set_attributes (sort_by_key (class_attr_name a) (attributes a)) a.

(** [list(self.comment)] *)
Definition comment_list (c : comment_t) : list string :=
  match c with
  | CommentLines ls => ls
  | CommentText s => map Py.chr (list_ascii_of_string s)
  end.

(** [copy(schema_only)]: a new object with the relation and the schema,
    and with the comment and the rows unless [schema_only]. *)
Definition copy (schema_only : bool) (a : ArffFile) : ArffFile :=
  let o := set_attribute_data (attribute_data a)
             (set_attribute_types (attribute_types a)
                (set_attributes (attributes a)
                   (set_relation (relation a) ArffFile_new))) in
  if schema_only then o
  else set_data (data a) (set_comment (CommentLines (comment_list (comment a))) o).

(** [len(self)] *)
Definition len (a : ArffFile) : nat := length (data a).

(** [len(d)] and [list(d)] for a row: a name-keyed row counts and yields
    its keys. *)
Definition row_len (d : row) : nat :=
  match d with RList l => length l | RDict m => length m end.

Definition row_items (d : row) : list cell :=
  match d with
  | RList l => l
  | RDict m => map (fun kv => CRaw (PStr kv.1)) m
  end.

(** One turn of [__iter__]: the row zipped under the attribute names
    without their quotes, and the two assertions. *)
Definition named_row (a : ArffFile) (d : row) : result (dict cell) :=
  let named := dict_of_pairs
                 (combine (map Re.strip_quotes (attributes a)) (row_items d)) in
  _ ← py_assert (row_len d =? length (attributes a))%nat;
  _ ← py_assert (row_len d =? length named)%nat;
  Ok named.

(** [list(self)]: what [__iter__] yields, or the assertion that stops it. *)
Fixpoint named_rows_go (a : ArffFile) (rows : list row)
  : result (list (dict cell)) :=
  match rows with
  | [] => Ok []
  | d :: rows' =>
      named ← named_row a d;
      r ← named_rows_go a rows';
      Ok (named :: r)
  end.

Definition named_rows (a : ArffFile) : result (list (dict cell)) :=
  named_rows_go a (data a).

(** [set(l)] and [s.update(values)] on declared values: one element for
    each class of equal values. *)
Definition set_add (v : pyval) (s : list pyval) : list pyval :=
  if existsb (py_eq v) s then s else s ++ [v].

Definition set_update (s values : list pyval) : list pyval :=
  fold_left (fun s v => set_add v s) values s.

(** [set_nominal_values(name, values)] *)
Definition set_nominal_values (name : string) (values : list pyval)
    (a : ArffFile) : result ArffFile :=
  _ ← py_assert (bool_decide (name ∈ attributes a));
  t ← type_of a name;
  _ ← py_assert (bool_decide (t = TYPE_NOMINAL));
  old ← match attribute_data a !! name with
        | None => Ok []
        | Some DNone => Raise TypeError
        | Some (DList vs) | Some (DSet vs) => Ok (set_update [] vs)
        | Some (DPattern p) =>
            Ok (set_update [] (map (fun c => PStr (Py.chr c)) (list_ascii_of_string p)))
        end;
  Ok (set_attribute_data
        (<[name := DSet (set_update old values)]> (attribute_data a)) a).

(** * Properties *)

(** ** Equality of values *)

(** C10: two [Value] objects are equal exactly when their payloads are:
    neither the subclass nor the class flag takes part, and
    [Integer(1, cls=True)] equals [Numeric(1.0, cls=False)]. *)
Theorem Value_eq_payload_only :
  (forall a b : Value, Value_eq a b = py_eq (value a) (value b))
  /\ (forall (k1 k2 : kind) (c1 c2 : bool) (v w : pyval),
        Value_eq (MkValue k1 v c1) (MkValue k2 w c2) = py_eq v w)
  /\ (forall host : Host,
        exists a b : Value,
          Int (PInt 1) true = Ok a
          /\ Num host (PFloat (S754_finite false 4503599627370496 (-52))) false = Ok b
          /\ kind_of a = KInteger /\ kind_of b = KNumeric
          /\ cls a = true /\ cls b = false
          /\ Value_eq a b = true).
Proof.
  split; [reflexivity | split; [reflexivity |]].
  intros host. eexists _, _.
  repeat split; reflexivity.
Qed.

(** ** Kind inference *)

(** A host for the examples: the only texts it reads as floats are those
    [int] reads, no text is a decimal or a date, and the texts it produces
    are fixed. *)
Definition example_host : Host := {|
  float_of_str := fun s =>
    match Py.int_of_str s with
    | Some z => match float_of_Z z with Ok f => Some f | Raise _ => None end
    | None => None
    end;
  str_of_float := fun _ => "nan";
  Decimal_of_str := fun _ => None;
  str_of_Decimal := fun _ => "NaN";
  float_of_Decimal := fun _ => S754_nan;
  str_of_datetime := fun _ => "0001-01-01 00:00:00";
  repr_of_datetime := fun _ => "datetime.datetime(1, 1, 1, 0, 0)";
  repr_of_str := fun s => String Py.squote s +:+ Py.chr Py.squote;
  dateutil_parse := fun _ => None;
  strftime := fun _ fmt => fmt
|}.

Lemma float_of_Z_not_ValueError (z : Z) : float_of_Z z <> Raise ValueError.
Proof. unfold float_of_Z. destruct (binary_normalize _ _ _ _ _); discriminate. Qed.

Lemma wrap_value_str (host : Host) (s : string) :
  wrap_value host (CRaw (PStr s)) = Ok (MkValue KString (PStr s) false).
Proof. unfold wrap_value. destruct (is_missing (PStr s)); reflexivity. Qed.

Lemma wrap_value_int (host : Host) (z : Z) :
  wrap_value host (CRaw (PInt z))
  = f ← float_of_Z z; Ok (MkValue KNumeric (PFloat f) false).
Proof.
  unfold wrap_value, Num, try_ValueError. simpl.
  pose proof (float_of_Z_not_ValueError z) as H.
  destruct (float_of_Z z) as [f | e]; simpl; [reflexivity |].
  destruct e; try reflexivity. congruence.
Qed.

(** C7, as the code has it: text is caught by the [String] rule before
    [Numeric] is tried, so every string, integer-looking or not, becomes a
    [String]-kind value holding the text; an existing [Value] passes
    through; any other scalar is tried as [Numeric] first, so an [int]
    becomes [Numeric] (or overflows), never [Integer]; and whatever bare
    scalar is wrapped, the result is [String]-kind for text and
    [Numeric]-kind otherwise. *)
Theorem wrap_value_inference (host : Host) :
  (forall x : Value, wrap_value host (CValue x) = Ok x)
  /\ (forall s : string,
        wrap_value host (CRaw (PStr s)) = Ok (MkValue KString (PStr s) false))
  /\ (forall z : Z,
        wrap_value host (CRaw (PInt z))
        = f ← float_of_Z z; Ok (MkValue KNumeric (PFloat f) false))
  /\ (forall (p : pyval) (v : Value),
        wrap_value host (CRaw p) = Ok v ->
        kind_of v = if is_str p then KString else KNumeric).
Proof.
  split; [reflexivity |].
  split; [apply wrap_value_str |].
  split; [apply wrap_value_int |].
  intros p v. destruct p as [s | z | f | d | d].
  - rewrite wrap_value_str. intros [= <-]. reflexivity.
  - rewrite wrap_value_int. destruct (float_of_Z z); simpl; intros [= <-].
    reflexivity.
  - cbn. intros [= <-]. reflexivity.
  - cbn. intros [= <-]. reflexivity.
  - cbn. discriminate.
Qed.

(** C7, the claim as stated fails: the integer-looking string ["42"] is
    wrapped as a [String]-kind value, not a [Numeric]-kind one. *)
Lemma wrap_value_integer_string_is_String :
  Py.int_of_str "42" = Some 42
  /\ exists v : Value,
       wrap_value example_host (CRaw (PStr "42")) = Ok v
       /\ kind_of v = KString /\ kind_of v <> KNumeric.
Proof.
  split; [reflexivity |].
  eexists. split; [reflexivity |]. split; [reflexivity | discriminate].
Qed.

(** The theorem above at the integer [42]: it is wrapped as [Numeric]. *)
Lemma wrap_value_inference_witness :
  exists v : Value,
    wrap_value example_host (CRaw (PInt 42)) = Ok v /\ kind_of v = KNumeric.
Proof.
  eexists. split; [reflexivity |].
  exact (proj2 (proj2 (proj2 (wrap_value_inference example_host)))
           (PInt 42) _ eq_refl).
Defined.

(** ** Date attributes *)

(** C9: a [date] declaration without a pattern stores [None] as the
    attribute's data, and the header writer, which looks the pattern up
    with a default for a key that is absent, finds the key and prints
    [None]: the directive written is [@attribute 'd' date "None"], not the
    default pattern. *)
Theorem date_without_pattern_writes_None (host : Host) :
  exists a : ArffFile,
    parse_attribute "@attribute d date" ArffFile_new = Ok a
    /\ attributes a = ["d"]
    /\ attribute_types a !! "d" = Some TYPE_DATE
    /\ attribute_data a !! "d" = Some DNone
    /\ write_attributes host a
       = Ok ["@attribute 'd' date " +:+ String Py.dquote ("None" +:+ Py.chr Py.dquote)]
    /\ write_attributes host a
       <> Ok ["@attribute 'd' date "
              +:+ String Py.dquote (DEFAULT_DATE_FORMAT +:+ Py.chr Py.dquote)].
Proof.
  eexists. split; [reflexivity |].
  repeat split; try reflexivity. discriminate.
Qed.

(** C8: a dense line with the right number of fields, read against a
    schema with a [date] attribute, is stored without the date field: the
    stored row has one entry fewer than the schema has attributes. *)
Theorem dense_date_field_not_stored (host : Host) :
  let a := define_attribute "d" TYPE_DATE (DPattern "yyyy-MM-dd")
             (define_attribute "n" TYPE_INTEGER DNone
                (set_state (Some st_data) ArffFile_new)) in
  attributes a = ["n"; "d"]
  /\ exists a' : ArffFile,
       parseline host "7,2020-01-02" a = Ok a'
       /\ data a' = [RList [CRaw (PInt 7)]]
       /\ attributes a' = ["n"; "d"].
Proof.
  split; [reflexivity |].
  eexists. split; [reflexivity |]. split; reflexivity.
Qed.

(** ** The sparse writer *)

Lemma result_bind_ret {A} (m : result A) : (x ← m; Ok x) = m.
Proof. destruct m; reflexivity. Qed.

(** What the end of the sparse branch does: no line exactly for no token
    or for one token that contains the character [?]; the braces around
    the joined tokens otherwise. *)
Lemma sparse_line_spec (line : list string) :
  (sparse_line line = None
   <-> line = [] \/ exists t, line = [t] /\ Py.contains "?" t = true)
  /\ (sparse_line line <> None ->
      sparse_line line = Some ("{" +:+ Py.join ", " line +:+ "}")).
Proof.
  destruct line as [| t [| u line]]; simpl.
  - split; [| congruence]. split; auto.
  - destruct (Py.contains "?" t) eqn:E.
    + split; [| congruence]. split; eauto.
    + split; [| reflexivity]. split; [discriminate |].
      intros [H | (t' & [= <-] & H)]; congruence.
  - split; [| reflexivity]. split; [discriminate |].
    intros [H | (t' & H & _)]; discriminate.
Qed.

(** C6: a row whose single surviving token holds a string that merely
    contains a question mark gets no line, although the token's value is
    not the missing marker. *)
Theorem sparse_single_token_with_question_mark (host : Host) :
  let a := define_attribute "a" TYPE_STRING DNone ArffFile_new in
  let x := MkValue KString (PStr "why?") false in
  is_missing (value x) = false
  /\ sparse_tokens host a [("a", CValue x)] 0 (attributes a)
     = Ok ["0 " +:+ String Py.dquote ("why?" +:+ Py.chr Py.dquote)]
  /\ write_line host a (RDict [("a", CValue x)]) SPARSE = Ok None.
Proof. repeat split; reflexivity. Qed.

Section OmittedColumn.
Context (host : Host) (a : ArffFile).

Lemma dict_get_del_eq {A} (k : string) (d : dict A) :
  dict_get k (dict_del k d) = None.
Proof.
  induction d as [| [k' v] d IH]; simpl; [reflexivity |].
  destruct (String.eqb k' k) eqn:E; simpl; [assumption |].
  rewrite E. assumption.
Qed.

Lemma dict_get_del_ne {A} (k k' : string) (d : dict A) :
  k <> k' -> dict_get k' (dict_del k d) = dict_get k' d.
Proof.
  intros Hne. induction d as [| [k0 v] d IH]; simpl; [reflexivity |].
  destruct (String.eqb k0 k) eqn:E; simpl.
  - apply String.eqb_eq in E. subst k0.
    destruct (String.eqb k k') eqn:E'; [| assumption].
    apply String.eqb_eq in E'. contradiction.
  - rewrite IH. reflexivity.
Qed.

(** An entry whose resolved value is dropped by the nominal test leaves
    the tokens as they are without it. *)
Lemma sparse_tokens_dropped (d : dict cell) (name : string) (c : cell)
    (v : pyval) (names : list string) (i : Z) :
  dict_get name d = Some c ->
  resolve host a name c = Ok v ->
  dropped host a name v = Ok true ->
  sparse_tokens host a d i names
  = sparse_tokens host a (dict_del name d) i names.
Proof.
  intros Hget Hres Hdrop. revert i.
  induction names as [| n names IH]; intros i; simpl; [reflexivity |].
  destruct (String.eqb_spec name n) as [<- | Hne].
  - rewrite Hget, dict_get_del_eq. simpl. rewrite Hres. simpl.
    rewrite Hdrop. simpl. rewrite <- IH. apply result_bind_ret.
  - rewrite dict_get_del_ne by assumption.
    destruct (dict_get n d); [| apply IH].
    rewrite IH. reflexivity.
Qed.
End OmittedColumn.

(** C4, as the code has it: for a nominal attribute, an entry of the
    row whose resolved value is not the missing marker and whose text is
    not among the texts of the declared values is written exactly as if the
    row had no entry for the attribute: the column is omitted and no error
    comes from it.  The row is name-keyed, or positional and then taken
    under the attribute names with its bare entries wrapped; the entry is
    a value of any class or a bare scalar. *)
Theorem sparse_nominal_outside_set_omitted (host : Host) (a : ArffFile)
    (d : row) (m : dict cell) (name : string) (c : cell) (v : pyval)
    (vs : list pyval) :
  dict_of_row host a d = Ok m ->
  dict_get name m = Some c ->
  resolve host a name c = Ok v ->
  is_missing v = false ->
  attribute_types a !! name = Some TYPE_NOMINAL ->
  adata_iter a name = Ok vs ->
  py_str host v ∉ map (py_str host) vs ->
  write_line host a d SPARSE
  = write_line host a (RDict (dict_del name m)) SPARSE.
Proof.
  intros Hm Hget Hres Hmiss Ht Hvs Hnot. unfold write_line.
  rewrite Hm. simpl.
  erewrite sparse_tokens_dropped; [reflexivity | eassumption | eassumption |].
  unfold dropped, type_of. rewrite Hmiss, Ht. simpl. rewrite Hvs. simpl.
  rewrite bool_decide_eq_false_2 by assumption. reflexivity.
Qed.

(** A schema for the examples: a string attribute [a] and a nominal
    attribute [b] with the declared values [x] and [y]. *)
Definition nominal_example : ArffFile :=
  define_attribute "b" TYPE_NOMINAL (DSet [PStr "x"; PStr "y"])
    (define_attribute "a" TYPE_STRING DNone ArffFile_new).

(** The theorem above on the row [{a: String("s"), b: Nominal("z")}]
    and on the positional row [["s", "z"]]: only column 0 is written. *)
Lemma sparse_nominal_outside_set_omitted_witness :
  write_line example_host nominal_example
    (RDict [("a", CValue (MkValue KString (PStr "s") false));
            ("b", CValue (MkValue KNominal (PStr "z") false))]) SPARSE
  = write_line example_host nominal_example
      (RDict [("a", CValue (MkValue KString (PStr "s") false))]) SPARSE
  /\ write_line example_host nominal_example
       (RList [CRaw (PStr "s"); CRaw (PStr "z")]) SPARSE
     = write_line example_host nominal_example
         (RDict [("a", CValue (MkValue KString (PStr "s") false))]) SPARSE.
Proof.
  assert (Hnot : py_str example_host (PStr "z")
                 ∉ map (py_str example_host) [PStr "x"; PStr "y"]).
  { simpl. intros H.
    repeat (apply elem_of_cons in H as [H | H]; [discriminate |]).
    inversion H. }
  change [("a", CValue (MkValue KString (PStr "s") false))]
    with (dict_del "b"
            [("a", CValue (MkValue KString (PStr "s") false));
             ("b", CValue (MkValue KNominal (PStr "z") false))]).
  split.
  - apply (sparse_nominal_outside_set_omitted example_host nominal_example
             _ _ "b" (CValue (MkValue KNominal (PStr "z") false)) (PStr "z")
             [PStr "x"; PStr "y"]); try reflexivity.
    exact Hnot.
  - apply (sparse_nominal_outside_set_omitted example_host nominal_example
             _ _ "b" (CValue (MkValue KNominal (PStr "z") false)) (PStr "z")
             [PStr "x"; PStr "y"]); try reflexivity.
    exact Hnot.
Defined.

(** C4, the claim as stated fails for the missing marker: it is not a
    member of the declared set [{x, y}], yet its column is written. *)
Lemma sparse_missing_nominal_is_written :
  existsb (py_eq (PStr MISSING)) [PStr "x"; PStr "y"] = false
  /\ write_line example_host nominal_example
       (RDict [("a", CValue (MkValue KString (PStr "s") false));
               ("b", CValue (MkValue KNominal (PStr MISSING) false))]) SPARSE
     = Ok (Some ("{0 " +:+ String Py.dquote ("s" +:+ String Py.dquote ", 1 ?}"))).
Proof. split; reflexivity. Qed.

(** ** Dense lines with a wrong field count *)

Lemma parseline_data (host : Host) (a : ArffFile) (l : string) (c : ascii) :
  state a = Some st_data ->
  Py.first_char l = Some c ->
  c <> "%"%char ->
  parseline host l a = parse_data host (LStr l) a.
Proof.
  intros Hst Hc Hne. unfold parseline. rewrite Hst, Hc.
  destruct (Ascii.eqb_spec c "%"); [contradiction | reflexivity].
Qed.

(** C5: in the data section, a dense line (not empty, not a comment, not
    starting with a brace once stripped) whose number of comma-separated
    fields differs from the number of attributes prints one line to the
    standard output, the warning that names the line number, the number of
    fields found and the number of attributes; it leaves everything else
    of the dataset as it was (no row is added) and returns normally; the
    loop of [parse] goes on with the next line. *)
Theorem dense_wrong_count_warns (host : Host) (a : ArffFile) (l : string)
    (c : ascii) :
  state a = Some st_data ->
  Py.first_char l = Some c ->
  c <> "%"%char ->
  Py.startswith (Py.strip l) "{" = false ->
  length (Py.split_on "," (Py.strip l)) <> length (attributes a) ->
  let warning :=
    "Warning: line " +:+ Py.str_of_Z (lineno a)
    +:+ " contains "
    +:+ Py.str_of_Z (Z.of_nat (length (Py.split_on "," (Py.strip l))))
    +:+ " values but it should contain "
    +:+ Py.str_of_Z (Z.of_nat (length (attributes a)))
    +:+ " values" in
  let a' := set_stdout (stdout a ++ [warning]) a in
  parseline host l a = Ok a'
  /\ stdout a' = stdout a ++ [warning]
  /\ data a' = data a
  /\ length (data a') = length (data a)
  /\ attributes a' = attributes a
  /\ forall rest : list string,
       parse_lines host false (l :: rest) a
       = parse_lines host false rest (set_lineno (lineno a + 1) a').
Proof.
  intros Hst Hc Hne Hb Hlen warning a'.
  assert (Hline : parseline host l a = Ok a').
  { rewrite (parseline_data host a l c) by assumption.
    unfold parse_data. rewrite Hb. unfold store_dense.
    rewrite length_map.
    destruct (Nat.eqb_spec (length (Py.split_on "," (Py.strip l)))
                (length (attributes a))); [contradiction | reflexivity]. }
  repeat split; try assumption; try reflexivity.
  intros rest. simpl. rewrite Hline. reflexivity.
Qed.

(** The theorem above on the line [1,2,3] read as line 9 against two
    attributes. *)
Lemma dense_wrong_count_warns_witness :
  let a := set_lineno 9
             (define_attribute "y" TYPE_INTEGER DNone
                (define_attribute "x" TYPE_INTEGER DNone
                   (set_state (Some st_data) ArffFile_new))) in
  exists a',
    parseline example_host "1,2,3" a = Ok a'
    /\ stdout a'
       = ["Warning: line 9 contains 3 values but it should contain 2 values"]
    /\ data a' = [].
Proof.
  intros a.
  destruct (dense_wrong_count_warns example_host a "1,2,3" "1"%char)
    as (H1 & H2 & H3 & _); try reflexivity; try discriminate.
  eexists. split; [exact H1 |]. split; [exact H2 | exact H3].
Defined.

(** ** The loop of [append] *)

Lemma bind_Ok_inv {A B} (m : result A) (f : A -> result B) (b : B) :
  (x ← m; f x) = Ok b -> exists x, m = Ok x /\ f x = Ok b.
Proof. destruct m as [x | e]; simpl; [eauto | discriminate]. Qed.

Lemma py_assert_Ok (c : bool) : py_assert c = Ok tt -> c = true.
Proof. destruct c; [reflexivity | discriminate]. Qed.

Lemma move_to_end_perm (c : string) (l : list string) : move_to_end c l ≡ₚ l.
Proof.
  unfold move_to_end. case_bool_decide as Hin; [| reflexivity].
  induction l as [| x l IH]; [inversion Hin |]. simpl.
  destruct (String.eqb_spec x c) as [-> | Hne].
  - symmetry. apply Permutation_cons_append.
  - simpl. constructor. apply IH.
    apply elem_of_cons in Hin as [-> | Hin]; [contradiction | assumption].
Qed.

Lemma move_to_end_last (c : string) (l : list string) :
  c ∈ l -> last (move_to_end c l) = Some c.
Proof.
  intros Hin. unfold move_to_end. rewrite bool_decide_eq_true_2 by assumption.
  apply last_snoc.
Qed.

Lemma elem_of_move_to_end (c x : string) (l : list string) :
  x ∈ move_to_end c l <-> x ∈ l.
Proof. rewrite (move_to_end_perm c l). reflexivity. Qed.

Section AppendFacts.
Context (host : Host).

(** The stages of one turn and the class attribute. *)

Lemma item_value_self (k : string) (v : cell) (a a1 : ArffFile) (x : Value) :
  item_value host k v a = Ok (x, a1) ->
  a1 = a \/ exists msg, a1 = print_stdout msg a.
Proof.
  unfold item_value. destruct v as [y | p].
  - intros [= _ <-]. left. reflexivity.
  - destruct (is_missing p).
    + simpl. intros [= _ <-]. left. reflexivity.
    + intros H. apply bind_Ok_inv in H as (t & _ & H).
      apply bind_Ok_inv in H as (y & _ & H).
      injection H as _ <-. right. eexists. reflexivity.
Qed.

Lemma item_value_CValue (k : string) (x : Value) (a : ArffFile) :
  item_value host k (CValue x) a = Ok (x, a).
Proof. reflexivity. Qed.

Lemma declare_item_class (k : string) (x : Value) (s : append_state) :
  class_attr_name (ap_self (declare_item k x s)) = class_attr_name (ap_self s).
Proof.
  unfold declare_item. destruct (negb _); [| reflexivity].
  destruct (fout (ap_self s)); reflexivity.
Qed.

Lemma nominal_item_class (k : string) (x : Value) (s s' : append_state) :
  nominal_item k x s = Ok s' ->
  class_attr_name (ap_self s') = class_attr_name (ap_self s).
Proof.
  unfold nominal_item. destruct (bool_decide _); [| intros [= <-]; reflexivity].
  destruct (fout (ap_self s)).
  - destruct (negb _); [intros [= <-]; reflexivity |].
    intros H. apply bind_Ok_inv in H as (b & _ & H).
    injection H as <-. reflexivity.
  - intros H. apply bind_Ok_inv in H as (b & _ & H).
    destruct b.
    + injection H as <-. destruct (attribute_data (ap_self s) !! k); reflexivity.
    + destruct (attribute_data _ !! k) as [[| | vs |] |] in H; try discriminate.
      injection H as <-.
      destruct (attribute_data (ap_self s) !! k); reflexivity.
Qed.

Lemma class_last_class (a : ArffFile) :
  class_attr_name (class_last a) = class_attr_name a.
Proof.
  unfold class_last.
  destruct (class_attr_name a) as [[| c s] |] eqn:E; simpl; congruence.
Qed.

Lemma class_item_flagged (k : string) (x : Value) (a a' : ArffFile) :
  class_item k x a = Ok a' -> cls x = true -> class_attr_name a' = Some k.
Proof.
  unfold class_item. intros H Hcls. rewrite Hcls in H.
  destruct (class_attr_name a) as [c |] eqn:Hc.
  - apply bind_Ok_inv in H as ([] & Ha & H). injection H as <-.
    apply py_assert_Ok, String.eqb_eq in Ha. congruence.
  - injection H as <-. reflexivity.
Qed.

Lemma class_item_fixed (k c : string) (x : Value) (a a' : ArffFile) :
  class_item k x a = Ok a' -> class_attr_name a = Some c ->
  class_attr_name a' = Some c.
Proof.
  unfold class_item. intros H Hc. rewrite Hc in H.
  destruct (cls x).
  - apply bind_Ok_inv in H as ([] & _ & H). injection H as <-. assumption.
  - injection H as <-. assumption.
Qed.

Lemma class_item_attributes (k : string) (x : Value) (a a' : ArffFile) :
  class_item k x a = Ok a' ->
  attributes a' = attributes a /\ attribute_types a' = attribute_types a
  /\ attribute_data a' = attribute_data a /\ fout a' = fout a
  /\ data a' = data a.
Proof.
  unfold class_item. destruct (cls x); [| intros [= <-]; auto].
  destruct (class_attr_name a).
  - intros H. apply bind_Ok_inv in H as ([] & _ & H). injection H as <-. auto.
  - intros [= <-]. auto.
Qed.

(** The turn of [append_item], opened into its stages. *)
Lemma append_item_inv (k : string) (v : cell) (s s' : append_state) :
  append_item host k v s = Ok s' ->
  exists (x : Value) (a1 : ArffFile) (s2 : append_state) (a3 : ArffFile),
    item_value host k v (ap_self s) = Ok (x, a1)
    /\ check_prior_type (prior_type_of (ap_self s) k v) x = Ok tt
    /\ nominal_item k x
         (declare_item k x (MkAppend a1 (ap_line s) (ap_schema_change s)))
       = Ok s2
    /\ class_item k x (ap_self s2) = Ok a3
    /\ s' = MkAppend (class_last a3) (ap_line s2) (ap_schema_change s2).
Proof.
  unfold append_item. intros H.
  apply bind_Ok_inv in H as ([x a1] & Hv & H).
  apply bind_Ok_inv in H as ([] & Hc & H).
  apply bind_Ok_inv in H as (s2 & Hn & H).
  apply bind_Ok_inv in H as (a3 & Hk & H).
  injection H as <-. eauto 10.
Qed.

Lemma item_value_class (k : string) (v : cell) (a a1 : ArffFile) (x : Value) :
  item_value host k v a = Ok (x, a1) ->
  class_attr_name a1 = class_attr_name a.
Proof.
  intros H. apply item_value_self in H as [-> | (msg & ->)]; reflexivity.
Qed.

Lemma append_item_class_fixed (k c : string) (v : cell) (s s' : append_state) :
  append_item host k v s = Ok s' ->
  class_attr_name (ap_self s) = Some c ->
  class_attr_name (ap_self s') = Some c.
Proof.
  intros H Hc.
  apply append_item_inv in H as (x & a1 & s2 & a3 & Hv & _ & Hn & Hk & ->).
  simpl. rewrite class_last_class.
  apply (class_item_fixed k c x (ap_self s2)); [assumption |].
  rewrite (nominal_item_class _ _ _ _ Hn), declare_item_class. simpl.
  rewrite (item_value_class _ _ _ _ _ Hv). assumption.
Qed.

Lemma append_item_class_flagged (k : string) (x : Value) (s s' : append_state) :
  append_item host k (CValue x) s = Ok s' ->
  cls x = true ->
  class_attr_name (ap_self s') = Some k.
Proof.
  intros H Hcls.
  apply append_item_inv in H as (y & a1 & s2 & a3 & Hv & _ & Hn & Hk & ->).
  injection Hv as <- <-. simpl. rewrite class_last_class.
  apply (class_item_flagged k x (ap_self s2)); assumption.
Qed.

Lemma append_items_class_fixed (c : string) (d : dict cell)
    (s s' : append_state) :
  append_items host d s = Ok s' ->
  class_attr_name (ap_self s) = Some c ->
  class_attr_name (ap_self s') = Some c.
Proof.
  revert s. induction d as [| [k v] d IH]; intros s; simpl.
  - intros [= <-]. auto.
  - intros H Hc. apply bind_Ok_inv in H as (s1 & H1 & H).
    apply (IH s1); [assumption |].
    apply (append_item_class_fixed k c v s); assumption.
Qed.

Lemma append_items_class_flagged (k : string) (x : Value) (d : dict cell)
    (s s' : append_state) :
  append_items host d s = Ok s' ->
  (k, CValue x) ∈ d -> cls x = true ->
  class_attr_name (ap_self s') = Some k.
Proof.
  revert s. induction d as [| [k' v] d IH]; intros s; simpl.
  - intros _ Hin. inversion Hin.
  - intros H Hin Hcls. apply bind_Ok_inv in H as (s1 & H1 & H).
    apply elem_of_cons in Hin as [[= <- <-] | Hin].
    + apply (append_items_class_fixed k d s1); [assumption |].
      apply (append_item_class_flagged k x s); assumption.
    + apply (IH s1); assumption.
Qed.

(** A flag on an attribute other than the class attribute stops the loop. *)
Lemma append_items_other_class_raises (c k : string) (x : Value)
    (d : dict cell) (s : append_state) :
  class_attr_name (ap_self s) = Some c ->
  (k, CValue x) ∈ d -> cls x = true -> k <> c ->
  exists e, append_items host d s = Raise e.
Proof.
  intros Hc Hin Hcls Hne.
  destruct (append_items host d s) as [s' | e] eqn:H; [| eauto].
  pose proof (append_items_class_fixed c d s s' H Hc) as H1.
  pose proof (append_items_class_flagged k x d s s' H Hin Hcls) as H2.
  congruence.
Qed.
End AppendFacts.

Section AppendOrder.
Context (host : Host).

(** Every attribute with a declared type is listed. *)
Definition listed (a : ArffFile) : Prop :=
  forall j : string, is_Some (attribute_types a !! j) -> j ∈ attributes a.

Lemma item_value_schema (k : string) (v : cell) (a a1 : ArffFile) (x : Value) :
  item_value host k v a = Ok (x, a1) ->
  attributes a1 = attributes a /\ attribute_types a1 = attribute_types a
  /\ attribute_data a1 = attribute_data a /\ fout a1 = fout a.
Proof.
  intros H. apply item_value_self in H as [-> | (msg & ->)]; auto.
Qed.

Lemma nominal_item_schema (k : string) (x : Value) (s s' : append_state) :
  nominal_item k x s = Ok s' ->
  attributes (ap_self s') = attributes (ap_self s)
  /\ attribute_types (ap_self s') = attribute_types (ap_self s)
  /\ fout (ap_self s') = fout (ap_self s).
Proof.
  unfold nominal_item. destruct (bool_decide _); [| intros [= <-]; auto].
  destruct (fout (ap_self s)) eqn:Hf.
  - destruct (negb _); [intros [= <-]; auto |].
    intros H. apply bind_Ok_inv in H as (b & _ & H).
    injection H as <-. auto.
  - intros H. apply bind_Ok_inv in H as (b & _ & H).
    destruct b.
    + injection H as <-. destruct (attribute_data (ap_self s) !! k); simpl; auto.
    + destruct (attribute_data _ !! k) as [[| | vs |] |] in H; try discriminate.
      injection H as <-.
      destruct (attribute_data (ap_self s) !! k); simpl; auto.
Qed.

Lemma class_last_schema (a : ArffFile) :
  attributes (class_last a) ≡ₚ attributes a
  /\ attribute_types (class_last a) = attribute_types a
  /\ attribute_data (class_last a) = attribute_data a
  /\ fout (class_last a) = fout a.
Proof.
  unfold class_last. destruct (class_attr_name a) as [[| c s] |]; simpl; auto.
  split; [apply move_to_end_perm | auto].
Qed.

Lemma class_last_is_last (a : ArffFile) (c : string) :
  class_attr_name a = Some c -> c <> "" -> c ∈ attributes a ->
  last (attributes (class_last a)) = Some c.
Proof.
  intros Hc Hne Hin. unfold class_last. rewrite Hc.
  destruct c as [| ch t]; [contradiction |]. simpl.
  apply move_to_end_last. assumption.
Qed.

(** After a turn, a class attribute that is listed is the last one. *)
Lemma append_item_last (k c : string) (v : cell) (s s' : append_state) :
  append_item host k v s = Ok s' ->
  class_attr_name (ap_self s') = Some c -> c <> "" ->
  c ∈ attributes (ap_self s') ->
  last (attributes (ap_self s')) = Some c.
Proof.
  intros H Hc Hne Hin.
  apply append_item_inv in H as (x & a1 & s2 & a3 & _ & _ & _ & _ & ->).
  simpl in *. rewrite class_last_class in Hc.
  apply class_last_is_last; [assumption | assumption |].
  destruct (class_last_schema a3) as (Hp & _). rewrite <- Hp. assumption.
Qed.

Lemma append_items_last (c : string) (d : dict cell) (s s' : append_state) :
  d <> [] ->
  append_items host d s = Ok s' ->
  class_attr_name (ap_self s') = Some c -> c <> "" ->
  c ∈ attributes (ap_self s') ->
  last (attributes (ap_self s')) = Some c.
Proof.
  revert s. induction d as [| [k v] d IH]; intros s Hd; [contradiction |].
  simpl. intros H. apply bind_Ok_inv in H as (s1 & H1 & H).
  destruct d as [| kv d].
  - injection H as <-. apply (append_item_last k c v s); assumption.
  - apply (IH s1); [discriminate | assumption].
Qed.

Lemma listed_same (a b : ArffFile) :
  attributes b ≡ₚ attributes a -> attribute_types b = attribute_types a ->
  listed a -> listed b.
Proof.
  intros Ha Ht Hl j Hj. rewrite Ha. apply Hl. rewrite <- Ht. assumption.
Qed.

Lemma declare_item_memory (k : string) (x : Value) (s : append_state) :
  fout (ap_self s) = None -> listed (ap_self s) ->
  fout (ap_self (declare_item k x s)) = None
  /\ listed (ap_self (declare_item k x s))
  /\ is_Some (attribute_types (ap_self (declare_item k x s)) !! k)
  /\ forall j, is_Some (attribute_types (ap_self s) !! j) ->
               is_Some (attribute_types (ap_self (declare_item k x s)) !! j).
Proof.
  intros Hf Hl. unfold declare_item. rewrite Hf.
  case_bool_decide as Hdecl; simpl.
  - repeat split; auto.
  - repeat split; [assumption | | |].
    + intros j Hj. simpl in *. rewrite elem_of_app, list_elem_of_singleton.
      destruct (decide (k = j)) as [-> | Hne]; [auto |].
      rewrite lookup_insert_ne in Hj by assumption. left. apply Hl, Hj.
    + rewrite lookup_insert_eq. eauto.
    + intros j Hj. destruct (decide (k = j)) as [-> | Hne].
      * rewrite lookup_insert_eq. eauto.
      * rewrite lookup_insert_ne by assumption. assumption.
Qed.

(** In memory, a turn declares and lists the attribute of its item. *)
Lemma append_item_memory (k : string) (v : cell) (s s' : append_state) :
  fout (ap_self s) = None -> listed (ap_self s) ->
  append_item host k v s = Ok s' ->
  fout (ap_self s') = None /\ listed (ap_self s')
  /\ is_Some (attribute_types (ap_self s') !! k)
  /\ forall j, is_Some (attribute_types (ap_self s) !! j) ->
               is_Some (attribute_types (ap_self s') !! j).
Proof.
  intros Hf Hl H.
  apply append_item_inv in H as (x & a1 & s2 & a3 & Hv & _ & Hn & Hk & ->).
  apply item_value_schema in Hv as (Ha1 & Ht1 & _ & Hf1).
  apply nominal_item_schema in Hn as (Ha2 & Ht2 & Hf2).
  apply class_item_attributes in Hk as (Ha3 & Ht3 & _ & Hf3 & _).
  destruct (class_last_schema a3) as (Ha4 & Ht4 & _ & Hf4).
  set (s0 := MkAppend a1 (ap_line s) (ap_schema_change s)) in *.
  assert (Hf0 : fout (ap_self s0) = None) by (simpl; congruence).
  assert (Hl0 : listed (ap_self s0)).
  { apply (listed_same (ap_self s)); simpl; [rewrite Ha1 | |]; auto. }
  destruct (declare_item_memory k x s0 Hf0 Hl0) as (Hfd & Hld & Hkd & Hmd).
  assert (Ht : attribute_types (class_last a3)
               = attribute_types (ap_self (declare_item k x s0)))
    by congruence.
  simpl. repeat split.
  - congruence.
  - apply (listed_same (ap_self (declare_item k x s0))); [| assumption ..].
    rewrite Ha4, Ha3, Ha2. reflexivity.
  - rewrite Ht. assumption.
  - intros j Hj. rewrite Ht. apply Hmd. simpl. rewrite Ht1. assumption.
Qed.

Lemma append_items_memory (d : dict cell) (s s' : append_state) :
  fout (ap_self s) = None -> listed (ap_self s) ->
  append_items host d s = Ok s' ->
  fout (ap_self s') = None /\ listed (ap_self s')
  /\ (forall k v, (k, v) ∈ d -> is_Some (attribute_types (ap_self s') !! k))
  /\ forall j, is_Some (attribute_types (ap_self s) !! j) ->
               is_Some (attribute_types (ap_self s') !! j).
Proof.
  revert s. induction d as [| [k v] d IH]; intros s Hf Hl; simpl.
  - intros [= <-]. repeat split; auto. intros k v Hin. inversion Hin.
  - intros H. apply bind_Ok_inv in H as (s1 & H1 & H).
    destruct (append_item_memory k v s s1 Hf Hl H1) as (Hf1 & Hl1 & Hk1 & Hm1).
    destruct (IH s1 Hf1 Hl1 H) as (Hf' & Hl' & Hd' & Hm').
    repeat split; auto.
    intros k' v' Hin. apply elem_of_cons in Hin as [[= -> ->] | Hin]; eauto.
Qed.

(** [append] on a name-keyed row with [update_schema]: the loop ran, and
    the dataset returned differs from the one the loop left in [data] or
    in the stream only. *)
Lemma append_dict_inv (d : dict cell) (schema_only : bool) (a a' : ArffFile) :
  append host (RDict d) schema_only true a = Ok a' ->
  exists s' : append_state,
    append_items host d (MkAppend a d false) = Ok s'
    /\ attributes a' = attributes (ap_self s')
    /\ attribute_types a' = attribute_types (ap_self s')
    /\ attribute_data a' = attribute_data (ap_self s')
    /\ class_attr_name a' = class_attr_name (ap_self s').
Proof.
  unfold append. intros H.
  apply bind_Ok_inv in H as (s' & Hs & H).
  apply bind_Ok_inv in Hs as (s1 & Hloop & Hs).
  apply bind_Ok_inv in Hs as ([] & _ & Hs). injection Hs as <-.
  exists s1. split; [assumption |].
  destruct (negb schema_only); [| injection H as <-; auto].
  destruct (fout (ap_self s1)) eqn:Hf.
  - apply bind_Ok_inv in H as (line_str & _ & H). injection H as <-.
    destruct line_str as [[| ch t] |]; unfold print_fout; rewrite ?Hf; auto.
  - injection H as <-. auto.
Qed.
End AppendOrder.

(** ** The class attribute *)

Section ClassAttribute.
Context (host : Host).

Lemma store_dense_class (l : list cell) (a a' : ArffFile) :
  store_dense host l a = Ok a' -> class_attr_name a' = class_attr_name a.
Proof.
  unfold store_dense. destruct (negb _); [intros [= <-]; reflexivity |].
  intros H. apply bind_Ok_inv in H as (datum & _ & H).
  destruct (fout a) eqn:Hf.
  - apply bind_Ok_inv in H as (line_str & _ & H). injection H as <-.
    destruct line_str as [[| ch t] |]; unfold print_fout; rewrite ?Hf;
      reflexivity.
  - injection H as <-. reflexivity.
Qed.

Lemma append_class_fixed (line : row) (schema_only update_schema : bool)
    (a a' : ArffFile) (c : string) :
  class_attr_name a = Some c ->
  append host line schema_only update_schema a = Ok a' ->
  class_attr_name a' = Some c.
Proof.
  intros Hc H. destruct line as [l | d].
  - unfold append in H. apply bind_Ok_inv in H as ([] & _ & H).
    simpl in H. rewrite (store_dense_class _ _ _ H). assumption.
  - destruct update_schema.
    + apply append_dict_inv in H as (s' & Hloop & _ & _ & _ & ->).
      apply (append_items_class_fixed host c d (MkAppend a d false) s' Hloop).
      assumption.
    + unfold append in H. simpl in H.
      destruct (negb schema_only); [| injection H as <-; assumption].
      destruct (fout a) eqn:Hf.
      * apply bind_Ok_inv in H as (line_str & _ & H). injection H as <-.
        destruct line_str as [[| ch t] |]; unfold print_fout; rewrite ?Hf;
          assumption.
      * injection H as <-. assumption.
Qed.
End ClassAttribute.

(** C3, as the code has it.  With [update_schema] on: a name-keyed row
    that is appended and flags the attribute [k] as class leaves [k] as the
    class attribute; the name, once set, is kept by every later append
    that returns, whatever its row and switches; a later append of a row
    that flags another attribute raises; and after an append that flags
    [k] (a name that is not empty), [k] is the last attribute as soon as
    it is listed, which it is when no stream is open and every attribute
    with a type is listed. *)
Theorem class_attribute_fixed_and_last (host : Host) :
  (forall (a a' : ArffFile) (d : dict cell) (so : bool) (k : string) (x : Value),
     append host (RDict d) so true a = Ok a' ->
     (k, CValue x) ∈ d -> cls x = true ->
     class_attr_name a' = Some k)
  /\ (forall (a a' : ArffFile) (line : row) (so us : bool) (c : string),
        class_attr_name a = Some c ->
        append host line so us a = Ok a' ->
        class_attr_name a' = Some c)
  /\ (forall (a : ArffFile) (d : dict cell) (so : bool) (c k : string) (x : Value),
        class_attr_name a = Some c ->
        (k, CValue x) ∈ d -> cls x = true -> k <> c ->
        exists e, append host (RDict d) so true a = Raise e)
  /\ (forall (a a' : ArffFile) (d : dict cell) (so : bool) (k : string) (x : Value),
        append host (RDict d) so true a = Ok a' ->
        (k, CValue x) ∈ d -> cls x = true -> k <> "" ->
        (k ∈ attributes a' -> last (attributes a') = Some k)
        /\ (fout a = None -> listed a -> last (attributes a') = Some k)).
Proof.
  split; [| split; [| split]].
  - intros a a' d so k x H Hin Hcls.
    apply append_dict_inv in H as (s' & Hloop & _ & _ & _ & ->).
    apply (append_items_class_flagged host k x d (MkAppend a d false) s');
      assumption.
  - intros a a' line so us c Hc H.
    apply (append_class_fixed host line so us a a' c); assumption.
  - intros a d so c k x Hc Hin Hcls Hne.
    destruct (append_items_other_class_raises host c k x d (MkAppend a d false))
      as (e & He); try assumption.
    exists e. unfold append. rewrite He. reflexivity.
  - intros a a' d so k x H Hin Hcls Hne.
    apply append_dict_inv in H as (s' & Hloop & Ha & Ht & _ & Hc).
    assert (Hk : class_attr_name (ap_self s') = Some k)
      by (apply (append_items_class_flagged host k x d (MkAppend a d false) s');
          assumption).
    assert (Hd : d <> []) by (intros ->; inversion Hin).
    assert (Hlast : k ∈ attributes (ap_self s') ->
                    last (attributes (ap_self s')) = Some k)
      by (apply (append_items_last host k d (MkAppend a d false) s');
          assumption).
    rewrite Ha. split; [assumption |].
    intros Hf Hl. apply Hlast.
    destruct (append_items_memory host d (MkAppend a d false) s' Hf Hl Hloop)
      as (_ & Hl' & Hd' & _).
    apply Hl'. apply (Hd' k (CValue x)). assumption.
Qed.

(** The theorem above on the empty dataset and the row
    [{c: Integer(1, cls=True), n: Integer(2)}]: the attributes end up as
    [n, c]. *)
Lemma class_attribute_fixed_and_last_witness :
  let d := [("c", CValue (MkValue KInteger (PInt 1) true));
            ("n", CValue (MkValue KInteger (PInt 2) false))] in
  exists a' : ArffFile,
    append example_host (RDict d) false true ArffFile_new = Ok a'
    /\ attributes a' = ["n"; "c"]
    /\ class_attr_name a' = Some "c"
    /\ last (attributes a') = Some "c".
Proof.
  intros d.
  destruct (append example_host (RDict d) false true ArffFile_new)
    as [a' | e] eqn:E; [| vm_compute in E; discriminate].
  exists a'. split; [reflexivity |].
  destruct (class_attribute_fixed_and_last example_host) as (H1 & _ & _ & H4).
  split; [| split].
  - vm_compute in E. injection E as <-. reflexivity.
  - apply (H1 ArffFile_new a' d false "c" (MkValue KInteger (PInt 1) true) E);
      [apply list_elem_of_here | reflexivity].
  - apply (H4 ArffFile_new a' d false "c" (MkValue KInteger (PInt 1) true) E);
      [apply list_elem_of_here | reflexivity | discriminate
      | reflexivity
      | intros j [t Ht]; simpl in Ht; rewrite lookup_empty in Ht; discriminate].
Defined.

(** C3, the claim as stated fails: once [c] is the class attribute, an
    append with [update_schema=False] of a row that flags [k] returns
    normally. *)
Lemma append_without_update_schema_other_class :
  exists a1 a2 : ArffFile,
    append example_host
      (RDict [("c", CValue (MkValue KInteger (PInt 1) true))]) false true
      ArffFile_new = Ok a1
    /\ class_attr_name a1 = Some "c"
    /\ append example_host
         (RDict [("k", CValue (MkValue KInteger (PInt 2) true))]) false false
         a1 = Ok a2
    /\ class_attr_name a2 = Some "c".
Proof.
  destruct (append example_host
              (RDict [("c", CValue (MkValue KInteger (PInt 1) true))])
              false true ArffFile_new) as [a1 | e] eqn:E1;
    [| vm_compute in E1; discriminate].
  vm_compute in E1. injection E1 as <-.
  eexists _, _. split; [reflexivity |]. split; [reflexivity |].
  split; vm_compute; reflexivity.
Qed.

(** ** Appending to a stream *)

(** A name-keyed row whose entries are all [Value] objects. *)
Definition values_row (xs : dict Value) : dict cell :=
  map (fun kx => (kx.1, CValue kx.2)) xs.

(** Whether the loop of [append] keeps the entry [(k, x)] in the row
    while a stream is open: the attribute has a declared type and, for a
    [Nominal] value, is listed and has the value among its declared ones. *)
Definition stream_keeps (a : ArffFile) (k : string) (x : Value) : bool :=
  bool_decide (is_Some (attribute_types a !! k))
  && (if bool_decide (kind_of x = KNominal)
      then bool_decide (k ∈ attributes a)
           && match value_member a k (value x) with
              | Ok b => b
              | Raise _ => false
              end
      else true).

(** The row the loop leaves: the entries it does not keep are deleted. *)
Definition trim_go (a : ArffFile) (xs : dict Value) (line : dict cell)
  : dict cell :=
  fold_left (fun line kx => if stream_keeps a kx.1 kx.2 then line
                            else dict_del kx.1 line) xs line.

Definition streaming_trim (a : ArffFile) (xs : dict Value) : dict cell :=
  trim_go a xs (values_row xs).

(** What [append] does with the line of the row on an open stream. *)
Definition emit (line_str : option string) (a : ArffFile) : ArffFile :=
  match line_str with
  | Some (String c t) => print_fout (String c t) a
  | _ => a
  end.

Lemma dict_del_idem {A} (k : string) (d : dict A) :
  dict_del k (dict_del k d) = dict_del k d.
Proof.
  induction d as [| [k' v] d IH]; simpl; [reflexivity |].
  destruct (String.eqb k' k) eqn:E; simpl; [assumption |].
  rewrite E, IH. reflexivity.
Qed.

Lemma dict_get_del_None {A} (k k' : string) (d : dict A) :
  dict_get k d = None -> dict_get k (dict_del k' d) = None.
Proof.
  intros H. destruct (String.eqb_spec k' k) as [-> | Hne].
  - apply dict_get_del_eq.
  - rewrite dict_get_del_ne by assumption. assumption.
Qed.

Lemma value_member_same (a b : ArffFile) (k : string) (p : pyval) :
  attribute_data b = attribute_data a ->
  value_member b k p = value_member a k p.
Proof. unfold value_member. intros ->. reflexivity. Qed.

Lemma stream_keeps_same (a b : ArffFile) (k : string) (x : Value) :
  attributes b ≡ₚ attributes a ->
  attribute_types b = attribute_types a ->
  attribute_data b = attribute_data a ->
  stream_keeps b k x = stream_keeps a k x.
Proof.
  intros Ha Ht Hd. unfold stream_keeps.
  rewrite Ht, (value_member_same a b) by assumption.
  destruct (bool_decide (kind_of x = KNominal)); [| reflexivity].
  f_equal. f_equal. apply bool_decide_ext. rewrite Ha. reflexivity.
Qed.

Section Streaming.
Context (host : Host).

(** While a stream is open, a turn of the loop leaves the types, the
    declared values and the stream as they are, and permutes the list of
    attributes at most. *)
Lemma append_item_streaming (k : string) (v : cell) (s s' : append_state) :
  is_Some (fout (ap_self s)) ->
  append_item host k v s = Ok s' ->
  attributes (ap_self s') ≡ₚ attributes (ap_self s)
  /\ attribute_types (ap_self s') = attribute_types (ap_self s)
  /\ attribute_data (ap_self s') = attribute_data (ap_self s)
  /\ fout (ap_self s') = fout (ap_self s)
  /\ ap_schema_change s' = ap_schema_change s.
Proof.
  intros [out Hf] H.
  apply append_item_inv in H as (x & a1 & s2 & a3 & Hv & _ & Hn & Hk & ->).
  apply item_value_schema in Hv as (Ha1 & Ht1 & Hd1 & Hf1).
  apply class_item_attributes in Hk as (Ha3 & Ht3 & Hd3 & Hf3 & _).
  destruct (class_last_schema a3) as (Ha4 & Ht4 & Hd4 & Hf4).
  assert (Hs2 : ap_self s2 = a1 /\ ap_schema_change s2 = ap_schema_change s).
  { unfold nominal_item, declare_item in Hn. simpl in Hn.
    rewrite Hf1, Hf in Hn.
    destruct (negb (bool_decide (is_Some (attribute_types a1 !! k))));
      simpl in Hn; rewrite ?Hf1, ?Hf in Hn;
      (destruct (bool_decide (kind_of x = KNominal));
       [| injection Hn as <-; auto]);
      (destruct (negb (bool_decide (k ∈ attributes a1)));
       [injection Hn as <-; auto |]);
      apply bind_Ok_inv in Hn as (b & _ & Hn); injection Hn as <-; auto. }
  destruct Hs2 as (Hs2 & Hc2). simpl.
  rewrite Ha4, Ha3, Ht4, Ht3, Hd4, Hd3, Hf4, Hf3, Hs2.
  repeat split; try congruence. rewrite Ha1. reflexivity.
Qed.

Lemma append_items_streaming (d : dict cell) (s s' : append_state) :
  is_Some (fout (ap_self s)) ->
  append_items host d s = Ok s' ->
  attributes (ap_self s') ≡ₚ attributes (ap_self s)
  /\ attribute_types (ap_self s') = attribute_types (ap_self s)
  /\ attribute_data (ap_self s') = attribute_data (ap_self s)
  /\ fout (ap_self s') = fout (ap_self s)
  /\ ap_schema_change s' = ap_schema_change s.
Proof.
  revert s. induction d as [| [k v] d IH]; intros s Hf; simpl.
  - intros [= <-]. auto.
  - intros H. apply bind_Ok_inv in H as (s1 & H1 & H).
    destruct (append_item_streaming k v s s1 Hf H1) as (Ha & Ht & Hd & Hf1 & Hc).
    destruct (IH s1) as (Ha' & Ht' & Hd' & Hf' & Hc');
      [rewrite Hf1; assumption | assumption |].
    repeat split; [rewrite Ha'; assumption | congruence ..].
Qed.
End Streaming.

(** What lets a turn of the streaming loop go through for the entry
    [(k, x)]: a declared type agrees with the kind of a value that is not
    missing; the membership test of a [Nominal] value of a listed
    attribute is defined; a class flag names the class attribute. *)
Definition stream_item_ok (a : ArffFile) (k : string) (x : Value) : Prop :=
  (forall t, attribute_types a !! k = Some t ->
             is_missing (value x) = false -> t = c_type (kind_of x))
  /\ (kind_of x = KNominal -> k ∈ attributes a ->
      is_ok (value_member a k (value x)) = true)
  /\ (cls x = true -> class_attr_name a = Some k).

Lemma stream_item_ok_same (a b : ArffFile) (k : string) (x : Value) :
  attributes b ≡ₚ attributes a ->
  attribute_types b = attribute_types a ->
  attribute_data b = attribute_data a ->
  class_attr_name b = class_attr_name a ->
  stream_item_ok a k x -> stream_item_ok b k x.
Proof.
  intros Ha Ht Hd Hc (H1 & H2 & H3). unfold stream_item_ok.
  rewrite Ht, Hc, (value_member_same a b) by assumption.
  repeat split; try assumption. intros Hk Hin. apply H2; [assumption |].
  rewrite <- Ha. assumption.
Qed.

Section StreamingSuccess.
Context (host : Host).

Lemma check_prior_type_ok (a : ArffFile) (k : string) (x : Value) :
  stream_item_ok a k x ->
  check_prior_type (prior_type_of a k (CValue x)) x = Ok tt.
Proof.
  intros (H1 & _ & _). unfold check_prior_type, prior_type_of.
  destruct (is_missing (value x)) eqn:Hm; [reflexivity |]. simpl.
  destruct (attribute_types a !! k) as [t |] eqn:Ht.
  - rewrite (H1 t eq_refl eq_refl). rewrite bool_decide_eq_true_2; reflexivity.
  - rewrite bool_decide_eq_true_2; reflexivity.
Qed.

Lemma class_item_ok (a : ArffFile) (k : string) (x : Value) :
  (cls x = true -> class_attr_name a = Some k) ->
  class_item k x a = Ok a.
Proof.
  intros H. unfold class_item. destruct (cls x); [| reflexivity].
  rewrite (H eq_refl). rewrite String.eqb_refl. reflexivity.
Qed.

(** The two deletions of a turn, on an open stream, amount to the test
    [stream_keeps]. *)
Lemma nominal_declare_streaming (a : ArffFile) (k : string) (x : Value)
    (line : dict cell) (ch : bool) :
  is_Some (fout a) -> stream_item_ok a k x ->
  nominal_item k x (declare_item k x (MkAppend a line ch))
  = Ok (MkAppend a (if stream_keeps a k x then line else dict_del k line) ch).
Proof.
  intros [out Hf] (_ & H2 & _).
  unfold nominal_item, declare_item, stream_keeps. simpl. rewrite Hf.
  destruct (bool_decide (is_Some (attribute_types a !! k))); simpl;
    rewrite ?Hf;
    (destruct (bool_decide (kind_of x = KNominal)) eqn:Hk; [| reflexivity]);
    apply bool_decide_eq_true_1 in Hk;
    (destruct (bool_decide (k ∈ attributes a)) eqn:Hin; simpl;
     [| rewrite ?dict_del_idem; reflexivity]);
    apply bool_decide_eq_true_1 in Hin;
    specialize (H2 Hk Hin);
    destruct (value_member a k (value x)) as [[|] | e]; try discriminate;
    simpl; rewrite ?dict_del_idem; reflexivity.
Qed.

Lemma append_item_stream_ok (a : ArffFile) (k : string) (x : Value)
    (line : dict cell) (ch : bool) :
  is_Some (fout a) -> stream_item_ok a k x ->
  append_item host k (CValue x) (MkAppend a line ch)
  = Ok (MkAppend (class_last a)
          (if stream_keeps a k x then line else dict_del k line) ch).
Proof.
  intros Hf Hok. unfold append_item. simpl.
  rewrite (check_prior_type_ok a k x Hok). simpl.
  rewrite (nominal_declare_streaming a k x line ch Hf Hok). simpl.
  destruct Hok as (_ & _ & H3). rewrite (class_item_ok a k x H3). reflexivity.
Qed.

(** The loop on an open stream, for a row of values whose entries all go
    through: each turn applies [class_last], and the row left is the
    trimmed one. *)
Lemma append_items_stream_ok (a : ArffFile) (xs : dict Value) :
  forall (b : ArffFile) (line : dict cell) (ch : bool),
    is_Some (fout b) ->
    attributes b ≡ₚ attributes a ->
    attribute_types b = attribute_types a ->
    attribute_data b = attribute_data a ->
    class_attr_name b = class_attr_name a ->
    (forall k x, (k, x) ∈ xs -> stream_item_ok a k x) ->
    append_items host (values_row xs) (MkAppend b line ch)
    = Ok (MkAppend (Nat.iter (length xs) class_last b) (trim_go a xs line) ch).
Proof.
  induction xs as [| [k x] xs IH]; intros b line ch Hf Ha Ht Hd Hc Hok;
    [reflexivity |].
  simpl values_row. simpl append_items.
  assert (Hokb : stream_item_ok b k x).
  { apply (stream_item_ok_same a b); try assumption.
    apply Hok. apply list_elem_of_here. }
  rewrite (append_item_stream_ok b k x line ch Hf Hokb). simpl mbind.
  destruct (class_last_schema b) as (Ha' & Ht' & Hd' & Hf').
  rewrite IH.
  - rewrite (stream_keeps_same a b) by assumption.
    rewrite <- Nat.iter_succ_r. reflexivity.
  - rewrite Hf'. assumption.
  - rewrite Ha'. assumption.
  - congruence.
  - congruence.
  - rewrite class_last_class. assumption.
  - intros k' x' Hin. apply Hok. apply list_elem_of_further. assumption.
Qed.
End StreamingSuccess.

Lemma trim_go_cons (a : ArffFile) (k : string) (x : Value) (xs : dict Value)
    (line : dict cell) :
  trim_go a ((k, x) :: xs) line
  = trim_go a xs (if stream_keeps a k x then line else dict_del k line).
Proof. reflexivity. Qed.

Lemma trim_go_get_None (a : ArffFile) (xs : dict Value) (k : string) :
  forall line : dict cell,
    dict_get k line = None -> dict_get k (trim_go a xs line) = None.
Proof.
  induction xs as [| [k' x'] xs IH]; intros line H; [assumption |].
  rewrite trim_go_cons.
  apply IH. destruct (stream_keeps a k' x'); [assumption |].
  apply dict_get_del_None. assumption.
Qed.

(** An entry the loop does not keep is absent from the row it leaves. *)
Lemma trim_go_removed (a : ArffFile) (xs : dict Value) (k : string) (x : Value) :
  forall line : dict cell,
    (k, x) ∈ xs -> stream_keeps a k x = false ->
    dict_get k (trim_go a xs line) = None.
Proof.
  induction xs as [| [k' x'] xs IH]; intros line Hin Hk; [inversion Hin |].
  apply elem_of_cons in Hin as [[= <- <-] | Hin].
  - rewrite trim_go_cons, Hk. apply trim_go_get_None.
    apply dict_get_del_eq.
  - apply IH; assumption.
Qed.

(** An entry the loop keeps is still in the row it leaves. *)
Lemma trim_go_kept (a : ArffFile) (xs : dict Value) (k : string) :
  forall line : dict cell,
    (forall x, (k, x) ∈ xs -> stream_keeps a k x = true) ->
    dict_get k (trim_go a xs line) = dict_get k line.
Proof.
  induction xs as [| [k' x'] xs IH]; intros line Hk; [reflexivity |].
  rewrite trim_go_cons.
  rewrite IH by (intros x Hin; apply Hk, list_elem_of_further, Hin).
  destruct (stream_keeps a k' x') eqn:E; [reflexivity |].
  destruct (String.eqb_spec k' k) as [-> | Hne].
  - rewrite (Hk x') in E by apply list_elem_of_here. discriminate.
  - apply dict_get_del_ne. assumption.
Qed.

Lemma class_last_iter_schema (n : nat) (a : ArffFile) :
  attributes (Nat.iter n class_last a) ≡ₚ attributes a
  /\ attribute_types (Nat.iter n class_last a) = attribute_types a
  /\ attribute_data (Nat.iter n class_last a) = attribute_data a
  /\ fout (Nat.iter n class_last a) = fout a
  /\ class_attr_name (Nat.iter n class_last a) = class_attr_name a.
Proof.
  induction n as [| n (Ha & Ht & Hd & Hf & Hc)]; simpl; [auto |].
  destruct (class_last_schema (Nat.iter n class_last a)) as (Ha' & Ht' & Hd' & Hf').
  rewrite class_last_class.
  repeat split; [rewrite Ha'; assumption | congruence ..].
Qed.

Lemma class_last_iter_no_class (n : nat) (a : ArffFile) :
  class_attr_name a = None -> Nat.iter n class_last a = a.
Proof.
  intros Hc. induction n as [| n IH]; simpl; [reflexivity |].
  rewrite IH. unfold class_last. rewrite Hc. reflexivity.
Qed.

Lemma emit_schema (line_str : option string) (a : ArffFile) :
  attributes (emit line_str a) = attributes a
  /\ attribute_types (emit line_str a) = attribute_types a
  /\ attribute_data (emit line_str a) = attribute_data a
  /\ class_attr_name (emit line_str a) = class_attr_name a.
Proof.
  unfold emit, print_fout.
  destruct line_str as [[| c t] |]; destruct (fout a); auto.
Qed.

(** While a stream is open, an append that returns has left the types and
    the declared values as they were, and the same attributes listed. *)
Lemma append_streaming_schema (host : Host) (line : row) (so us : bool)
    (a a' : ArffFile) :
  is_Some (fout a) ->
  append host line so us a = Ok a' ->
  attributes a' ≡ₚ attributes a
  /\ attribute_types a' = attribute_types a
  /\ attribute_data a' = attribute_data a.
Proof.
  intros Hf H. destruct line as [l | d].
  - unfold append in H. apply bind_Ok_inv in H as ([] & _ & H).
    simpl in H. unfold store_dense in H.
    destruct (negb _); [injection H as <-; auto |].
    apply bind_Ok_inv in H as (datum & _ & H).
    destruct Hf as [out Hf]. rewrite Hf in H.
    apply bind_Ok_inv in H as (line_str & _ & H). injection H as <-.
    destruct line_str as [[| ch t] |]; unfold print_fout; rewrite ?Hf; auto.
  - destruct us.
    + apply append_dict_inv in H as (s' & Hloop & -> & -> & -> & _).
      destruct (append_items_streaming host d (MkAppend a d false) s' Hf Hloop)
        as (Ha & Ht & Hd & _). auto.
    + unfold append in H. simpl in H.
      destruct (negb so); [| injection H as <-; auto].
      destruct Hf as [out Hf]. rewrite Hf in H.
      apply bind_Ok_inv in H as (line_str & _ & H). injection H as <-.
      destruct line_str as [[| ch t] |]; unfold print_fout; rewrite ?Hf; auto.
Qed.

(** X19: trimming on an open stream.  For a name-keyed row of
    values whose entries go through the checks of the loop
    ([stream_item_ok]) and whose trimmed form can be written, [append]
    returns: the row written is the trimmed one, in which every entry of an
    attribute without a declared type and every [Nominal] entry whose
    attribute is not listed or whose value is not declared is absent,
    while an entry the loop keeps is still there.  The types and the
    declared values are those of before, and so are the attributes listed,
    up to their order: each turn of the loop moves the class attribute to
    the end of the list, which is left as it was when no class attribute
    is set.  The last part holds for every append that returns while a
    stream is open. *)
Theorem streaming_append_trims (host : Host) (a : ArffFile) (xs : dict Value)
    (line_str : option string) :
  is_Some (fout a) ->
  (forall k x, (k, x) ∈ xs -> stream_item_ok a k x) ->
  write_line host (Nat.iter (length xs) class_last a)
    (RDict (streaming_trim a xs)) SPARSE = Ok line_str ->
  let a' := emit line_str (Nat.iter (length xs) class_last a) in
  append host (RDict (values_row xs)) false true a = Ok a'
  /\ (forall k x, (k, x) ∈ xs -> attribute_types a !! k = None ->
        dict_get k (streaming_trim a xs) = None)
  /\ (forall k x, (k, x) ∈ xs -> kind_of x = KNominal ->
        k ∉ attributes a \/ value_member a k (value x) = Ok false ->
        dict_get k (streaming_trim a xs) = None)
  /\ (forall k, (forall x, (k, x) ∈ xs -> stream_keeps a k x = true) ->
        dict_get k (streaming_trim a xs) = dict_get k (values_row xs))
  /\ attribute_types a' = attribute_types a
  /\ attribute_data a' = attribute_data a
  /\ attributes a' ≡ₚ attributes a
  /\ (class_attr_name a = None -> attributes a' = attributes a)
  /\ (forall (line : row) (so us : bool) (a2 : ArffFile),
        append host line so us a = Ok a2 ->
        attributes a2 ≡ₚ attributes a
        /\ attribute_types a2 = attribute_types a
        /\ attribute_data a2 = attribute_data a).
Proof.
  intros Hf Hok Hw a'.
  destruct (class_last_iter_schema (length xs) a) as (Ha & Ht & Hd & Hf1 & Hc).
  destruct (emit_schema line_str (Nat.iter (length xs) class_last a))
    as (Ha' & Ht' & Hd' & Hc').
  split; [| split; [| split; [| split; [| split; [| split; [| split; [| split]]]]]]].
  - unfold append.
    rewrite (append_items_stream_ok host a xs a (values_row xs) false);
      try assumption; try reflexivity.
    cbn [mbind result_bind ap_schema_change ap_self ap_line negb].
    destruct Hf as [out Hf]. rewrite Hf1, Hf.
    fold (streaming_trim a xs). rewrite Hw. reflexivity.
  - intros k x Hin Hnone. apply (trim_go_removed a xs k x); [assumption |].
    unfold stream_keeps. rewrite Hnone.
    rewrite bool_decide_eq_false_2; [reflexivity |].
    intros [t Ht0]. discriminate.
  - intros k x Hin Hk Hout. apply (trim_go_removed a xs k x); [assumption |].
    unfold stream_keeps. rewrite (bool_decide_eq_true_2 _ Hk).
    destruct Hout as [Hnot | Hmem].
    + rewrite (bool_decide_eq_false_2 _ Hnot). apply andb_false_r.
    + rewrite Hmem. rewrite !andb_false_r. reflexivity.
  - intros k Hk. apply trim_go_kept. assumption.
  - subst a'. congruence.
  - subst a'. congruence.
  - subst a'. rewrite Ha'. assumption.
  - intros Hnone. subst a'. rewrite Ha'.
    rewrite class_last_iter_no_class by assumption. reflexivity.
  - intros line so us a2 H.
    apply (append_streaming_schema host line so us a a2); assumption.
Qed.

(** A stream for the examples: an integer attribute [a] and a nominal
    attribute [b] with the declared values [x] and [y], the header
    written. *)
Definition streaming_example : ArffFile :=
  match open_stream example_host
          (define_attribute "b" TYPE_NOMINAL (DSet [PStr "x"; PStr "y"])
             (define_attribute "a" TYPE_INTEGER DNone ArffFile_new)) None with
  | Ok a => a
  | Raise _ => ArffFile_new
  end.

(** The theorem above on the row
    [{a: Integer(2), b: Nominal("z"), u: Integer(7)}]: the value [z] is not
    declared and [u] is no attribute, so the line written is [{0 2}]. *)
Lemma streaming_append_trims_witness :
  let xs := [("a", MkValue KInteger (PInt 2) false);
             ("b", MkValue KNominal (PStr "z") false);
             ("u", MkValue KInteger (PInt 7) false)] in
  exists a' : ArffFile,
    append example_host (RDict (values_row xs)) false true streaming_example
    = Ok a'
    /\ fout a' = Some ["% "; "@relation "; "@attribute 'a' integer";
                       "@attribute 'b' {x,y}"; "@data"; "{0 2}"]
    /\ attributes a' = ["a"; "b"].
Proof.
  intros xs. eexists. split.
  - apply (streaming_append_trims example_host streaming_example xs
             (Some "{0 2}")).
    + eexists. reflexivity.
    + intros k x Hin.
      apply elem_of_cons in Hin as [[= -> ->] | Hin];
        [| apply elem_of_cons in Hin as [[= -> ->] | Hin];
           [| apply elem_of_cons in Hin as [[= -> ->] | Hin];
              [| inversion Hin]]];
        (split; [| split]); try discriminate;
        try (intros t Ht _; vm_compute in Ht; first
               [discriminate | injection Ht as <-; reflexivity]);
        try (intros _ _; reflexivity).
    + reflexivity.
  - split; reflexivity.
Defined.

(** C2: the schema is changed by an append on an open stream.  The header
    flushed at [open_stream] declares [a] as column 0 and [b] as column 1.
    The append of a row that flags [a] as class, or of any row once [a] is
    the class attribute, runs the reordering of the class attribute, which
    has no test on the stream: the attribute list becomes [b, a], and the
    row is written with the columns of the new order under the header of
    the old one ([{1 1}] for [a = 1]; [{0 2, 1 1}] for [a = 1, b = 2]). *)
Theorem streaming_append_reorders_attributes :
  let schema := define_attribute "b" TYPE_INTEGER DNone
                  (define_attribute "a" TYPE_INTEGER DNone ArffFile_new) in
  let header := ["% "; "@relation "; "@attribute 'a' integer";
                 "@attribute 'b' integer"; "@data"] in
  (exists a a' : ArffFile,
     open_stream example_host schema None = Ok a
     /\ attributes a = ["a"; "b"]
     /\ fout a = Some header
     /\ append example_host
          (RDict [("a", CValue (MkValue KInteger (PInt 1) true))]) false true a
        = Ok a'
     /\ attributes a' = ["b"; "a"]
     /\ fout a' = Some (header ++ ["{1 1}"])
     /\ attributes a' <> attributes a)
  /\ (exists a a' : ArffFile,
        open_stream example_host schema (Some "a") = Ok a
        /\ attributes a = ["a"; "b"]
        /\ fout a = Some header
        /\ append example_host
             (RDict [("a", CValue (MkValue KInteger (PInt 1) false));
                     ("b", CValue (MkValue KInteger (PInt 2) false))])
             false true a
           = Ok a'
        /\ attributes a' = ["b"; "a"]
        /\ fout a' = Some (header ++ ["{0 2, 1 1}"])
        /\ attributes a' <> attributes a).
Proof.
  intros schema header. split.
  - eexists _, _. split; [vm_compute; reflexivity |].
    split; [reflexivity |]. split; [reflexivity |].
    split; [vm_compute; reflexivity |].
    split; [reflexivity |]. split; [reflexivity | discriminate].
  - eexists _, _. split; [vm_compute; reflexivity |].
    split; [reflexivity |]. split; [reflexivity |].
    split; [vm_compute; reflexivity |].
    split; [reflexivity |]. split; [reflexivity | discriminate].
Qed.

(** * Further properties *)

(** ** Reading the schema only *)

Section SchemaOnly.
Context (host : Host).

Lemma parse_relation_data (l : string) (a a' : ArffFile) :
  parse_relation l a = Ok a' -> data a' = data a /\ state a' = state a.
Proof.
  unfold parse_relation. intros H. apply bind_Ok_inv in H as (n & _ & H).
  injection H as <-. auto.
Qed.

Lemma parse_attribute_data (l : string) (a a' : ArffFile) :
  parse_attribute l a = Ok a' -> data a' = data a /\ state a' = state a.
Proof.
  unfold parse_attribute. intros H.
  apply bind_Ok_inv in H as (n & _ & H).
  apply bind_Ok_inv in H as (t & _ & H).
  repeat (match type of H with
          | (if ?c then _ else _) = _ => destruct c
          end; [injection H as <-; auto |]).
  discriminate.
Qed.

Lemma parse_header_line_data (l : string) (a a' : ArffFile) :
  parse_header_line l a = Ok a' -> data a' = data a.
Proof.
  unfold parse_header_line. intros H.
  apply bind_Ok_inv in H as (a1 & H1 & H).
  apply bind_Ok_inv in H as (a2 & H2 & H). injection H as <-.
  assert (D1 : data a1 = data a).
  { destruct (Py.startswith _ _) in H1;
      [apply parse_relation_data in H1 as [? _]; assumption
      | injection H1 as <-; reflexivity]. }
  assert (D2 : data a2 = data a1).
  { destruct (Py.startswith _ "@attribute ") in H2;
      [apply parse_attribute_data in H2 as [? _]; assumption
      | injection H2 as <-; reflexivity]. }
  destruct (Py.startswith _ "@data"); simpl; congruence.
Qed.

(** Outside the data section, a line adds no row. *)
Lemma parseline_header_data (l : string) (a a' : ArffFile) :
  state a <> Some st_data ->
  parseline host l a = Ok a' -> data a' = data a.
Proof.
  intros Hst. unfold parseline.
  destruct (state a) as [[| |] |]; try discriminate; try contradiction.
  - destruct (comment a); [| discriminate].
    case_bool_decide as Hc.
    + intros [= <-]. reflexivity.
    + intros H. apply parse_header_line_data in H. assumption.
  - apply parse_header_line_data.
Qed.

Lemma parse_lines_schema_only (ls : list string) :
  forall a a' : ArffFile,
    state a <> Some st_data ->
    parse_lines host true ls a = Ok a' -> data a' = data a.
Proof.
  induction ls as [| l ls IH]; intros a a' Hst; simpl.
  - intros [= <-]. reflexivity.
  - intros H. apply bind_Ok_inv in H as (a1 & H1 & H).
    pose proof (parseline_header_data l a a1 Hst H1) as D1.
    case_bool_decide as Hd; simpl in H.
    + injection H as <-. assumption.
    + apply IH in H; [| assumption]. simpl in H. congruence.
Qed.
End SchemaOnly.

(** X1: [parse(s, schema_only=True)] stores no row, whatever the text:
    the loop leaves at the line that opens the data section, and no line
    before it adds a row. *)
Theorem parse_schema_only_no_rows (host : Host) (s : string) (a : ArffFile) :
  parse host s true = Ok a -> data a = [] /\ len a = 0%nat.
Proof.
  unfold parse. intros H.
  apply parse_lines_schema_only in H; [| discriminate].
  unfold len. rewrite H. split; reflexivity.
Qed.

(** The theorem above on a text with two data lines. *)
Lemma parse_schema_only_no_rows_witness :
  exists a : ArffFile,
    parse example_host
      (Py.join (Py.chr Py.LF)
         ["@relation r"; "@attribute n integer"; "@data"; "1"; "2"]) true
    = Ok a
    /\ attributes a = ["n"] /\ data a = [].
Proof.
  destruct (parse example_host
              (Py.join (Py.chr Py.LF)
                 ["@relation r"; "@attribute n integer"; "@data"; "1"; "2"])
              true) as [a | e] eqn:E; [| vm_compute in E; discriminate].
  exists a. split; [reflexivity |]. split.
  - vm_compute in E. injection E as <-. reflexivity.
  - apply (parse_schema_only_no_rows example_host _ a E).
Defined.

(** ** What the writer reads of a dataset *)

(** Two datasets with the same schema. *)
Definition same_schema (a b : ArffFile) : Prop :=
  attributes a = attributes b
  /\ attribute_types a = attribute_types b
  /\ attribute_data a = attribute_data b.

Section WriterReads.
Context (host : Host) (a b : ArffFile) (Hab : same_schema a b).

Lemma type_of_same (name : string) : type_of a name = type_of b name.
Proof. destruct Hab as (_ & Ht & _). unfold type_of. rewrite Ht. reflexivity. Qed.

Lemma adata_iter_same (name : string) : adata_iter a name = adata_iter b name.
Proof. destruct Hab as (_ & _ & Hd). unfold adata_iter. rewrite Hd. reflexivity. Qed.

Lemma resolve_same (name : string) (c : cell) :
  resolve host a name c = resolve host b name c.
Proof.
  destruct Hab as (_ & _ & Hd). unfold resolve, format_date. rewrite Hd.
  reflexivity.
Qed.

Lemma dropped_same (name : string) (v : pyval) :
  dropped host a name v = dropped host b name v.
Proof. unfold dropped. rewrite type_of_same, adata_iter_same. reflexivity. Qed.

Lemma sparse_tokens_same (d : dict cell) (names : list string) :
  forall i : Z,
    sparse_tokens host a d i names = sparse_tokens host b d i names.
Proof.
  induction names as [| n names IH]; intros i; simpl; [reflexivity |].
  destruct (dict_get n d); [| apply IH].
  rewrite resolve_same. destruct (resolve host b n c); [| reflexivity]. simpl.
  rewrite dropped_same. destruct (dropped host b n a0); [| reflexivity]. simpl.
  rewrite IH. reflexivity.
Qed.

Lemma wrap_entries_same (d : dict cell) :
  wrap_entries host a d = wrap_entries host b d.
Proof.
  destruct Hab as (_ & Ht & _).
  induction d as [| [k c] d IH]; simpl; [reflexivity |].
  unfold wrap_entry. rewrite Ht, IH. reflexivity.
Qed.

Lemma dense_fields_same (l : list cell) :
  forall names : list string,
    dense_fields host a l names = dense_fields host b l names.
Proof.
  induction l as [| e l IH]; intros [| n names]; simpl; try reflexivity.
  unfold dense_field. rewrite type_of_same, IH. reflexivity.
Qed.

Lemma write_line_same (d : row) (fmt : format) :
  write_line host a d fmt = write_line host b d fmt.
Proof.
  pose proof Hab as (Ha & _ & _). unfold write_line, dict_of_row.
  destruct fmt.
  - destruct d; [| reflexivity]. rewrite dense_fields_same, Ha. reflexivity.
  - destruct d as [l | m]; simpl.
    + rewrite wrap_entries_same, Ha.
      destruct (wrap_entries host b _); [| reflexivity]. simpl.
      rewrite sparse_tokens_same. reflexivity.
    + rewrite sparse_tokens_same, Ha. reflexivity.
Qed.

Lemma data_lines_same (fmt : format) (rows : list row) :
  data_lines host a fmt rows = data_lines host b fmt rows.
Proof.
  induction rows as [| d rows IH]; simpl; [reflexivity |].
  rewrite write_line_same, IH. reflexivity.
Qed.

Lemma attribute_lines_same (names : list string) :
  attribute_lines host a names = attribute_lines host b names.
Proof.
  pose proof Hab as (_ & _ & Hd).
  induction names as [| n names IH]; simpl; [reflexivity |].
  unfold attribute_line, date_pattern_text.
  rewrite type_of_same, adata_iter_same, Hd, IH. reflexivity.
Qed.

(** [write] reads the relation, the schema, the comment and the rows,
    and nothing else of the dataset. *)
Lemma write_lines_same (fmt : format) (schema_only data_only : bool) :
  relation a = relation b ->
  comment_list (comment a) = comment_list (comment b) ->
  data a = data b ->
  write_lines host a fmt schema_only data_only
  = write_lines host b fmt schema_only data_only.
Proof.
  intros Hr Hc Hrows. pose proof Hab as (Ha & _ & _).
  unfold write_lines, write_attributes, comment_line.
  rewrite attribute_lines_same, data_lines_same, Ha, Hr, Hrows.
  replace (match comment a with
           | CommentLines ls => Py.join (Py.chr Py.LF) ls
           | CommentText s =>
               Py.join (Py.chr Py.LF) (map Py.chr (list_ascii_of_string s))
           end)
    with (Py.join (Py.chr Py.LF) (comment_list (comment a)))
    by (destruct (comment a); reflexivity).
  replace (match comment b with
           | CommentLines ls => Py.join (Py.chr Py.LF) ls
           | CommentText s =>
               Py.join (Py.chr Py.LF) (map Py.chr (list_ascii_of_string s))
           end)
    with (Py.join (Py.chr Py.LF) (comment_list (comment b)))
    by (destruct (comment b); reflexivity).
  rewrite Hc. reflexivity.
Qed.
End WriterReads.

Lemma comment_list_idem (c : comment_t) :
  comment_list (CommentLines (comment_list c)) = comment_list c.
Proof. reflexivity. Qed.

(** X2: a copy with its rows writes the same text as the original, in
    both formats and for each part, although it shares neither the open
    stream nor the class attribute with it; a copy of the schema only has
    no row and no comment. *)
Theorem copy_writes_the_same (host : Host) (a : ArffFile) :
  (forall (fmt : format) (schema_only data_only : bool),
     write host (copy false a) fmt schema_only data_only
     = write host a fmt schema_only data_only)
  /\ (forall so : bool,
        fout (copy so a) = None /\ class_attr_name (copy so a) = None
        /\ same_schema (copy so a) a /\ relation (copy so a) = relation a)
  /\ data (copy true a) = [] /\ comment (copy true a) = CommentLines []
  /\ data (copy false a) = data a.
Proof.
  split; [| split; [| repeat split]].
  - intros fmt so do. unfold write. f_equal.
    apply write_lines_same; try reflexivity. repeat split.
  - intros so. destruct so; repeat split.
Qed.

(** *** The rows after writing *)

Lemma dict_get_set_ne {A : Type} (k n : string) (v : A) (d : dict A) :
  k <> n -> dict_get n (dict_set k v d) = dict_get n d.
Proof.
  intros Hne. induction d as [| [k' v'] d IH]; simpl.
  - destruct (String.eqb_spec k n); [contradiction | reflexivity].
  - destruct (String.eqb_spec k' k) as [-> | Hk]; simpl.
    + destruct (String.eqb_spec k n); [contradiction | reflexivity].
    + destruct (String.eqb k' n); [reflexivity | exact IH].
Qed.

(** An entry and what writing leaves of it: the entry itself, or, for a
    [Date] value, a [Date] value with the same flag whose payload is a
    text. *)
Definition stamped (c c' : cell) : Prop :=
  c' = c
  \/ exists x text, c = CValue x /\ kind_of x = KDate
                    /\ c' = CValue (MkValue KDate (PStr text) (cls x)).

Definition dict_stamped (d d' : dict cell) : Prop :=
  Forall2 (fun kv kv' : string * cell => kv.1 = kv'.1 /\ stamped kv.2 kv'.2)
    d d'.

Definition row_stamped (d d' : row) : Prop :=
  match d, d' with
  | RList l, RList l' => Forall2 stamped l l'
  | RDict m, RDict m' => dict_stamped m m'
  | _, _ => False
  end.

(** A row that holds no [Date] value. *)
Definition date_free (d : row) : Prop :=
  match d with
  | RList l =>
      Forall (fun c => forall x, c = CValue x -> kind_of x <> KDate) l
  | RDict m =>
      Forall (fun kv : string * cell =>
                forall x, kv.2 = CValue x -> kind_of x <> KDate) m
  end.

Lemma stamped_refl (c : cell) : stamped c c.
Proof. left. reflexivity. Qed.

Lemma stamped_trans (c1 c2 c3 : cell) :
  stamped c1 c2 -> stamped c2 c3 -> stamped c1 c3.
Proof.
  intros [-> | (x & t & -> & Hk & ->)] H; [exact H |].
  destruct H as [-> | (x' & t' & [= <-] & _ & ->)]; right; eauto.
Qed.

Lemma dict_stamped_refl (d : dict cell) : dict_stamped d d.
Proof.
  induction d as [| kv d IH]; constructor;
    [split; [reflexivity | apply stamped_refl] | exact IH].
Qed.

Lemma dict_stamped_trans (d1 d2 d3 : dict cell) :
  dict_stamped d1 d2 -> dict_stamped d2 d3 -> dict_stamped d1 d3.
Proof.
  intros H. revert d3. induction H as [| kv1 kv2 d1 d2 (Hk & Hs) _ IH];
    intros d3 H'; inversion H' as [| ? kv3 ? d3' (Hk' & Hs') Hrest]; subst;
    constructor.
  - split; [congruence | eapply stamped_trans; eassumption].
  - apply IH, Hrest.
Qed.

Lemma dict_set_stamped (name : string) (c c' : cell) (d : dict cell) :
  dict_get name d = Some c -> stamped c c' ->
  dict_stamped d (dict_set name c' d).
Proof.
  intros Hget Hs. induction d as [| [k v] d IH]; [discriminate |].
  simpl in Hget |- *. destruct (String.eqb k name).
  - injection Hget as ->. constructor; [| apply dict_stamped_refl].
    split; [reflexivity | exact Hs].
  - constructor; [split; [reflexivity | apply stamped_refl] | apply IH, Hget].
Qed.

Lemma dict_stamped_get (d d' : dict cell) (n : string) (c : cell) :
  dict_stamped d d' -> dict_get n d = Some c ->
  exists c', dict_get n d' = Some c' /\ stamped c c'.
Proof.
  induction 1 as [| [k v] [k' v'] d d' (Hk & Hs) _ IH]; [discriminate |].
  simpl in Hk, Hs |- *. subst k'. destruct (String.eqb k n).
  - intros [= <-]. eauto.
  - exact IH.
Qed.

Lemma stamped_date_free (c c' : cell) :
  stamped c c' -> (forall x, c = CValue x -> kind_of x <> KDate) -> c' = c.
Proof.
  intros [-> | (x & t & -> & Hk & _)] H; [reflexivity |].
  destruct (H x eq_refl Hk).
Qed.

Section RowsAfterWriting.
Context (host : Host) (a : ArffFile).

Lemma resolved_cell_stamped (name : string) (c : cell) (v : pyval) :
  resolve host a name c = Ok v -> stamped c (resolved_cell c v).
Proof.
  destruct c as [x | p]; [| intros _; apply stamped_refl].
  unfold resolve, resolved_cell.
  destruct (is_missing (value x)); [intros _; apply stamped_refl |].
  simpl. case_bool_decide as Hk; [| intros _; apply stamped_refl].
  rewrite Hk. unfold format_date. intros H.
  apply bind_Ok_inv in H as (pat & _ & H).
  apply bind_Ok_inv in H as (dt & _ & H). injection H as <-.
  right. eauto.
Qed.

Lemma sparse_loop_stamped (names : list string) :
  forall (d d' : dict cell) (i : Z) (toks : list string),
    sparse_loop host a d i names = Ok (d', toks) -> dict_stamped d d'.
Proof.
  induction names as [| n names IH]; intros d d' i toks; simpl.
  - intros [= <- _]. apply dict_stamped_refl.
  - destruct (dict_get n d) as [c |] eqn:Hget; [| apply IH].
    intros H. apply bind_Ok_inv in H as (v & Hv & H).
    apply bind_Ok_inv in H as (omit & _ & H).
    apply bind_Ok_inv in H as ([d2 r] & Hloop & H). injection H as <- _.
    eapply dict_stamped_trans; [| apply (IH _ _ _ _ Hloop)].
    apply (dict_set_stamped n c); [exact Hget |].
    apply (resolved_cell_stamped n), Hv.
Qed.

(** For attribute names that are pairwise distinct, the tokens of the
    loop are those of [sparse_tokens]: no column meets a value that an
    earlier column has changed. *)
Lemma sparse_loop_text (names : list string) :
  NoDup names ->
  forall (d d1 : dict cell) (i : Z),
    (forall n, n ∈ names -> dict_get n d1 = dict_get n d) ->
    snd <$> sparse_loop host a d1 i names = sparse_tokens host a d i names.
Proof.
  induction 1 as [| n names Hn _ IH]; intros d d1 i Hd; [reflexivity |].
  cbn [sparse_loop sparse_tokens].
  rewrite (Hd n (list_elem_of_here _ _)).
  destruct (dict_get n d) as [c |].
  - destruct (resolve host a n c) as [v | e]; [| reflexivity]. simpl.
    destruct (dropped host a n v) as [omit | e]; [| reflexivity]. simpl.
    rewrite <- (IH d (dict_set n (resolved_cell c v) d1) (i + 1)).
    + destruct (sparse_loop host a _ (i + 1) names) as [[d2 r] | e];
        reflexivity.
    + intros m Hm. rewrite dict_get_set_ne by (intros ->; contradiction).
      apply Hd, list_elem_of_further, Hm.
  - apply IH. intros m Hm. apply Hd, list_elem_of_further, Hm.
Qed.

Lemma write_line_row_text (d : row) (fmt : format) :
  NoDup (attributes a) ->
  snd <$> write_line_row host a d fmt = write_line host a d fmt.
Proof.
  intros Hnd. unfold write_line_row, write_line. destruct fmt.
  - destruct d as [l | m]; [| reflexivity]. simpl.
    destruct (dense_fields host a l (attributes a)); reflexivity.
  - destruct (dict_of_row host a d) as [m |]; [| reflexivity]. simpl.
    rewrite <- (sparse_loop_text (attributes a) Hnd m m 0) by reflexivity.
    destruct (sparse_loop host a m 0 (attributes a)) as [[m' toks] |];
      reflexivity.
Qed.

Lemma data_lines_rows_text (fmt : format) (rows : list row) :
  NoDup (attributes a) ->
  snd <$> data_lines_rows host a fmt rows = data_lines host a fmt rows.
Proof.
  intros Hnd. induction rows as [| d rows IH]; [reflexivity |].
  cbn [data_lines_rows data_lines].
  rewrite <- (write_line_row_text d fmt Hnd), <- IH.
  destruct (write_line_row host a d fmt) as [[d' s] |]; [| reflexivity].
  simpl. destruct (data_lines_rows host a fmt rows) as [[ds r] |];
    reflexivity.
Qed.

(** What [dict(zip(names, row))] holds under a name: the entry of the
    last position zipped under it. *)
Lemma fold_dict_set_other {A : Type} (n : string) (ps : list (string * A)) :
  n ∉ map fst ps ->
  forall d : dict A,
    dict_get n (fold_left (fun d kv => dict_set kv.1 kv.2 d) ps d)
    = dict_get n d.
Proof.
  induction ps as [| [k v] ps IH]; intros Hn d; [reflexivity |].
  simpl in Hn. apply not_elem_of_cons in Hn as (Hne & Hn).
  simpl. rewrite (IH Hn). apply dict_get_set_ne. congruence.
Qed.

Lemma dict_get_set_eq {A : Type} (n : string) (v : A) (d : dict A) :
  dict_get n (dict_set n v d) = Some v.
Proof.
  induction d as [| [k' v'] d IH]; simpl.
  - rewrite String.eqb_refl. reflexivity.
  - destruct (String.eqb k' n) eqn:E; simpl; rewrite E;
      [reflexivity | exact IH].
Qed.

Lemma dict_of_pairs_last {A : Type} (pre post : list (string * A))
    (n : string) (c : A) :
  n ∉ map fst post ->
  dict_get n (dict_of_pairs (pre ++ (n, c) :: post)) = Some c.
Proof.
  intros Hn. unfold dict_of_pairs. rewrite fold_left_app. simpl.
  rewrite (fold_dict_set_other n post Hn). apply dict_get_set_eq.
Qed.

Lemma wrap_entries_value (d m : dict cell) (n : string) (x : Value) :
  wrap_entries host a d = Ok m ->
  dict_get n d = Some (CValue x) -> dict_get n m = Some (CValue x).
Proof.
  revert m. induction d as [| [k c] d IH]; intros m; [discriminate |].
  simpl. intros H. apply bind_Ok_inv in H as (c' & Hc & H).
  apply bind_Ok_inv in H as (r & Hr & H). injection H as <-.
  simpl. destruct (String.eqb k n).
  - intros [= ->]. simpl in Hc. injection Hc as <-. reflexivity.
  - apply IH, Hr.
Qed.

Lemma restore_stamped (m0 m : dict cell) (ps : list (string * cell)) :
  wrap_entries host a (dict_of_pairs ps) = Ok m0 ->
  dict_stamped m0 m ->
  Forall2 stamped (map snd ps) (restore m ps).
Proof.
  intros Hw Hm.
  assert (H : forall (tl pre : list (string * cell)), ps = pre ++ tl ->
                Forall2 stamped (map snd tl) (restore m tl)).
  { induction tl as [| [n c] tl IH]; intros pre Hps; [constructor |].
    simpl. constructor.
    - destruct c as [x | p]; [| apply stamped_refl].
      case_bool_decide as Hin; [apply stamped_refl |].
      assert (Hget : dict_get n m0 = Some (CValue x)).
      { apply (wrap_entries_value _ _ _ _ Hw). rewrite Hps.
        apply dict_of_pairs_last, Hin. }
      destruct (dict_stamped_get _ _ _ _ Hm Hget) as (c' & Hc' & Hs).
      rewrite Hc'. exact Hs.
    - apply (IH (pre ++ [(n, c)])). rewrite <- app_assoc. exact Hps. }
  apply (H ps []). reflexivity.
Qed.

Lemma combine_snd_skipn {A B : Type} (names : list A) (l : list B) :
  map snd (combine names l) ++ skipn (length names) l = l.
Proof.
  revert l. induction names as [| n names IH]; intros l; [reflexivity |].
  destruct l as [| c l]; [reflexivity |]. simpl. rewrite IH. reflexivity.
Qed.

(** Writing a row leaves it as it was, but for the payloads of its
    [Date] values. *)
Lemma write_line_row_stamped (d d' : row) (fmt : format)
    (s : option string) :
  write_line_row host a d fmt = Ok (d', s) -> row_stamped d d'.
Proof.
  assert (Hrefl : row_stamped d d).
  { destruct d as [l | m]; simpl; [| apply dict_stamped_refl].
    induction l; constructor; [apply stamped_refl | assumption]. }
  unfold write_line_row. destruct fmt.
  - intros H. apply bind_Ok_inv in H as (s' & _ & H). injection H as <- _.
    exact Hrefl.
  - intros H. apply bind_Ok_inv in H as (m0 & Hm0 & H).
    apply bind_Ok_inv in H as ([m' toks] & Hloop & H). injection H as <- _.
    pose proof (sparse_loop_stamped _ _ _ _ _ Hloop) as Hst.
    destruct d as [l | m]; simpl in Hm0 |- *.
    + rewrite <- (combine_snd_skipn (attributes a) l) at 1.
      apply Forall2_app.
      * apply (restore_stamped m0); assumption.
      * clear. induction (skipn _ l); constructor;
          [apply stamped_refl | assumption].
    + injection Hm0 as <-. exact Hst.
Qed.

Lemma data_lines_rows_stamped (fmt : format) (rows ds : list row)
    (ls : list string) :
  data_lines_rows host a fmt rows = Ok (ds, ls) -> Forall2 row_stamped rows ds.
Proof.
  revert ds ls. induction rows as [| d rows IH]; intros ds ls; simpl.
  - intros [= <- _]. constructor.
  - intros H. apply bind_Ok_inv in H as ([d' s] & Hd & H).
    apply bind_Ok_inv in H as ([ds' r] & Hr & H). injection H as <- _.
    constructor; [apply (write_line_row_stamped _ _ _ _ Hd) |].
    apply (IH _ _ Hr).
Qed.
End RowsAfterWriting.

Lemma row_stamped_date_free (d d' : row) :
  row_stamped d d' -> date_free d -> d' = d.
Proof.
  destruct d as [l | m], d' as [l' | m']; simpl; try contradiction.
  - intros H Hf. f_equal. induction H as [| c c' l l' Hc _ IH]; [reflexivity |].
    apply Forall_cons in Hf as (Hc0 & Hf).
    rewrite (stamped_date_free _ _ Hc Hc0), (IH Hf). reflexivity.
  - intros H Hf. f_equal.
    induction H as [| [k c] [k' c'] m m' (Hk & Hc) _ IH]; [reflexivity |].
    apply Forall_cons in Hf as (Hc0 & Hf). simpl in Hk, Hc, Hc0. subst k'.
    rewrite (stamped_date_free _ _ Hc Hc0), (IH Hf). reflexivity.
Qed.

(** X3: for attribute names that are pairwise distinct, [open_stream]
    puts on the new stream exactly what [write()] returns for the dataset,
    so closing the stream at once leaves a file with that text.  The
    dataset keeps its schema; each stored row keeps its shape and its
    entries, but for the [Date] values, whose payload the writer replaces
    by a text; a row that holds no [Date] value is left as it was. *)
Theorem open_stream_writes_all (host : Host) (a : ArffFile)
    (name : option string) (text : string) :
  NoDup (attributes a) ->
  write host a SPARSE false false = Ok text ->
  exists a' : ArffFile,
    open_stream host a name = Ok a'
    /\ (close_stream a').2 = Some text
    /\ fout (close_stream a').1 = None
    /\ same_schema a' a
    /\ Forall2 row_stamped (data a) (data a')
    /\ (Forall date_free (data a) -> data a' = data a).
Proof.
  unfold write. intros Hnd H.
  destruct (write_lines host a SPARSE false false) as [ls |] eqn:E;
    [| discriminate].
  injection H as <-.
  set (b := match name with
            | Some (String c s) =>
                set_class_attr_name (Some (String c s)) (set_fout (Some []) a)
            | _ => set_fout (Some []) a
            end).
  assert (Hb : same_schema b a /\ relation b = relation a
               /\ comment b = comment a /\ data b = data a
               /\ set_data (data b) b = b).
  { subst b. destruct name as [[| c s] |]; repeat split. }
  destruct Hb as (Hs & Hr & Hc & Hd & Hbb).
  assert (E' : write_lines host b SPARSE false false = Ok ls).
  { rewrite (write_lines_same host b a Hs) by congruence. assumption. }
  unfold write_lines in E'. simpl in E'.
  destruct (write_attributes host b) as [attrs |] eqn:Ea; [| discriminate].
  simpl in E'.
  assert (Hndb : NoDup (attributes b)).
  { destruct Hs as (-> & _). exact Hnd. }
  pose proof (data_lines_rows_text host b SPARSE (data b) Hndb) as Ht.
  destruct (data_lines host b SPARSE (data b)) as [rows |] eqn:Er;
    [| discriminate].
  simpl in E'. injection E' as <-.
  destruct (data_lines_rows host b SPARSE (data b)) as [[ds rows'] |] eqn:Edr;
    [| discriminate].
  simpl in Ht. injection Ht as ->.
  pose proof (data_lines_rows_stamped host b SPARSE _ _ _ Edr) as Hst.
  rewrite Hd in Hst.
  exists (set_data ds (set_fout (Some ((comment_line b
                                        :: ("@relation " +:+ relation b)
                                        :: attrs) ++ "@data" :: rows)) b)).
  split.
  - unfold open_stream. fold b. unfold write_rows. simpl.
    rewrite Ea. simpl. rewrite Hbb, Edr. simpl. rewrite app_nil_r.
    reflexivity.
  - simpl. split; [reflexivity |]. split; [reflexivity |].
    split; [exact Hs |]. split; [exact Hst |].
    intros Hfree. clear -Hst Hfree.
    induction Hst as [| d d' l l' Hdd _ IH]; [reflexivity |].
    apply Forall_cons in Hfree as (Hf & Hfree).
    rewrite (row_stamped_date_free _ _ Hdd Hf), (IH Hfree). reflexivity.
Qed.

(** A dataset with a date attribute and one row that holds a [Date]
    value. *)
Definition date_example : ArffFile :=
  set_data
    [RDict [("d", CValue (MkValue KDate
                            (PDate (MkDatetime 2020 1 2 0 0 0)) false))]]
    (define_attribute "d" TYPE_DATE (DPattern "yyyy-MM-dd") ArffFile_new).

(** The theorem above on the empty dataset, and on a dataset whose row
    holds a [Date] value: the row is left with the text in place of the
    date. *)
Lemma open_stream_writes_all_witness :
  (exists a' : ArffFile,
     open_stream example_host ArffFile_new None = Ok a'
     /\ (close_stream a').2
        = Some (Py.join (Py.chr Py.LF) ["% "; "@relation "; "@data"; ""]))
  /\ (exists a' : ArffFile,
        open_stream example_host date_example None = Ok a'
        /\ data a'
           = [RDict [("d", CValue (MkValue KDate (PStr "%Y-%m-%d") false))]]).
Proof.
  split.
  - destruct (open_stream_writes_all example_host ArffFile_new None
                (Py.join (Py.chr Py.LF) ["% "; "@relation "; "@data"; ""]))
      as (a' & H1 & H2 & _).
    + constructor.
    + reflexivity.
    + exists a'. split; assumption.
  - destruct (write example_host date_example SPARSE false false)
      as [text | e] eqn:E; [| vm_compute in E; discriminate].
    destruct (open_stream_writes_all example_host date_example None text)
      as (a' & H1 & _).
    + apply (bool_decide_unpack _). vm_compute. reflexivity.
    + exact E.
    + exists a'. split; [exact H1 |].
      vm_compute in H1. injection H1 as <-. reflexivity.
Defined.

(** ** Appending in memory *)

Section AppendInMemory.
Context (host : Host).

Lemma item_value_data (k : string) (v : cell) (a a1 : ArffFile) (x : Value) :
  item_value host k v a = Ok (x, a1) -> data a1 = data a.
Proof.
  intros H. apply item_value_self in H as [-> | (msg & ->)]; reflexivity.
Qed.

Lemma declare_item_line (k : string) (x : Value) (s : append_state) :
  data (ap_self (declare_item k x s)) = data (ap_self s)
  /\ (fout (ap_self s) = None -> ap_line (declare_item k x s) = ap_line s).
Proof.
  unfold declare_item. destruct (negb _); [| auto].
  destruct (fout (ap_self s)); simpl; auto. split; [reflexivity | discriminate].
Qed.

Lemma nominal_item_line (k : string) (x : Value) (s s' : append_state) :
  nominal_item k x s = Ok s' ->
  data (ap_self s') = data (ap_self s)
  /\ (fout (ap_self s) = None -> ap_line s' = ap_line s).
Proof.
  unfold nominal_item. destruct (bool_decide _); [| intros [= <-]; auto].
  destruct (fout (ap_self s)) eqn:Hf.
  - destruct (negb _);
      [intros [= <-]; split; [reflexivity | discriminate] |].
    intros H. apply bind_Ok_inv in H as (b & _ & H). injection H as <-.
    split; [reflexivity | discriminate].
  - intros H. apply bind_Ok_inv in H as (b & _ & H).
    destruct b.
    + injection H as <-. destruct (attribute_data (ap_self s) !! k); simpl; auto.
    + destruct (attribute_data _ !! k) as [[| | vs |] |] in H; try discriminate.
      injection H as <-.
      destruct (attribute_data (ap_self s) !! k); simpl; auto.
Qed.

Lemma class_last_data (a : ArffFile) : data (class_last a) = data a.
Proof.
  unfold class_last. destruct (class_attr_name a) as [[| c s] |]; reflexivity.
Qed.

(** In memory, a turn of the loop changes neither the row nor the rows
    held. *)
Lemma append_item_memory_line (k : string) (v : cell) (s s' : append_state) :
  fout (ap_self s) = None ->
  append_item host k v s = Ok s' ->
  ap_line s' = ap_line s /\ data (ap_self s') = data (ap_self s)
  /\ fout (ap_self s') = None.
Proof.
  intros Hf H.
  apply append_item_inv in H as (x & a1 & s2 & a3 & Hv & _ & Hn & Hk & ->).
  pose proof (item_value_data _ _ _ _ _ Hv) as D1.
  apply item_value_schema in Hv as (_ & _ & _ & Hf1).
  set (s0 := MkAppend a1 (ap_line s) (ap_schema_change s)) in *.
  assert (Hf0 : fout (ap_self s0) = None) by (simpl; congruence).
  destruct (declare_item_line k x s0) as (D2 & L2).
  assert (Hfd : fout (ap_self (declare_item k x s0)) = None).
  { unfold declare_item. destruct (negb _); [| assumption].
    rewrite Hf0. assumption. }
  destruct (nominal_item_line _ _ _ _ Hn) as (D3 & L3).
  apply nominal_item_schema in Hn as (_ & _ & Hf3).
  apply class_item_attributes in Hk as (_ & _ & _ & Hf4 & D4).
  destruct (class_last_schema a3) as (_ & _ & _ & Hf5).
  simpl. rewrite class_last_data, Hf5, Hf4, Hf3, D4, D3, D2.
  rewrite (L3 Hfd), (L2 Hf0). auto.
Qed.

Lemma append_items_memory_line (d : dict cell) (s s' : append_state) :
  fout (ap_self s) = None ->
  append_items host d s = Ok s' ->
  ap_line s' = ap_line s /\ data (ap_self s') = data (ap_self s)
  /\ fout (ap_self s') = None.
Proof.
  revert s. induction d as [| [k v] d IH]; intros s Hf; simpl.
  - intros [= <-]. auto.
  - intros H. apply bind_Ok_inv in H as (s1 & H1 & H).
    destruct (append_item_memory_line k v s s1 Hf H1) as (L1 & D1 & Hf1).
    destruct (IH s1 Hf1 H) as (L & D & Hf'). repeat split; congruence.
Qed.
End AppendInMemory.

(** X4: with no stream open, an append of a name-keyed row that returns
    has added the row as it was given at the end of the rows, leaving the
    earlier rows as they were (or no row at all with [schema_only]), and
    has opened no stream. *)
Theorem append_in_memory_adds_the_row (host : Host) (a a' : ArffFile)
    (d : dict cell) (schema_only update_schema : bool) :
  fout a = None ->
  append host (RDict d) schema_only update_schema a = Ok a' ->
  data a' = (if schema_only then data a else data a ++ [RDict d])
  /\ len a' = (if schema_only then len a else S (len a))
  /\ fout a' = None.
Proof.
  intros Hf H.
  assert (Hd : data a' = (if schema_only then data a else data a ++ [RDict d])
               /\ fout a' = None).
  { unfold append in H. apply bind_Ok_inv in H as (s & Hs & H).
    assert (Hs' : ap_line s = d /\ data (ap_self s) = data a
                  /\ fout (ap_self s) = None).
    { destruct update_schema.
      - apply bind_Ok_inv in Hs as (s1 & Hloop & Hs).
        apply bind_Ok_inv in Hs as ([] & _ & Hs). injection Hs as <-.
        apply (append_items_memory_line host d (MkAppend a d false) s1);
          assumption.
      - injection Hs as <-. auto. }
    destruct Hs' as (L & D & Hf').
    destruct schema_only; simpl in H.
    - injection H as <-. auto.
    - rewrite Hf' in H. injection H as <-. simpl. rewrite L, D. auto. }
  destruct Hd as (Hd & Hf'). repeat split; try assumption.
  unfold len. rewrite Hd. destruct schema_only; [reflexivity |].
  rewrite length_app. simpl. lia.
Qed.

(** The theorem above on the empty dataset and the row [{n: Integer(2)}]. *)
Lemma append_in_memory_adds_the_row_witness :
  let d := [("n", CValue (MkValue KInteger (PInt 2) false))] in
  exists a' : ArffFile,
    append example_host (RDict d) false true ArffFile_new = Ok a'
    /\ data a' = [RDict d] /\ len a' = 1%nat.
Proof.
  intros d.
  destruct (append example_host (RDict d) false true ArffFile_new)
    as [a' | e] eqn:E; [| vm_compute in E; discriminate].
  exists a'. split; [reflexivity |].
  destruct (append_in_memory_adds_the_row example_host ArffFile_new a' d
              false true eq_refl E) as (H1 & H2 & _).
  split; assumption.
Defined.

(** ** Declared types under [append] *)

Section DeclaredTypes.
Context (host : Host).

Lemma declare_item_types (k j : string) (x : Value) (s : append_state) (t : atype) :
  attribute_types (ap_self s) !! j = Some t ->
  attribute_types (ap_self (declare_item k x s)) !! j = Some t.
Proof.
  intros Hj. unfold declare_item. case_bool_decide as Hk; simpl; [assumption |].
  destruct (fout (ap_self s)); simpl; [assumption |].
  rewrite lookup_insert_ne; [assumption |].
  intros ->. apply Hk. eauto.
Qed.

Lemma append_item_types (k j : string) (v : cell) (s s' : append_state)
    (t : atype) :
  append_item host k v s = Ok s' ->
  attribute_types (ap_self s) !! j = Some t ->
  attribute_types (ap_self s') !! j = Some t.
Proof.
  intros H Hj.
  apply append_item_inv in H as (x & a1 & s2 & a3 & Hv & _ & Hn & Hk & ->).
  apply item_value_schema in Hv as (_ & Ht1 & _ & _).
  apply nominal_item_schema in Hn as (_ & Ht2 & _).
  apply class_item_attributes in Hk as (_ & Ht3 & _).
  destruct (class_last_schema a3) as (_ & Ht4 & _).
  simpl. rewrite Ht4, Ht3, Ht2. apply declare_item_types. simpl.
  rewrite Ht1. assumption.
Qed.

Lemma append_items_types (d : dict cell) (j : string) (t : atype) :
  forall s s' : append_state,
    append_items host d s = Ok s' ->
    attribute_types (ap_self s) !! j = Some t ->
    attribute_types (ap_self s') !! j = Some t.
Proof.
  induction d as [| [k v] d IH]; intros s s'; simpl.
  - intros [= <-]. auto.
  - intros H Hj. apply bind_Ok_inv in H as (s1 & H1 & H).
    apply (IH s1 s' H). apply (append_item_types k j v s s1 t); assumption.
Qed.

(** In memory, the turn for a value that is not missing leaves its
    attribute declared with the type of the value's class. *)
Lemma append_item_declares (k : string) (x : Value) (s s' : append_state) :
  fout (ap_self s) = None ->
  append_item host k (CValue x) s = Ok s' ->
  is_missing (value x) = false ->
  attribute_types (ap_self s') !! k = Some (c_type (kind_of x)).
Proof.
  intros Hf H Hm.
  apply append_item_inv in H as (y & a1 & s2 & a3 & Hv & Hc & Hn & Hk & ->).
  injection Hv as <- <-.
  apply nominal_item_schema in Hn as (_ & Ht2 & _).
  apply class_item_attributes in Hk as (_ & Ht3 & _).
  destruct (class_last_schema a3) as (_ & Ht4 & _).
  simpl. rewrite Ht4, Ht3, Ht2.
  unfold check_prior_type, prior_type_of in Hc. rewrite Hm in Hc. simpl in Hc.
  apply py_assert_Ok, bool_decide_eq_true_1 in Hc.
  unfold declare_item. simpl. rewrite Hf.
  destruct (attribute_types (ap_self s) !! k) as [t |] eqn:Ht.
  - rewrite bool_decide_eq_true_2 by eauto. simpl. congruence.
  - rewrite bool_decide_eq_false_2 by (intros [? ?]; discriminate). simpl.
    apply lookup_insert_eq.
Qed.

Lemma append_items_declares (k : string) (x : Value) (d : dict cell) :
  forall s s' : append_state,
    fout (ap_self s) = None ->
    append_items host d s = Ok s' ->
    (k, CValue x) ∈ d -> is_missing (value x) = false ->
    attribute_types (ap_self s') !! k = Some (c_type (kind_of x)).
Proof.
  induction d as [| [k' v] d IH]; intros s s' Hf; simpl.
  - intros _ Hin. inversion Hin.
  - intros H Hin Hm. apply bind_Ok_inv in H as (s1 & H1 & H).
    destruct (append_item_memory_line host k' v s s1 Hf H1) as (_ & _ & Hf1).
    apply elem_of_cons in Hin as [[= <- <-] | Hin].
    + apply (append_items_types d k _ s1 s' H).
      apply (append_item_declares k x s s1); assumption.
    + apply (IH s1 s'); assumption.
Qed.

Lemma store_dense_schema (l : list cell) (a a' : ArffFile) :
  store_dense host l a = Ok a' ->
  same_schema a' a
  /\ (length l = length (attributes a) -> stdout a' = stdout a).
Proof.
  unfold store_dense. destruct (Nat.eqb_spec (length l) (length (attributes a)))
    as [He | Hne]; simpl.
  - intros H. apply bind_Ok_inv in H as (datum & _ & H).
    destruct (fout a) eqn:Hf.
    + apply bind_Ok_inv in H as (line_str & _ & H). injection H as <-.
      destruct line_str as [[| ch t] |]; unfold print_fout; rewrite ?Hf;
        repeat split.
    + injection H as <-. repeat split.
  - intros [= <-]. repeat split. contradiction.
Qed.
End DeclaredTypes.

(** X5: an append that returns never changes the declared type of an
    attribute, whatever the row and the switches; and with no stream open
    and [update_schema] on, every entry with a value that is not missing
    ends with its attribute declared with the type of the value's class
    (a new attribute takes its type from the first value given for it). *)
Theorem append_declared_types (host : Host) :
  (forall (line : row) (so us : bool) (a a' : ArffFile) (j : string) (t : atype),
     append host line so us a = Ok a' ->
     attribute_types a !! j = Some t ->
     attribute_types a' !! j = Some t)
  /\ (forall (d : dict cell) (so : bool) (a a' : ArffFile) (k : string)
        (x : Value),
        fout a = None ->
        append host (RDict d) so true a = Ok a' ->
        (k, CValue x) ∈ d -> is_missing (value x) = false ->
        attribute_types a' !! k = Some (c_type (kind_of x))).
Proof.
  split.
  - intros line so us a a' j t H Hj. destruct line as [l | d].
    + unfold append in H. apply bind_Ok_inv in H as ([] & _ & H).
      simpl in H. apply store_dense_schema in H as ((_ & -> & _) & _).
      assumption.
    + destruct us.
      * apply append_dict_inv in H as (s' & Hloop & _ & -> & _).
        apply (append_items_types host d j t (MkAppend a d false) s' Hloop).
        assumption.
      * unfold append in H. simpl in H.
        destruct (negb so); [| injection H as <-; assumption].
        destruct (fout a) eqn:Hf.
        -- apply bind_Ok_inv in H as (line_str & _ & H). injection H as <-.
           destruct line_str as [[| ch u] |]; unfold print_fout; rewrite ?Hf;
             assumption.
        -- injection H as <-. assumption.
  - intros d so a a' k x Hf H Hin Hm.
    apply append_dict_inv in H as (s' & Hloop & _ & -> & _).
    apply (append_items_declares host k x d (MkAppend a d false) s');
      assumption.
Qed.

(** The theorem above on the empty dataset and the row
    [{w: Nominal("hot")}]: [w] becomes a nominal attribute. *)
Lemma append_declared_types_witness :
  let d := [("w", CValue (MkValue KNominal (PStr "hot") false))] in
  exists a' : ArffFile,
    append example_host (RDict d) false true ArffFile_new = Ok a'
    /\ attribute_types a' !! "w" = Some TYPE_NOMINAL.
Proof.
  intros d.
  destruct (append example_host (RDict d) false true ArffFile_new)
    as [a' | e] eqn:E; [| vm_compute in E; discriminate].
  exists a'. split; [reflexivity |].
  apply (proj2 (append_declared_types example_host) d false ArffFile_new a'
           "w" (MkValue KNominal (PStr "hot") false) eq_refl E);
    [apply list_elem_of_here | reflexivity].
Defined.

(** X6: [append] of a positional row whose length is not the number of
    attributes fails its assertion, so the field-count warning of
    [_parse_data] is never printed for a row given to [append]: when such
    an append returns, nothing was printed and the schema is as before. *)
Theorem append_positional_row (host : Host) (l : list cell) (so us : bool)
    (a : ArffFile) :
  (length l <> length (attributes a) ->
   append host (RList l) so us a = Raise AssertionError)
  /\ (forall a' : ArffFile,
        append host (RList l) so us a = Ok a' ->
        length l = length (attributes a)
        /\ stdout a' = stdout a /\ same_schema a' a).
Proof.
  unfold append. destruct (Nat.eqb_spec (length l) (length (attributes a)))
    as [He | Hne]; simpl.
  - split; [contradiction |]. intros a' H.
    apply store_dense_schema in H as (Hs & Hout). auto.
  - split; [reflexivity | discriminate].
Qed.

(** The theorem above on a row of three entries against no attribute. *)
Lemma append_positional_row_witness :
  append example_host (RList [CRaw (PInt 1); CRaw (PInt 2); CRaw (PInt 3)])
    false true ArffFile_new = Raise AssertionError.
Proof.
  apply (proj1 (append_positional_row example_host
                  [CRaw (PInt 1); CRaw (PInt 2); CRaw (PInt 3)] false true
                  ArffFile_new)).
  discriminate.
Defined.

(** ** Dense rows *)

Section DenseRows.
Context (host : Host) (a : ArffFile).

(** One entry is stored for each zipped pair, except for the fields of
    [date] attributes that are not missing. *)
Lemma dense_datum_length (names : list string) :
  forall (l datum : list cell),
    dense_datum host a names l = Ok datum ->
    (length datum <= length names)%nat
    /\ ((forall n, n ∈ names -> attribute_types a !! n <> Some TYPE_DATE) ->
        length l = length names -> length datum = length names).
Proof.
  induction names as [| n names IH]; intros l datum; simpl.
  - intros [= <-]. simpl. split; [lia | reflexivity].
  - destruct l as [| v l]; [intros [= <-]; simpl; split; [lia | discriminate] |].
    intros H. apply bind_Ok_inv in H as (t & Ht & H).
    apply bind_Ok_inv in H as (here & Hh & H).
    apply bind_Ok_inv in H as (rest & Hr & H). injection H as <-.
    destruct (IH l rest Hr) as (Hle & Heq).
    assert (Hhere : (length here <= 1)%nat
                    /\ (t <> TYPE_DATE -> length here = 1%nat)).
    { destruct (cell_is_missing v); [injection Hh as <-; simpl; auto |].
      destruct t.
      - destruct v as [x | p]; [discriminate |].
        apply bind_Ok_inv in Hh as (z & _ & Hh). injection Hh as <-. simpl; auto.
      - apply bind_Ok_inv in Hh as (d & _ & Hh). injection Hh as <-. simpl; auto.
      - apply bind_Ok_inv in Hh as (d & _ & Hh). injection Hh as <-. simpl; auto.
      - injection Hh as <-. simpl; auto.
      - apply bind_Ok_inv in Hh as (b & _ & Hh).
        destruct b; [injection Hh as <-; simpl; auto | discriminate].
      - injection Hh as <-. simpl. split; [lia | contradiction]. }
    destruct Hhere as (H1 & H2). rewrite length_app. split; [lia |].
    intros Hnd Hlen. simpl in Hlen.
    rewrite H2, Heq; [reflexivity | | lia |].
    + intros n' Hn'. apply Hnd. apply list_elem_of_further. assumption.
    + intros ->. apply (Hnd n); [apply list_elem_of_here |].
      unfold type_of in Ht. destruct (attribute_types a !! n); [| discriminate].
      injection Ht as ->. reflexivity.
Qed.

(** A dense row is stored only if each of its nominal fields, the missing
    marker apart, is a declared value. *)
Lemma dense_datum_nominal (names : list string) :
  forall (l datum : list cell) (i : nat) (n : string) (v : cell),
    dense_datum host a names l = Ok datum ->
    names !! i = Some n -> l !! i = Some v ->
    attribute_types a !! n = Some TYPE_NOMINAL ->
    cell_is_missing v = false ->
    nominal_member a n v = Ok true.
Proof.
  induction names as [| n0 names IH]; intros l datum i n v; simpl;
    [intros _ Hn; rewrite lookup_nil in Hn; discriminate |].
  destruct l as [| v0 l]; [intros _ _ Hv; rewrite lookup_nil in Hv; discriminate |].
  intros H. apply bind_Ok_inv in H as (t & Ht & H).
  apply bind_Ok_inv in H as (here & Hh & H).
  apply bind_Ok_inv in H as (rest & Hr & H).
  destruct i as [| i]; simpl.
  - intros [= ->] [= ->] Hty Hm. rewrite Hm in Hh.
    unfold type_of in Ht. rewrite Hty in Ht. injection Ht as <-.
    apply bind_Ok_inv in Hh as (b & Hb & Hh).
    destruct b; [assumption | discriminate].
  - intros Hn Hv. apply (IH l rest i n v Hr Hn Hv).
Qed.
End DenseRows.

(** X7: with no stream open and no [date] attribute in the schema, a
    dense line that is read without error either has the wrong number of
    fields and adds nothing, or adds one row with exactly one entry for
    each attribute and prints nothing. *)
Theorem dense_line_stored_whole (host : Host) (a a' : ArffFile) (s : string) :
  fout a = None ->
  Py.startswith (Py.strip s) "{" = false ->
  (forall n, n ∈ attributes a -> attribute_types a !! n <> Some TYPE_DATE) ->
  parse_data host (LStr s) a = Ok a' ->
  (length (Py.split_on "," (Py.strip s)) <> length (attributes a)
   /\ data a' = data a)
  \/ (exists datum : list cell,
        data a' = data a ++ [RList datum]
        /\ length datum = length (attributes a)
        /\ stdout a' = stdout a).
Proof.
  intros Hf Hb Hnd. unfold parse_data. rewrite Hb. unfold store_dense.
  rewrite length_map.
  destruct (Nat.eqb_spec (length (Py.split_on "," (Py.strip s)))
              (length (attributes a))) as [He | Hne]; simpl.
  - intros H. apply bind_Ok_inv in H as (datum & Hd & H).
    rewrite Hf in H. injection H as <-. right. exists datum.
    repeat split.
    apply (dense_datum_length host a (attributes a) _ datum Hd);
      [assumption | rewrite length_map; assumption].
  - intros [= <-]. left. auto.
Qed.

(** The theorem above on the line [1, 2] against two integer attributes. *)
Lemma dense_line_stored_whole_witness :
  let a := define_attribute "y" TYPE_INTEGER DNone
             (define_attribute "x" TYPE_INTEGER DNone ArffFile_new) in
  exists a' : ArffFile,
    parse_data example_host (LStr "1, 2") a = Ok a'
    /\ data a' = [RList [CRaw (PInt 1); CRaw (PInt 2)]].
Proof.
  intros a.
  destruct (parse_data example_host (LStr "1, 2") a) as [a' | e] eqn:E;
    [| vm_compute in E; discriminate].
  exists a'. split; [reflexivity |].
  destruct (dense_line_stored_whole example_host a a' "1, 2") as
    [(Hne & _) | (datum & Hd & Hlen & _)]; try assumption; try reflexivity.
  - intros n Hn Ht.
    apply elem_of_cons in Hn as [-> | Hn];
      [| apply elem_of_cons in Hn as [-> | Hn]; [| inversion Hn]];
      vm_compute in Ht; discriminate.
  - exfalso. apply Hne. reflexivity.
  - vm_compute in E. injection E as <-. reflexivity.
Defined.

(** X8: a dense row is stored only if every nominal field other than the
    missing marker is one of the declared values of its attribute: when
    [_parse_data] returns for a dense line with the right number of
    fields, the membership test has succeeded for each such field. *)
Theorem dense_nominal_fields_declared (host : Host) (a a' : ArffFile)
    (s : string) (i : nat) (n f : string) :
  Py.startswith (Py.strip s) "{" = false ->
  length (Py.split_on "," (Py.strip s)) = length (attributes a) ->
  parse_data host (LStr s) a = Ok a' ->
  attributes a !! i = Some n ->
  attribute_types a !! n = Some TYPE_NOMINAL ->
  Py.split_on "," (Py.strip s) !! i = Some f ->
  Py.strip f <> MISSING ->
  nominal_member a n (CRaw (PStr (Py.strip f))) = Ok true.
Proof.
  intros Hb Hlen H Hn Ht Hf Hm. unfold parse_data in H. rewrite Hb in H.
  unfold store_dense in H. rewrite length_map, Hlen, Nat.eqb_refl in H.
  simpl in H. apply bind_Ok_inv in H as (datum & Hd & _).
  apply (dense_datum_nominal host a (attributes a) _ datum i n _ Hd Hn);
    [| assumption |].
  - rewrite list_lookup_fmap, Hf. reflexivity.
  - simpl. unfold is_missing, py_eq.
    apply String.eqb_neq. assumption.
Qed.

(** The theorem above on the line [s,x] against the schema
    [a: string, b: {x, y}]. *)
Lemma dense_nominal_fields_declared_witness :
  nominal_member nominal_example "b" (CRaw (PStr (Py.strip "x"))) = Ok true.
Proof.
  destruct (parse_data example_host (LStr "s,x") nominal_example)
    as [a' | e] eqn:E; [| vm_compute in E; discriminate].
  apply (dense_nominal_fields_declared example_host nominal_example a' "s,x"
           1 "b" "x"); try reflexivity; try assumption. discriminate.
Defined.

(** ** The order of the attributes *)

Lemma remove_first_filter (name : string) (l : list string) :
  filter (fun x => x <> name) (remove_first name l)
  = filter (fun x => x <> name) l.
Proof.
  induction l as [| x l IH]; simpl; [reflexivity |].
  destruct (String.eqb_spec x name) as [-> | Hne].
  - rewrite filter_cons_False by (intros H; apply H; reflexivity). reflexivity.
  - rewrite !filter_cons. rewrite IH. reflexivity.
Qed.

(** [list.remove] takes out the first occurrence. *)
Lemma remove_first_split (name : string) (l : list string) :
  name ∈ l ->
  exists pre post,
    l = pre ++ name :: post /\ (name ∉ pre)
    /\ remove_first name l = pre ++ post.
Proof.
  induction l as [| x l IH]; intros Hin; [inversion Hin |]. simpl.
  destruct (String.eqb_spec x name) as [-> | Hne].
  - exists [], l. repeat split. intros H; inversion H.
  - apply elem_of_cons in Hin as [E | Hin]; [congruence |].
    destruct (IH Hin) as (pre & post & -> & Hpre & ->).
    exists (x :: pre), post. repeat split.
    apply not_elem_of_cons. split; [congruence | exact Hpre].
Qed.

(** X9: [set_class] fails its assertion for a name that is not listed;
    for a listed name it moves the first occurrence of the name to the end
    of the list: what stands before the first occurrence and what stands
    after it keep their places, so the name is last, the same attributes
    are listed, the others keep their order, and nothing else changes; in
    particular [class_attr_name] is not set. *)
Theorem set_class_moves_last (name : string) (a : ArffFile) :
  (name ∉ attributes a -> set_class name a = Raise AssertionError)
  /\ (name ∈ attributes a ->
      exists a' : ArffFile,
        set_class name a = Ok a'
        /\ (exists pre post,
              attributes a = pre ++ name :: post
              /\ (name ∉ pre)
              /\ attributes a' = pre ++ post ++ [name])
        /\ last (attributes a') = Some name
        /\ attributes a' ≡ₚ attributes a
        /\ filter (fun x => x <> name) (attributes a')
           = filter (fun x => x <> name) (attributes a)
        /\ attribute_types a' = attribute_types a
        /\ attribute_data a' = attribute_data a
        /\ data a' = data a
        /\ class_attr_name a' = class_attr_name a).
Proof.
  unfold set_class. split; intros Hin.
  - rewrite bool_decide_eq_false_2 by assumption. reflexivity.
  - rewrite bool_decide_eq_true_2 by assumption. simpl.
    eexists. split; [reflexivity |]. simpl.
    split.
    { destruct (remove_first_split name (attributes a) Hin)
        as (pre & post & Hl & Hpre & Hr).
      exists pre, post. rewrite Hr, <- app_assoc. auto. }
    split; [apply last_snoc |].
    split.
    { pose proof (move_to_end_perm name (attributes a)) as Hp.
      unfold move_to_end in Hp.
      rewrite bool_decide_eq_true_2 in Hp by assumption. exact Hp. }
    split; [| repeat split].
    rewrite filter_app, remove_first_filter.
    rewrite filter_cons_False by (intros H; apply H; reflexivity).
    rewrite filter_nil. apply app_nil_r.
Qed.

(** The theorem above on the attributes [a, b, a, c] and the name [a]:
    the first [a] moves. *)
Lemma set_class_moves_last_witness :
  exists a' : ArffFile,
    set_class "a" (set_attributes ["a"; "b"; "a"; "c"] nominal_example) = Ok a'
    /\ attributes a' = ["b"; "a"; "c"; "a"].
Proof.
  destruct (proj2 (set_class_moves_last "a"
                     (set_attributes ["a"; "b"; "a"; "c"] nominal_example)))
    as (a' & H & _).
  - apply list_elem_of_here.
  - exists a'. split; [exact H |].
    vm_compute in H. injection H as <-. reflexivity.
Defined.

(** [x] may stand before [y] after the sort: the key of [y] is not below
    the key of [x]. *)
Definition key_le (c : option string) (x y : string) : Prop :=
  key_ltb c y x = false.

Lemma ltb_asym (x y : string) : String.ltb x y = true -> String.ltb y x = false.
Proof.
  unfold String.ltb. rewrite (String.compare_antisym x y).
  destruct (String.compare y x); simpl; congruence.
Qed.

Lemma key_ltb_asym (c : option string) (x y : string) :
  key_ltb c x y = true -> key_ltb c y x = false.
Proof.
  unfold key_ltb.
  destruct (is_class_name c x), (is_class_name c y); simpl;
    try congruence; apply ltb_asym.
Qed.

Lemma insert_by_key_perm (c : option string) (x : string) (l : list string) :
  insert_by_key c x l ≡ₚ x :: l.
Proof.
  induction l as [| y l IH]; simpl; [reflexivity |].
  destruct (key_ltb c x y); [reflexivity |].
  rewrite IH. apply Permutation_swap.
Qed.

Lemma insert_by_key_sorted (c : option string) (x : string) (l : list string) :
  Sorted (key_le c) l -> Sorted (key_le c) (insert_by_key c x l).
Proof.
  induction l as [| y l IH]; intros Hs; simpl.
  - constructor; constructor.
  - destruct (key_ltb c x y) eqn:E.
    + constructor; [assumption |]. constructor.
      apply key_ltb_asym. assumption.
    + apply Sorted_inv in Hs as (Hs & Hhd).
      constructor; [apply IH; assumption |].
      destruct l as [| z l]; simpl.
      * constructor. exact E.
      * destruct (key_ltb c x z); constructor; [exact E |].
        apply HdRel_inv in Hhd. assumption.
Qed.

Lemma sort_by_key_go (c : option string) (l : list string) :
  forall acc : list string,
    Sorted (key_le c) acc ->
    Sorted (key_le c) (fold_left (fun acc x => insert_by_key c x acc) l acc)
    /\ fold_left (fun acc x => insert_by_key c x acc) l acc ≡ₚ l ++ acc.
Proof.
  induction l as [| x l IH]; intros acc Hs; simpl; [auto |].
  destruct (IH (insert_by_key c x acc)) as (H1 & H2);
    [apply insert_by_key_sorted; assumption |].
  split; [assumption |].
  rewrite H2, insert_by_key_perm. symmetry. apply Permutation_middle.
Qed.

(** In a sorted list the class attribute, once met, is all that follows. *)
Lemma sorted_last_class (n : string) (l : list string) :
  Sorted (key_le (Some n)) l -> n ∈ l -> last l = Some n.
Proof.
  induction l as [| y l IH]; intros Hs Hin; [inversion Hin |].
  apply Sorted_inv in Hs as (Hs & Hhd).
  destruct l as [| z l]; simpl.
  - apply elem_of_cons in Hin as [-> | Hin]; [reflexivity | inversion Hin].
  - change (last (z :: l) = Some n). apply IH; [assumption |].
    apply elem_of_cons in Hin as [-> | Hin]; [| assumption].
    apply HdRel_inv in Hhd. unfold key_le, key_ltb, is_class_name in Hhd.
    rewrite (bool_decide_eq_true_2 (Some y = Some y)) in Hhd by reflexivity.
    case_bool_decide as Hz.
    + injection Hz as ->. apply list_elem_of_here.
    + simpl in Hhd. discriminate.
Qed.

(** X10: [alphabetize_attributes] lists the same attributes in the order
    of their keys: a name that is not the class attribute stands before
    the class attribute, and two names of the same side stand in the order
    of [<] on strings; so the class attribute, when it is listed, is last,
    and with no class attribute the names are in ascending order.  Nothing
    else of the dataset changes. *)
Theorem alphabetize_attributes_sorted (a : ArffFile) :
  let a' := alphabetize_attributes a in
  attributes a' ≡ₚ attributes a
  /\ Sorted (key_le (class_attr_name a)) (attributes a')
  /\ (forall n, class_attr_name a = Some n -> n ∈ attributes a ->
        last (attributes a') = Some n)
  /\ (class_attr_name a = None ->
      Sorted (fun x y => String.ltb y x = false) (attributes a'))
  /\ attribute_types a' = attribute_types a
  /\ attribute_data a' = attribute_data a
  /\ data a' = data a
  /\ class_attr_name a' = class_attr_name a.
Proof.
  intros a'. subst a'. unfold alphabetize_attributes, sort_by_key. simpl.
  destruct (sort_by_key_go (class_attr_name a) (attributes a) [])
    as (Hs & Hp); [constructor |].
  rewrite app_nil_r in Hp.
  split; [assumption |]. split; [assumption |].
  split; [| split; [| repeat split]].
  - intros n Hc Hin. rewrite Hc in Hs, Hp |- *.
    apply sorted_last_class; [assumption |].
    rewrite Hp. assumption.
  - intros Hc. rewrite Hc in Hs |- *.
    eapply Sorted_ind with (P := fun l => Sorted (fun x y => String.ltb y x = false) l);
      [constructor | | exact Hs].
    intros x l _ IH Hhd. constructor; [assumption |].
    destruct Hhd as [| y l Hxy]; constructor.
    unfold key_le, key_ltb, is_class_name in Hxy.
    rewrite !bool_decide_eq_false_2 in Hxy by discriminate.
    simpl in Hxy. assumption.
Qed.

(** The theorem above on the attributes [z, m, a] with [m] as class. *)
Lemma alphabetize_attributes_sorted_witness :
  attributes
    (alphabetize_attributes
       (set_class_attr_name (Some "m")
          (set_attributes ["z"; "m"; "a"] ArffFile_new)))
  = ["a"; "z"; "m"]
  /\ last (attributes
             (alphabetize_attributes
                (set_class_attr_name (Some "m")
                   (set_attributes ["z"; "m"; "a"] ArffFile_new))))
     = Some "m".
Proof.
  split; [reflexivity |].
  apply (proj1 (proj2 (proj2 (alphabetize_attributes_sorted
           (set_class_attr_name (Some "m")
              (set_attributes ["z"; "m"; "a"] ArffFile_new))))) "m");
    [reflexivity |].
  apply list_elem_of_further, list_elem_of_here.
Defined.

(** ** Iterating over the rows *)

Lemma named_row_inv (a : ArffFile) (d : row) :
  (row_len d <> length (attributes a) -> named_row a d = Raise AssertionError)
  /\ (forall named, named_row a d = Ok named ->
        row_len d = length (attributes a))
  /\ (forall e, named_row a d = Raise e -> e = AssertionError).
Proof.
  unfold named_row.
  destruct (Nat.eqb_spec (row_len d) (length (attributes a))) as [He | Hne];
    simpl.
  - split; [contradiction |]. split; [auto |].
    destruct (row_len d =? _)%nat; simpl; [discriminate | congruence].
  - split; [reflexivity |]. split; [discriminate | congruence].
Qed.

Lemma named_rows_go_inv (a : ArffFile) (rows : list row) :
  (forall l, named_rows_go a rows = Ok l ->
     length l = length rows
     /\ Forall (fun d => row_len d = length (attributes a)) rows)
  /\ (forall e, named_rows_go a rows = Raise e -> e = AssertionError)
  /\ (forall d, d ∈ rows -> row_len d <> length (attributes a) ->
        named_rows_go a rows = Raise AssertionError).
Proof.
  induction rows as [| d rows (IH1 & IH2 & IH3)]; simpl.
  - split; [intros l [= <-]; auto |]. split; [discriminate |].
    intros d Hin. inversion Hin.
  - destruct (named_row_inv a d) as (N1 & N2 & N3).
    destruct (named_row a d) as [named | e] eqn:En; simpl.
    + destruct (named_rows_go a rows) as [r | e] eqn:Er; simpl.
      * split; [| split; [discriminate |]].
        -- intros l [= <-]. destruct (IH1 r eq_refl) as (Hl & Hf).
           simpl. split; [congruence |]. constructor; eauto.
        -- intros d' Hin Hne. apply elem_of_cons in Hin as [-> | Hin].
           ++ discriminate (N1 Hne).
           ++ discriminate (IH3 d' Hin Hne).
      * split; [discriminate |]. rewrite (IH2 e eq_refl).
        split; [intros e0 [= <-]; reflexivity | intros; reflexivity].
    + split; [discriminate |]. rewrite (N3 e eq_refl).
      split; [intros e0 [= <-]; reflexivity | intros; reflexivity].
Qed.

(** The keys of [dict(pairs)] are the first components, each once. *)
Lemma dict_set_keys {A : Type} (k : string) (v : A) (d : dict A) :
  dict_keys (dict_set k v d)
  = if bool_decide (k ∈ dict_keys d) then dict_keys d else dict_keys d ++ [k].
Proof.
  induction d as [| [k' v'] d IH]; [reflexivity |].
  change (dict_keys ((k', v') :: d)) with (k' :: dict_keys d).
  cbn [dict_set]. destruct (String.eqb_spec k' k) as [-> | Hne].
  - rewrite bool_decide_eq_true_2 by apply list_elem_of_here. reflexivity.
  - change (dict_keys ((k', v') :: dict_set k v d))
      with (k' :: dict_keys (dict_set k v d)).
    rewrite IH. case_bool_decide as Hin.
    + rewrite bool_decide_eq_true_2 by (apply list_elem_of_further, Hin).
      reflexivity.
    + rewrite bool_decide_eq_false_2; [reflexivity |].
      intros H. apply elem_of_cons in H as [E | H]; [congruence | auto].
Qed.

Lemma fold_dict_set_keys {A : Type} (ps : list (string * A)) :
  forall d : dict A,
    NoDup (dict_keys d) ->
    let r := fold_left (fun d kv => dict_set kv.1 kv.2 d) ps d in
    NoDup (dict_keys r)
    /\ forall k, k ∈ dict_keys r <-> k ∈ dict_keys d \/ k ∈ map fst ps.
Proof.
  induction ps as [| [k v] ps IH]; intros d Hd; simpl.
  - split; [exact Hd |]. intros k'. split; [auto |].
    intros [H | H]; [exact H | inversion H].
  - assert (Hd' : NoDup (dict_keys (dict_set k v d))).
    { rewrite dict_set_keys. case_bool_decide as Hin; [exact Hd |].
      apply NoDup_app. split; [exact Hd |].
      split; [| apply NoDup_singleton].
      intros x Hx Hx'. apply list_elem_of_singleton in Hx'. subst x.
      contradiction. }
    destruct (IH (dict_set k v d) Hd') as (Hn & Hk).
    split; [exact Hn |]. intros k'. rewrite Hk, dict_set_keys, elem_of_cons.
    case_bool_decide as Hin.
    + split; [intros [H | H]; auto |].
      intros [H | [-> | H]]; auto.
    + rewrite elem_of_app, list_elem_of_singleton. tauto.
Qed.

Lemma dict_of_pairs_length {A : Type} (ps : list (string * A)) :
  length (dict_of_pairs ps) = length ps <-> NoDup (map fst ps).
Proof.
  destruct (fold_dict_set_keys ps [] (NoDup_nil_2 : NoDup (dict_keys [])))
    as (Hn & Hk).
  fold (dict_of_pairs ps) in Hn, Hk.
  assert (Hsame : forall k, k ∈ dict_keys (dict_of_pairs ps) <-> k ∈ map fst ps).
  { intros k. rewrite Hk. split; [intros [H | H]; [inversion H | exact H] | auto]. }
  rewrite <- (length_map fst (dict_of_pairs ps)), <- (length_map fst ps).
  fold (dict_keys (dict_of_pairs ps)).
  split.
  - intros Hlen.
    assert (Hp : dict_keys (dict_of_pairs ps) ≡ₚ map fst ps).
    { apply submseteq_length_Permutation; [| rewrite Hlen; reflexivity].
      apply NoDup_submseteq; [exact Hn |]. intros x. apply Hsame. }
    rewrite <- Hp. exact Hn.
  - intros Hf. apply Permutation_length.
    apply NoDup_Permutation; assumption.
Qed.

Lemma row_items_length (d : row) : length (row_items d) = row_len d.
Proof. destruct d; simpl; [reflexivity | apply length_map]. Qed.

(** One turn of the iteration succeeds exactly for a row of the right
    length under names that are pairwise distinct. *)
Lemma named_row_ok (a : ArffFile) (d : row) :
  (exists named, named_row a d = Ok named)
  <-> row_len d = length (attributes a)
      /\ NoDup (map Re.strip_quotes (attributes a)).
Proof.
  unfold named_row.
  set (ps := combine (map Re.strip_quotes (attributes a)) (row_items d)).
  destruct (Nat.eqb_spec (row_len d) (length (attributes a))) as [He | Hne];
    simpl.
  - assert (Hfst : map fst ps = map Re.strip_quotes (attributes a)).
    { apply (fst_zip (map Re.strip_quotes (attributes a)) (row_items d)).
      rewrite length_map, row_items_length, He. reflexivity. }
    assert (Hlen : length ps = row_len d).
    { unfold ps. rewrite length_combine, length_map, row_items_length, He.
      apply Nat.min_id. }
    pose proof (dict_of_pairs_length ps) as Hiff.
    rewrite Hfst, Hlen in Hiff.
    destruct (Nat.eqb_spec (row_len d) (length (dict_of_pairs ps)))
      as [E | E]; simpl.
    + split; [| eauto].
      intros _. split; [exact He |]. apply Hiff. symmetry. exact E.
    + split; [intros [? H]; discriminate |].
      intros [_ H]. apply Hiff in H. symmetry in H. contradiction.
  - split; [intros [? H]; discriminate | intros [H _]; contradiction].
Qed.

Lemma named_rows_go_ok (a : ArffFile) (rows : list row) :
  (exists l, named_rows_go a rows = Ok l)
  <-> Forall (fun d => row_len d = length (attributes a)) rows
      /\ (rows = [] \/ NoDup (map Re.strip_quotes (attributes a))).
Proof.
  induction rows as [| d rows IH]; simpl.
  - split; [intros _; split; [constructor | left; reflexivity] | eauto].
  - pose proof (named_row_ok a d) as Hd.
    destruct (named_row a d) as [named | e]; simpl.
    + destruct (proj1 Hd (ex_intro _ named eq_refl)) as (Hlen & Hnd).
      destruct (named_rows_go a rows) as [r | e]; simpl.
      * destruct (proj1 IH (ex_intro _ r eq_refl)) as (Hf & _).
        split; [intros _; split; [constructor; assumption | right; exact Hnd]
               | eauto].
      * split; [intros [? H]; discriminate |].
        intros [Hf _]. apply Forall_cons in Hf as (_ & Hf).
        destruct (proj2 IH (conj Hf (or_intror Hnd))) as [? H]. discriminate.
    + split; [intros [? H]; discriminate |].
      intros [Hf [E | Hnd]]; [discriminate |].
      apply Forall_cons in Hf as (Hlen & _).
      destruct (proj2 Hd (conj Hlen Hnd)) as [? H]. discriminate.
Qed.

(** X11: listing the rows of a dataset ([list(self)], the generator
    [__iter__] run to its end) gives one name-keyed row for each stored
    row; it succeeds exactly when every stored row has as many entries as
    the schema has attributes and, unless there is no row, the attribute
    names are pairwise distinct once their quotes are stripped.  A single
    stored row of another length makes it fail, and its only failure is
    the assertion. *)
Theorem named_rows_checks_lengths (a : ArffFile) :
  (forall l, named_rows a = Ok l ->
     length l = len a
     /\ Forall (fun d => row_len d = length (attributes a)) (data a))
  /\ (forall e, named_rows a = Raise e -> e = AssertionError)
  /\ (forall d, d ∈ data a -> row_len d <> length (attributes a) ->
        named_rows a = Raise AssertionError)
  /\ ((exists l, named_rows a = Ok l)
      <-> Forall (fun d => row_len d = length (attributes a)) (data a)
          /\ (data a = [] \/ NoDup (map Re.strip_quotes (attributes a)))).
Proof.
  destruct (named_rows_go_inv a (data a)) as (H1 & H2 & H3).
  split; [exact H1 |]. split; [exact H2 |]. split; [exact H3 |].
  apply named_rows_go_ok.
Qed.

(** The theorem above on a dataset of two attributes holding a row of one
    entry, and on the attributes [x, x] with a row of two entries. *)
Lemma named_rows_checks_lengths_witness :
  named_rows (set_data [RList [CRaw (PInt 1)]] nominal_example)
  = Raise AssertionError
  /\ ~ exists l,
        named_rows (set_data [RList [CRaw (PInt 1); CRaw (PInt 2)]]
                      (set_attributes ["x"; "x"] nominal_example)) = Ok l.
Proof.
  split.
  - apply (proj1 (proj2 (proj2 (named_rows_checks_lengths
                           (set_data [RList [CRaw (PInt 1)]] nominal_example))))
             (RList [CRaw (PInt 1)])).
    + apply list_elem_of_here.
    + discriminate.
  - intros H.
    apply (proj2 (proj2 (proj2 (named_rows_checks_lengths _)))) in H
      as (_ & [E | Hnd]); [discriminate |].
    apply NoDup_cons in Hnd as (Hx & _). apply Hx, list_elem_of_here.
Defined.

(** A field of a [date] attribute that is not missing makes the stored
    row shorter than the schema. *)
Lemma dense_datum_date_short (host : Host) (a : ArffFile) (names : list string) :
  forall (l datum : list cell) (i : nat) (n : string) (v : cell),
    dense_datum host a names l = Ok datum ->
    names !! i = Some n -> l !! i = Some v ->
    attribute_types a !! n = Some TYPE_DATE ->
    cell_is_missing v = false ->
    (length datum < length names)%nat.
Proof.
  induction names as [| n0 names IH]; intros l datum i n v; simpl;
    [intros _ Hn; rewrite lookup_nil in Hn; discriminate |].
  destruct l as [| v0 l]; [intros _ _ Hv; rewrite lookup_nil in Hv; discriminate |].
  intros H. pose proof H as H0.
  apply bind_Ok_inv in H as (t & Ht & H).
  apply bind_Ok_inv in H as (here & Hh & H).
  apply bind_Ok_inv in H as (rest & Hr & H). injection H as <-.
  destruct (dense_datum_length host a names l rest Hr) as (Hle & _).
  rewrite length_app.
  destruct i as [| i]; simpl.
  - intros [= ->] [= ->] Hty Hm. rewrite Hm in Hh.
    unfold type_of in Ht. rewrite Hty in Ht. injection Ht as <-.
    injection Hh as <-. simpl. lia.
  - intros Hn Hv Hty Hm.
    pose proof (IH l rest i n v Hr Hn Hv Hty Hm) as Hlt.
    destruct (dense_datum_length host a [n0] [v0] here) as (Hh1 & _).
    { simpl. unfold type_of in *. rewrite Ht. simpl. rewrite Hh. simpl.
      rewrite app_nil_r. reflexivity. }
    simpl in Hh1. lia.
Qed.

(** X12: with no stream open, a dense line with the right number of
    fields, one of them a value other than the missing marker for a
    [date] attribute, is read without error into a row that the dataset
    can no longer iterate over: [list(self)] fails its assertion. *)
Theorem dense_date_row_breaks_iteration (host : Host) (a a' : ArffFile)
    (s : string) (i : nat) (n f : string) :
  fout a = None ->
  Py.startswith (Py.strip s) "{" = false ->
  length (Py.split_on "," (Py.strip s)) = length (attributes a) ->
  attributes a !! i = Some n ->
  attribute_types a !! n = Some TYPE_DATE ->
  Py.split_on "," (Py.strip s) !! i = Some f ->
  Py.strip f <> MISSING ->
  parse_data host (LStr s) a = Ok a' ->
  named_rows a' = Raise AssertionError.
Proof.
  intros Hf Hb Hlen Hn Ht Hfi Hm H. unfold parse_data in H. rewrite Hb in H.
  unfold store_dense in H. rewrite length_map, Hlen, Nat.eqb_refl in H.
  simpl in H. apply bind_Ok_inv in H as (datum & Hd & H).
  rewrite Hf in H. injection H as <-.
  apply (proj2 (proj2 (named_rows_go_inv _ _)) (RList datum)).
  - simpl. apply elem_of_app. right. apply list_elem_of_here.
  - simpl.
    pose proof (dense_datum_date_short host a (attributes a) _ datum i n
                  (CRaw (PStr (Py.strip f))) Hd Hn) as Hlt.
    rewrite list_lookup_fmap, Hfi in Hlt.
    specialize (Hlt eq_refl Ht).
    assert (Hmiss : cell_is_missing (CRaw (PStr (Py.strip f))) = false).
    { simpl. unfold is_missing, py_eq. apply String.eqb_neq. assumption. }
    specialize (Hlt Hmiss). lia.
Qed.

(** The theorem above on the line [7,2020-01-02] against the schema
    [n: integer, d: date]. *)
Lemma dense_date_row_breaks_iteration_witness :
  let a := define_attribute "d" TYPE_DATE (DPattern "yyyy-MM-dd")
             (define_attribute "n" TYPE_INTEGER DNone ArffFile_new) in
  exists a' : ArffFile,
    parse_data example_host (LStr "7,2020-01-02") a = Ok a'
    /\ named_rows a' = Raise AssertionError.
Proof.
  intros a.
  destruct (parse_data example_host (LStr "7,2020-01-02") a) as [a' | e] eqn:E;
    [| vm_compute in E; discriminate].
  exists a'. split; [reflexivity |].
  apply (dense_date_row_breaks_iteration example_host a a' "7,2020-01-02"
           1 "d" "2020-01-02"); try reflexivity; try assumption.
  discriminate.
Defined.

(** ** Texts *)

(** Every character of [s] satisfies [p]. *)
Fixpoint all_chars (p : ascii -> bool) (s : string) : bool :=
  match s with
  | EmptyString => true
  | String c s' => p c && all_chars p s'
  end.

Definition not_char (c : ascii) : ascii -> bool := fun x => negb (Ascii.eqb x c).
Definition not_space (c : ascii) : bool := negb (Py.isspace c).
Definition not_linebreak (c : ascii) : bool := negb (Py.islinebreak c).

Lemma append_cons (c : ascii) (s t : string) :
  String c s +:+ t = String c (s +:+ t).
Proof. reflexivity. Qed.

Lemma append_nil_l (t : string) : "" +:+ t = t.
Proof. reflexivity. Qed.

Lemma append_nil_r (s : string) : s +:+ "" = s.
Proof.
  induction s as [| c s IH]; [reflexivity |].
  rewrite append_cons, IH. reflexivity.
Qed.

Lemma append_assoc (s t u : string) : (s +:+ t) +:+ u = s +:+ (t +:+ u).
Proof.
  induction s as [| c s IH]; [reflexivity |].
  rewrite !append_cons, IH. reflexivity.
Qed.

Lemma all_chars_app (p : ascii -> bool) (s t : string) :
  all_chars p (s +:+ t) = all_chars p s && all_chars p t.
Proof.
  induction s as [| c s IH]; [reflexivity |].
  rewrite append_cons. simpl. rewrite IH. apply andb_assoc.
Qed.

Lemma all_chars_impl (p q : ascii -> bool) (s : string) :
  (forall c, p c = true -> q c = true) ->
  all_chars p s = true -> all_chars q s = true.
Proof.
  intros Hpq. induction s as [| c s IH]; simpl; [reflexivity |].
  intros H. apply andb_prop in H as (Hc & Hs).
  rewrite (Hpq c Hc), (IH Hs). reflexivity.
Qed.

Lemma last_char_app (s : string) (c : ascii) :
  Py.last_char (s +:+ Py.chr c) = Some c.
Proof.
  induction s as [| a s IH]; [reflexivity |].
  rewrite append_cons. simpl.
  destruct (s +:+ Py.chr c) eqn:E; [destruct s; discriminate | assumption].
Qed.

Lemma last_char_cons (a : ascii) (s : string) (c : ascii) :
  Py.last_char s = Some c -> Py.last_char (String a s) = Some c.
Proof. destruct s; simpl; [discriminate | auto]. Qed.

Lemma init_app (s : string) (c : ascii) : Py.init (s +:+ Py.chr c) = s.
Proof.
  induction s as [| a s IH]; [reflexivity |].
  rewrite append_cons. simpl.
  destruct (s +:+ Py.chr c) eqn:E; [destruct s; discriminate |].
  rewrite IH. reflexivity.
Qed.

(** A text that neither starts nor ends with white space is left alone by
    [strip]. *)
Lemma rstrip_id (s : string) (c : ascii) :
  Py.last_char s = Some c -> Py.isspace c = false -> Py.rstrip s = s.
Proof.
  induction s as [| a s IH]; simpl; [discriminate |].
  destruct s as [| b s].
  - intros [= ->] ->. reflexivity.
  - intros Hl Hc. rewrite (IH Hl Hc). reflexivity.
Qed.

Lemma strip_id (s : string) (a c : ascii) :
  Py.first_char s = Some a -> Py.isspace a = false ->
  Py.last_char s = Some c -> Py.isspace c = false ->
  Py.strip s = s.
Proof.
  intros Hf Ha Hl Hc. unfold Py.strip.
  destruct s as [| a' s]; [discriminate |]. injection Hf as ->.
  simpl Py.lstrip. rewrite Ha. apply (rstrip_id _ c); assumption.
Qed.

Lemma strip_space_cons (s : string) :
  Py.strip (String " " s) = Py.strip s.
Proof. reflexivity. Qed.

(** *** The text of an integer *)

Lemma uint_digits (d : uint) :
  all_chars Py.isdigit (NilEmpty.string_of_uint d) = true.
Proof. induction d; simpl; auto. Qed.

Lemma uint_nonempty (d : uint) :
  d <> Nil -> NilEmpty.string_of_uint d <> "".
Proof. destruct d; simpl; congruence. Qed.

(** [str(z)] is an optional minus sign and a non-empty run of digits
    that denote the absolute value. *)
Lemma str_of_Z_shape (z : Z) :
  exists d : uint,
    NilEmpty.string_of_uint d <> ""
    /\ Z.of_uint d = Z.abs z
    /\ Py.str_of_Z z
       = (if z <? 0 then String "-" (NilEmpty.string_of_uint d)
          else NilEmpty.string_of_uint d).
Proof.
  unfold Py.str_of_Z. destruct z as [| p | p]; simpl.
  - exists (D0 Nil). repeat split. discriminate.
  - exists (Pos.to_uint p).
    pose proof (DecimalPos.Unsigned.to_uint_nonnil p) as Hn.
    split; [apply uint_nonempty; assumption |].
    split; [unfold Z.of_uint; rewrite DecimalPos.Unsigned.of_to; reflexivity |].
    unfold NilZero.string_of_uint. destruct (Pos.to_uint p); congruence.
  - exists (Pos.to_uint p).
    pose proof (DecimalPos.Unsigned.to_uint_nonnil p) as Hn.
    split; [apply uint_nonempty; assumption |].
    split; [unfold Z.of_uint; rewrite DecimalPos.Unsigned.of_to; reflexivity |].
    unfold NilZero.string_of_uint. destruct (Pos.to_uint p); congruence.
Qed.

Lemma digits_go_digits (s : string) :
  all_chars Py.isdigit s = true ->
  forall b, (s <> "" \/ b = true) -> Py.digits_go b s = Some s.
Proof.
  induction s as [| c s IH]; simpl; intros H b Hb.
  - destruct Hb as [Hb | ->]; [contradiction | reflexivity].
  - apply andb_prop in H as (Hc & Hs). rewrite Hc.
    rewrite (IH Hs true) by auto. reflexivity.
Qed.

Lemma nat_of_digits_uint (d : uint) :
  NilEmpty.string_of_uint d <> "" ->
  Py.nat_of_digits (NilEmpty.string_of_uint d) = Some (Z.of_uint d).
Proof.
  intros Hne. unfold Py.nat_of_digits.
  destruct (NilEmpty.string_of_uint d) eqn:E; [contradiction |].
  rewrite <- E. rewrite digits_go_digits; [| apply uint_digits | left; congruence].
  simpl. rewrite NilEmpty.usu. reflexivity.
Qed.

Lemma isdigit_not_space (c : ascii) : Py.isdigit c = true -> Py.isspace c = false.
Proof.
  unfold Py.isdigit, Py.isspace, Py.code.
  destruct (N_of_ascii c) eqn:E; [discriminate |].
  intros H. apply andb_prop in H as (H1 & H2).
  apply N.leb_le in H1, H2.
  repeat match goal with
         | |- context [(?x <=? ?y)%N] =>
             destruct (N.leb_spec x y)
         | |- context [(?x =? ?y)%N] =>
             destruct (N.eqb_spec x y)
         end; simpl; try reflexivity; lia.
Qed.

Lemma digits_first_last (s : string) :
  all_chars Py.isdigit s = true -> s <> "" ->
  exists a c, Py.first_char s = Some a /\ Py.isdigit a = true
              /\ Py.last_char s = Some c /\ Py.isdigit c = true.
Proof.
  induction s as [| a s IH]; [contradiction |]. simpl all_chars.
  intros H _. apply andb_prop in H as (Ha & Hs).
  destruct s as [| b s].
  - exists a, a. auto.
  - destruct (IH Hs) as (_ & c & _ & _ & Hl & Hc); [discriminate |].
    exists a, c. repeat split; try assumption.
Qed.

Lemma int_of_str_unsigned (s : string) (a c : ascii) :
  Py.first_char s = Some a -> Py.isdigit a = true ->
  Py.last_char s = Some c -> Py.isspace c = false ->
  Py.int_of_str s = Py.nat_of_digits s.
Proof.
  intros Hf Ha Hl Hc. unfold Py.int_of_str.
  rewrite (strip_id s a c) by (try assumption; apply isdigit_not_space, Ha).
  destruct s as [| a' s']; [discriminate |]. injection Hf as ->.
  destruct a as [[|] [|] [|] [|] [|] [|] [|] [|]]; try reflexivity;
    discriminate Ha.
Qed.

(** [int(str(z)) == z] *)
Lemma int_of_str_of_Z (z : Z) : Py.int_of_str (Py.str_of_Z z) = Some z.
Proof.
  destruct (str_of_Z_shape z) as (d & Hne & Hv & ->).
  destruct (digits_first_last _ (uint_digits d) Hne)
    as (a & c & Hf & Ha & Hl & Hc).
  destruct (Z.ltb_spec z 0) as [Hneg | Hpos].
  - unfold Py.int_of_str.
    rewrite (strip_id _ "-" c); try reflexivity;
      [| apply last_char_cons; assumption | apply isdigit_not_space; assumption].
    rewrite nat_of_digits_uint by assumption. simpl. f_equal. lia.
  - rewrite (int_of_str_unsigned _ a c); try assumption;
      [| apply isdigit_not_space; assumption].
    rewrite nat_of_digits_uint by assumption. f_equal. lia.
Qed.

(** *** Quoted names and the tokens of a directive *)

Lemma length_append (s t : string) :
  String.length (s +:+ t) = (String.length s + String.length t)%nat.
Proof.
  induction s as [| c s IH]; [reflexivity |].
  rewrite append_cons. simpl. rewrite IH. reflexivity.
Qed.

Lemma prefix_cons_ne (a b : ascii) (p s : string) :
  a <> b -> String.prefix (String a p) (String b s) = false.
Proof.
  intros Hne.
  change (String.prefix (String a p) (String b s))
    with (if ascii_dec a b then String.prefix p s else false).
  destruct (ascii_dec a b); [contradiction | reflexivity].
Qed.

Lemma prefix_cons_eq (a : ascii) (p s : string) :
  String.prefix (String a p) (String a s) = String.prefix p s.
Proof.
  change (String.prefix (String a p) (String a s))
    with (if ascii_dec a a then String.prefix p s else false).
  destruct (ascii_dec a a); [reflexivity | contradiction].
Qed.

Lemma replace_go_S (fuel : nat) (old new s : string) :
  Py.replace_go (S fuel) old new s
  = if String.prefix old s
    then new +:+ Py.replace_go fuel old new (Py.drop (String.length old) s)
    else match s with
         | EmptyString => EmptyString
         | String c s' => String c (Py.replace_go fuel old new s')
         end.
Proof. reflexivity. Qed.

Lemma replace_go_no_squote (fuel : nat) :
  forall s : string,
    all_chars (not_char Py.squote) s = true ->
    Py.replace_go fuel "''" "'" (s +:+ "'") = s +:+ "'".
Proof.
  induction fuel as [| fuel IH]; intros s Hs; [reflexivity |].
  rewrite replace_go_S. destruct s as [| c s].
  - rewrite append_nil_l.
    change (String.prefix "''" "'") with false. cbv iota.
    destruct fuel; reflexivity.
  - simpl in Hs. apply andb_prop in Hs as (Hc & Hs).
    rewrite append_cons.
    unfold not_char in Hc. apply negb_true_iff, Ascii.eqb_neq in Hc.
    rewrite prefix_cons_ne by (intros E; apply Hc; symmetry; exact E).
    rewrite (IH s Hs). reflexivity.
Qed.

(** [esc] puts single quotes around a name that holds none. *)
Lemma esc_plain (name : string) :
  name <> "" -> all_chars (not_char Py.squote) name = true ->
  esc name = String Py.squote (name +:+ "'").
Proof.
  intros Hne Hs. unfold esc, Py.replace.
  destruct name as [| c s]; [contradiction |].
  rewrite replace_go_S.
  pose proof Hs as Hs'. simpl in Hs'. apply andb_prop in Hs' as (Hc & _).
  unfold not_char in Hc. apply negb_true_iff, Ascii.eqb_neq in Hc.
  rewrite !append_cons. unfold Py.squote in *.
  rewrite prefix_cons_eq.
  rewrite prefix_cons_ne by (intros E; apply Hc; symmetry; exact E).
  f_equal. rewrite <- append_cons.
  apply (replace_go_no_squote _ (String c s)). assumption.
Qed.

Lemma span_all (p : ascii -> bool) (s rest : string) :
  all_chars p s = true ->
  default true ((fun c => negb (p c)) <$> Py.first_char rest) = true ->
  Re.span p (s +:+ rest) = (s, rest).
Proof.
  intros Hs Hr. induction s as [| c s IH].
  - rewrite append_nil_l. destruct rest as [| c r]; [reflexivity |].
    simpl in Hr. apply negb_true_iff in Hr. simpl. rewrite Hr. reflexivity.
  - simpl in Hs. apply andb_prop in Hs as (Hc & Hs).
    rewrite append_cons. simpl. rewrite Hc, (IH Hs). reflexivity.
Qed.

Lemma strip_end_quote_app (s : string) (q : ascii) :
  Re.is_quote q = true -> Re.strip_end_quote (s +:+ Py.chr q) = s.
Proof.
  intros Hq.
  assert (Hlf : Ascii.eqb q Py.LF = false).
  { unfold Re.is_quote in Hq. apply orb_prop in Hq as [Hq | Hq];
      apply Ascii.eqb_eq in Hq; subst q; reflexivity. }
  induction s as [| c s IH].
  - simpl. rewrite Hq. reflexivity.
  - rewrite append_cons.
    destruct s as [| d s].
    + simpl. rewrite Hlf, andb_false_r, Hq. reflexivity.
    + rewrite append_cons in *.
      destruct (s +:+ Py.chr q) as [| e r] eqn:E; [destruct s; discriminate |].
      change (Re.strip_end_quote (String c (String d (String e r))))
        with (String c (Re.strip_end_quote (String d (String e r)))).
      rewrite IH. reflexivity.
Qed.

Lemma strip_quotes_quoted (s : string) (q : ascii) :
  Re.is_quote q = true ->
  Re.strip_quotes (String q (s +:+ Py.chr q)) = s.
Proof.
  intros Hq. unfold Re.strip_quotes. rewrite Hq.
  apply strip_end_quote_app. assumption.
Qed.

Lemma findall_go_skip (u : string) :
  forall (k : nat) (rest : string),
    Re.findall_go (String.length u + k) (u +:+ rest) = Re.findall_go k rest.
Proof.
  induction u as [| c u IH]; intros k rest; [reflexivity |].
  rewrite append_cons. simpl. apply IH.
Qed.

(** A quoted, non-empty text without its quote character inside is one
    token. *)
Lemma findall_go_quoted (q : ascii) (p rest : string) :
  Re.is_quote q = true ->
  p <> "" -> all_chars (not_char q) p = true ->
  Re.findall_go 0 (String q (p +:+ String q rest))
  = String q (p +:+ Py.chr q) :: Re.findall_go 0 rest.
Proof.
  intros Hq Hne Hp.
  assert (Hspan : Re.span (fun c => negb (Ascii.eqb c q)) (p +:+ String q rest)
                  = (p, String q rest)).
  { apply span_all; [exact Hp |]. simpl. rewrite Ascii.eqb_refl. reflexivity. }
  assert (Htok : Re.match_token (String q (p +:+ String q rest))
                 = Some (String q (p +:+ Py.chr q))).
  { unfold Re.is_quote in Hq. destruct p as [| c0 p0]; [contradiction |].
    apply orb_prop in Hq as [Hq | Hq]; apply Ascii.eqb_eq in Hq; subst q;
      unfold Re.match_token, Re.match_ident, Re.match_braced, Re.match_quoted;
      simpl Py.isalpha_; cbv iota;
      rewrite ?Ascii.eqb_refl; simpl Ascii.eqb; cbv iota;
      rewrite Hspan; reflexivity. }
  simpl Re.findall_go. rewrite Htok. f_equal.
  replace (String.length (String q (p +:+ Py.chr q)) - 1)%nat
    with (String.length p + 1)%nat
    by (simpl; rewrite length_append; simpl; lia).
  rewrite (findall_go_skip p 1 (String q rest)). reflexivity.
Qed.

Lemma findall_attribute_prefix (x : string) :
  Re.findall ("@attribute " +:+ x) = "attribute" :: Re.findall_go 0 x.
Proof. reflexivity. Qed.

Lemma strip_quoted (q : ascii) (s : string) :
  Re.is_quote q = true -> Py.strip (String q (s +:+ Py.chr q)) = String q (s +:+ Py.chr q).
Proof.
  intros Hq.
  assert (Hs : Py.isspace q = false).
  { unfold Re.is_quote in Hq. apply orb_prop in Hq as [Hq | Hq];
      apply Ascii.eqb_eq in Hq; subst q; reflexivity. }
  apply (strip_id _ q q); try assumption; [reflexivity |].
  apply last_char_cons, last_char_app.
Qed.

(** ** Reading back the header *)

(** The type under which a written attribute is read back: [real] is
    written as [numeric]. *)
Definition reread_type (t : atype) : atype :=
  match t with TYPE_REAL => TYPE_NUMERIC | _ => t end.

(** An attribute the header writer and reader agree on: a name that is
    not empty and holds no single quote, with a numeric or string type, or
    with the type [date] and a pattern that is not empty and holds no
    double quote. *)
Definition plain_attribute (a : ArffFile) (name : string) (t : atype)
    (d : adata) : Prop :=
  name <> "" /\ all_chars (not_char Py.squote) name = true
  /\ attribute_types a !! name = Some t
  /\ match t with
     | TYPE_INTEGER | TYPE_NUMERIC | TYPE_REAL | TYPE_STRING => d = DNone
     | TYPE_DATE =>
         exists p, d = DPattern p /\ attribute_data a !! name = Some d
                   /\ p <> "" /\ all_chars (not_char Py.dquote) p = true
     | TYPE_NOMINAL => False
     end.

Lemma parse_attribute_tokens (b : ArffFile) (l : string) (name atype : string)
    (rest : list string) :
  map Py.strip (Re.findall l) = "attribute" :: name :: atype :: rest ->
  parse_attribute l b
  = (let name := Re.strip_quotes name in
     if String.eqb atype "integer" then Ok (define_attribute name TYPE_INTEGER DNone b)
     else if String.eqb atype "real" || String.eqb atype "numeric"
     then Ok (define_attribute name TYPE_NUMERIC DNone b)
     else if String.eqb atype "string" then Ok (define_attribute name TYPE_STRING DNone b)
     else if String.eqb atype "date" then
       Ok (define_attribute name TYPE_DATE
             match rest !! 0%nat with
             | Some p => DPattern (Re.strip_quotes p)
             | None => DNone
             end b)
     else if bool_decide (Py.first_char atype = Some "{"%char)
             && bool_decide (Py.last_char atype = Some "}"%char)
     then Ok (define_attribute name TYPE_NOMINAL
                (DList (map PStr (map Py.strip
                   (Py.split_on "," (Py.init (Py.tail atype)))))) b)
     else Raise NotImplementedError).
Proof. intros H. unfold parse_attribute. rewrite H. reflexivity. Qed.

(** A quoted text without line boundary stays on one line. *)
Lemma quoted_one_line (q : ascii) (s : string) :
  not_linebreak q = true -> all_chars not_linebreak s = true ->
  all_chars not_linebreak (String q (s +:+ Py.chr q)) = true.
Proof.
  intros Hq Hs. cbn [all_chars]. rewrite all_chars_app, Hq, Hs.
  simpl. rewrite Hq. reflexivity.
Qed.

(** The directive of a plain attribute: its text starts with the
    keyword, [__parse_attribute] reads the attribute back from it, and
    it is one line when the name and the pattern hold no line boundary. *)
Lemma attribute_line_reread (host : Host) (a : ArffFile)
    (name : string) (t : atype) (d : adata) :
  plain_attribute a name t d ->
  exists rest : string,
    attribute_line host a name = Ok ("@attribute " +:+ rest)
    /\ (forall b : ArffFile,
          parse_attribute ("@attribute " +:+ rest) b
          = Ok (define_attribute name (reread_type t) d b))
    /\ (all_chars not_linebreak name = true ->
        (forall p, d = DPattern p -> all_chars not_linebreak p = true) ->
        all_chars not_linebreak rest = true).
Proof.
  intros (Hne & Hq & Ht & Hd).
  unfold attribute_line, type_of. rewrite Ht. simpl.
  rewrite (esc_plain name Hne Hq).
  assert (Hname : forall rest,
            Re.findall ("@attribute " +:+ String Py.squote (name +:+ "'") +:+ rest)
            = "attribute" :: String Py.squote (name +:+ "'")
              :: Re.findall_go 0 rest).
  { intros rest. rewrite findall_attribute_prefix.
    rewrite append_cons, append_assoc.
    change ("'" +:+ rest) with (String Py.squote rest).
    rewrite (findall_go_quoted Py.squote name rest); try assumption; reflexivity. }
  assert (Hstrip : Py.strip (String Py.squote (name +:+ "'"))
                   = String Py.squote (name +:+ "'"))
    by (apply (strip_quoted Py.squote); reflexivity).
  assert (Hunq : Re.strip_quotes (String Py.squote (name +:+ "'")) = name)
    by (apply (strip_quotes_quoted name Py.squote); reflexivity).
  destruct t; try contradiction.
  - subst d. eexists. split; [reflexivity |]. split.
    + intros b.
      rewrite (parse_attribute_tokens b _ (String Py.squote (name +:+ "'"))
                 "integer" []).
      * cbv zeta. rewrite Hunq. reflexivity.
      * rewrite Hname. simpl. rewrite Hstrip. reflexivity.
    + intros Hn _. rewrite all_chars_app. apply andb_true_intro.
      split; [exact (quoted_one_line Py.squote name eq_refl Hn) | reflexivity].
  - subst d. eexists. split; [reflexivity |]. split.
    + intros b.
      rewrite (parse_attribute_tokens b _ (String Py.squote (name +:+ "'"))
                 "numeric" []).
      * cbv zeta. rewrite Hunq. reflexivity.
      * rewrite Hname. simpl. rewrite Hstrip. reflexivity.
    + intros Hn _. rewrite all_chars_app. apply andb_true_intro.
      split; [exact (quoted_one_line Py.squote name eq_refl Hn) | reflexivity].
  - subst d. eexists. split; [reflexivity |]. split.
    + intros b.
      rewrite (parse_attribute_tokens b _ (String Py.squote (name +:+ "'"))
                 "numeric" []).
      * cbv zeta. rewrite Hunq. reflexivity.
      * rewrite Hname. simpl. rewrite Hstrip. reflexivity.
    + intros Hn _. rewrite all_chars_app. apply andb_true_intro.
      split; [exact (quoted_one_line Py.squote name eq_refl Hn) | reflexivity].
  - subst d. eexists. split; [reflexivity |]. split.
    + intros b.
      rewrite (parse_attribute_tokens b _ (String Py.squote (name +:+ "'"))
                 "string" []).
      * cbv zeta. rewrite Hunq. reflexivity.
      * rewrite Hname. simpl. rewrite Hstrip. reflexivity.
    + intros Hn _. rewrite all_chars_app. apply andb_true_intro.
      split; [exact (quoted_one_line Py.squote name eq_refl Hn) | reflexivity].
  - destruct Hd as (p & -> & Hdata & Hpne & Hpq).
    unfold date_pattern_text. rewrite Hdata.
    eexists. split; [reflexivity |]. split.
    + intros b.
      rewrite (parse_attribute_tokens b _ (String Py.squote (name +:+ "'"))
                 "date" [String Py.dquote (p +:+ Py.chr Py.dquote)]).
      * cbv zeta. rewrite Hunq.
        change ([String Py.dquote (p +:+ Py.chr Py.dquote)] !! 0%nat)
          with (Some (String Py.dquote (p +:+ Py.chr Py.dquote))).
        cbv iota.
        rewrite (strip_quotes_quoted p Py.dquote) by reflexivity. reflexivity.
      * rewrite Hname.
        change (" date " +:+ String Py.dquote p +:+ Py.chr Py.dquote)
          with (" date " +:+ (String Py.dquote p +:+ Py.chr Py.dquote)).
        assert (Hd : Re.findall_go 0
                       (" date " +:+ (String Py.dquote p +:+ Py.chr Py.dquote))
                     = ["date"; String Py.dquote (p +:+ Py.chr Py.dquote)]).
        { change (Re.findall_go 0
                    (" date " +:+ (String Py.dquote p +:+ Py.chr Py.dquote)))
            with ("date" :: Re.findall_go 0
                              (String Py.dquote (p +:+ String Py.dquote ""))).
          rewrite (findall_go_quoted Py.dquote p ""); try assumption; reflexivity. }
        rewrite Hd. simpl map. rewrite Hstrip.
        rewrite (strip_quoted Py.dquote p) by reflexivity. reflexivity.
    + intros Hn Hp. rewrite all_chars_app. apply andb_true_intro.
      split; [exact (quoted_one_line Py.squote name eq_refl Hn) |].
      change (" date " +:+ String Py.dquote p +:+ Py.chr Py.dquote)
        with (" date " +:+ String Py.dquote (p +:+ Py.chr Py.dquote)).
      rewrite all_chars_app. apply andb_true_intro.
      split; [reflexivity |].
      exact (quoted_one_line Py.dquote p eq_refl (Hp p eq_refl)).
Qed.

(** The theorem above on the string attribute [first name]. *)

(** X13: the directive that [write_attributes] prints for a plain
    attribute is read back by [__parse_attribute] as the same attribute:
    the same name, the same type ([numeric] for [real]) and, for a date,
    the same pattern. *)
Theorem attribute_directive_round_trip (host : Host) (a : ArffFile)
    (name : string) (t : atype) (d : adata) :
  plain_attribute a name t d ->
  exists line : string,
    attribute_line host a name = Ok line
    /\ forall b : ArffFile,
         parse_attribute line b
         = Ok (define_attribute name (reread_type t) d b).
Proof.
  intros H. destruct (attribute_line_reread host a name t d H)
    as (rest & H1 & H2 & _).
  eexists. split; [exact H1 | exact H2].
Qed.

Lemma attribute_directive_round_trip_witness :
  let a := define_attribute "first name" TYPE_STRING DNone ArffFile_new in
  exists line : string,
    attribute_line example_host a "first name" = Ok line
    /\ line = "@attribute 'first name' string"
    /\ parse_attribute line ArffFile_new = Ok a.
Proof.
  intros a.
  destruct (attribute_directive_round_trip example_host a "first name"
              TYPE_STRING DNone) as (line & H1 & H2).
  { repeat split. discriminate. }
  exists line. split; [exact H1 |]. split.
  - vm_compute in H1. injection H1 as <-. reflexivity.
  - rewrite H2. reflexivity.
Defined.

(** *** Lines *)

Lemma text_of_cons (l : string) (ls : list string) :
  text_of (l :: ls) = l +:+ String Py.LF (text_of ls).
Proof.
  destruct ls as [| l' ls]; [reflexivity |].
  change (text_of (l :: l' :: ls))
    with ((l +:+ Py.chr Py.LF) +:+ text_of (l' :: ls)).
  rewrite append_assoc. reflexivity.
Qed.

Lemma splitlines_LF (x : string) :
  Py.splitlines (String Py.LF x) = "" :: Py.splitlines x.
Proof. destruct x; reflexivity. Qed.

(** [splitlines] gives back a line that holds no line boundary. *)
Lemma splitlines_line (l x : string) :
  all_chars not_linebreak l = true ->
  Py.splitlines (l +:+ String Py.LF x) = l :: Py.splitlines x.
Proof.
  intros Hl. induction l as [| c l IH].
  - apply splitlines_LF.
  - simpl in Hl. apply andb_prop in Hl as (Hc & Hl).
    unfold not_linebreak in Hc. apply negb_true_iff in Hc.
    rewrite append_cons.
    change (Py.splitlines (String c (l +:+ String Py.LF x)))
      with (if Py.islinebreak c
            then EmptyString ::
                 match l +:+ String Py.LF x with
                 | String b s'' =>
                     if (Py.code c =? 13)%N && (Py.code b =? 10)%N
                     then Py.splitlines s''
                     else Py.splitlines (l +:+ String Py.LF x)
                 | EmptyString => []
                 end
            else match Py.splitlines (l +:+ String Py.LF x) with
                 | l0 :: ls => String c l0 :: ls
                 | [] => [Py.chr c]
                 end).
    rewrite Hc, (IH Hl). reflexivity.
Qed.

Lemma splitlines_text_of (ls : list string) :
  Forall (fun l => all_chars not_linebreak l = true) ls ->
  Py.splitlines (text_of ls) = ls.
Proof.
  induction 1 as [| l ls Hl _ IH]; [reflexivity |].
  rewrite text_of_cons, splitlines_line by assumption. rewrite IH. reflexivity.
Qed.

(** *** The relation *)

Lemma split_ws_cons (c : ascii) (s : string) :
  Py.split_ws (String c s)
  = if Py.isspace c then Py.split_ws s
    else if default true (Py.isspace <$> Py.first_char s)
         then Py.chr c :: Py.split_ws s
         else match Py.split_ws s with
              | w :: ws => String c w :: ws
              | [] => [Py.chr c]
              end.
Proof. reflexivity. Qed.

Lemma split_ws_word_then (w s : string) :
  w <> "" -> all_chars not_space w = true ->
  default true (Py.isspace <$> Py.first_char s) = true ->
  Py.split_ws (w +:+ s) = w :: Py.split_ws s.
Proof.
  intros Hne Hw Hs. induction w as [| c w IH]; [contradiction |].
  simpl in Hw. apply andb_prop in Hw as (Hc & Hw).
  unfold not_space in Hc. apply negb_true_iff in Hc.
  rewrite append_cons, split_ws_cons, Hc.
  destruct w as [| d w].
  - rewrite append_nil_l, Hs. reflexivity.
  - rewrite IH by (try assumption; discriminate).
    rewrite append_cons. simpl Py.first_char. simpl fmap. simpl default.
    simpl in Hw. apply andb_prop in Hw as (Hd & _).
    unfold not_space in Hd. apply negb_true_iff in Hd. rewrite Hd.
    reflexivity.
Qed.

Lemma split_ws_word (w : string) :
  w <> "" -> all_chars not_space w = true -> Py.split_ws w = [w].
Proof.
  intros Hne Hw. rewrite <- (append_nil_r w) at 1.
  apply (split_ws_word_then w ""); auto.
Qed.

(** A relation name that is one word is read back from its directive;
    the directive of the empty name cannot be read. *)
Lemma parse_relation_word (r : string) (a : ArffFile) :
  r <> "" -> all_chars not_space r = true ->
  parse_relation ("@relation " +:+ r) a = Ok (set_relation r a).
Proof.
  intros Hne Hr. unfold parse_relation.
  change ("@relation " +:+ r) with ("@relation" +:+ String " " r).
  rewrite (split_ws_word_then "@relation" (String " " r));
    [| discriminate | reflexivity | reflexivity].
  rewrite split_ws_cons. simpl Py.isspace. cbv iota.
  rewrite (split_ws_word r Hne Hr). reflexivity.
Qed.

Lemma prefix_app (p s : string) : String.prefix p (p +:+ s) = true.
Proof.
  induction p as [| c p IH]; [destruct s; reflexivity |].
  rewrite append_cons, prefix_cons_eq. exact IH.
Qed.

Lemma lower_app (s t : string) : Py.lower (s +:+ t) = Py.lower s +:+ Py.lower t.
Proof.
  induction s as [| c s IH]; [reflexivity |].
  rewrite append_cons. simpl. rewrite IH. reflexivity.
Qed.

Lemma parse_header_line_relation (r : string) (a : ArffFile) :
  r <> "" -> all_chars not_space r = true ->
  parse_header_line ("@relation " +:+ r) a = Ok (set_relation r a).
Proof.
  intros Hne Hr. unfold parse_header_line.
  assert (H1 : Py.startswith (Py.lower ("@relation " +:+ r)) "@relation " = true).
  { unfold Py.startswith. rewrite lower_app. apply (prefix_app "@relation "). }
  rewrite H1.
  change (Py.startswith (Py.lower ("@relation " +:+ r)) "@attribute ") with false.
  change (Py.startswith (Py.lower ("@relation " +:+ r)) "@data") with false.
  cbv iota. rewrite (parse_relation_word r a Hne Hr). reflexivity.
Qed.

(** X14: a dataset with the empty relation name (the name of a new
    dataset) and no comment cannot be read back from what [write] returns
    for it, whatever its schema and rows: [parse] raises [IndexError] at
    the [@relation] line.  A relation name that is one word is read back
    from its line. *)
Theorem empty_relation_not_reread (host : Host) (a : ArffFile) (fmt : format)
    (text : string) :
  relation a = "" -> comment a = CommentLines [] ->
  write host a fmt false false = Ok text ->
  (forall schema_only : bool, parse host text schema_only = Raise IndexError)
  /\ (forall (r : string) (b : ArffFile),
        r <> "" -> all_chars not_space r = true ->
        state b = Some st_in_header ->
        parseline host ("@relation " +:+ r) b = Ok (set_relation r b)).
Proof.
  intros Hr Hc Hw. split.
  - intros so. unfold write, write_lines in Hw. simpl in Hw.
    destruct (write_attributes host a) as [attrs |]; [| discriminate].
    simpl in Hw.
    destruct (data_lines host a fmt (data a)) as [rows |]; [| discriminate].
    simpl in Hw. injection Hw as <-.
    unfold comment_line. rewrite Hc, Hr.
    change ("% " +:+ Py.replace (Py.chr Py.LF) (String Py.LF "% ")
                       (Py.join (Py.chr Py.LF) [])) with "% ".
    change ("@relation " +:+ "") with "@relation ".
    unfold parse.
    change (("% " :: "@relation " :: attrs) ++ "@data" :: rows)
      with ("% " :: "@relation " :: (attrs ++ "@data" :: rows)).
    rewrite !text_of_cons.
    rewrite (splitlines_line "% ") by reflexivity.
    rewrite (splitlines_line "@relation ") by reflexivity.
    destruct so; reflexivity.
  - intros r b Hne Hword Hst. unfold parseline. rewrite Hst.
    apply parse_header_line_relation; assumption.
Qed.

(** The theorem above on the new, empty dataset. *)
Lemma empty_relation_not_reread_witness :
  exists text : string,
    write example_host ArffFile_new SPARSE false false = Ok text
    /\ parse example_host text false = Raise IndexError.
Proof.
  exists (text_of ["% "; "@relation "; "@data"]). split; [reflexivity |].
  apply (proj1 (empty_relation_not_reread example_host ArffFile_new SPARSE
                  _ eq_refl eq_refl eq_refl)).
Defined.

(** ** Reading back a sparse line *)

(** A text that can stand after the index in a column of a sparse line:
    no comma and no line feed, no white space at either end, and no
    backslash at the end. *)
Definition plain_text (e : string) : Prop :=
  all_chars (not_char ",") e = true
  /\ all_chars (not_char Py.LF) e = true
  /\ exists a c, Py.first_char e = Some a /\ Py.isspace a = false
                 /\ Py.last_char e = Some c /\ Py.isspace c = false
                 /\ c <> Py.backslash.

(** The text the host gives for a float can be written and read back:
    it is a plain text that is neither quoted nor the missing marker, and
    [float] reads it as an equal float. *)
Definition float_text_ok (host : Host) (f : spec_float) : Prop :=
  let e := str_of_float host f in
  plain_text e /\ e <> MISSING
  /\ (forall a, Py.first_char e = Some a -> Re.is_quote a = false)
  /\ exists f', float_of_str host e = Some f'
                /\ py_eq (PFloat f') (PFloat f) = true.

(** The entries of a name-keyed row that the sparse writer and reader
    agree on, for an attribute of type [t]: a value of the class of [t]
    that is the missing marker, an integer, a float whose text the host
    reads back, or a string without comma and line feed. *)
Definition sparse_entry_ok (host : Host) (t : atype) (x : Value) : Prop :=
  kind_of x = TYPE_TO_CLASS t
  /\ (value x = PStr MISSING
      \/ match t with
         | TYPE_INTEGER => exists z, value x = PInt z
         | TYPE_STRING =>
             exists s, value x = PStr s
                       /\ all_chars (not_char ",") s = true
                       /\ all_chars (not_char Py.LF) s = true
         | TYPE_NUMERIC | TYPE_REAL =>
             exists f, value x = PFloat f /\ float_text_ok host f
         | _ => False
         end).

(** The text of a value in its column. *)
Definition entry_text (host : Host) (x : Value) : string :=
  if is_missing (value x) then MISSING
  else match kind_of x with
       | KString =>
           String Py.dquote (py_str host (value x) +:+ Py.chr Py.dquote)
       | _ => py_str host (value x)
       end.

(** What the reader makes of the text of a column of type [t]. *)
Definition reread (host : Host) (t : atype) (e : string) : result Value :=
  u ← unquote e;
  if String.eqb u MISSING then Str host (PStr u) false
  else new_Value host (TYPE_TO_CLASS t) (PStr u).

Lemma Qeq_bool_refl (q : Q) : Qeq_bool q q = true.
Proof. apply Qeq_bool_iff. reflexivity. Qed.

Lemma py_eq_int_refl (z : Z) : py_eq (PInt z) (PInt z) = true.
Proof. simpl. apply Qeq_bool_refl. Qed.

Lemma str_of_Z_chars (z : Z) :
  all_chars (fun c => Py.isdigit c || Ascii.eqb c "-") (Py.str_of_Z z) = true.
Proof.
  destruct (str_of_Z_shape z) as (d & _ & _ & ->).
  pose proof (uint_digits d) as Hd.
  assert (H : all_chars (fun c => Py.isdigit c || Ascii.eqb c "-")
                (NilEmpty.string_of_uint d) = true).
  { apply (all_chars_impl Py.isdigit); [| assumption].
    intros c ->. reflexivity. }
  destruct (z <? 0); [simpl; rewrite H; reflexivity | assumption].
Qed.

Lemma digit_or_minus (c : ascii) :
  Py.isdigit c || Ascii.eqb c "-" = true ->
  not_char "," c = true /\ not_char Py.LF c = true /\ Py.isspace c = false
  /\ Re.is_quote c = false /\ c <> Py.backslash /\ c <> "?"%char.
Proof.
  intros H. apply orb_prop in H as [H | H].
  - pose proof (isdigit_not_space c H) as Hs.
    unfold Py.isdigit, Py.code in H. apply andb_prop in H as (H1 & H2).
    apply N.leb_le in H1, H2.
    assert (Hne : forall d : ascii, (N_of_ascii d < 48)%N \/ (57 < N_of_ascii d)%N
                                    -> c <> d).
    { intros d Hd ->. lia. }
    unfold not_char, Re.is_quote.
    repeat split; try assumption;
      try (apply negb_true_iff, Ascii.eqb_neq, Hne; simpl; lia);
      try (apply Hne; simpl; lia).
    apply orb_false_iff. split; apply Ascii.eqb_neq, Hne; simpl; lia.
  - apply Ascii.eqb_eq in H. subst c. repeat split; try reflexivity;
      discriminate.
Qed.

Lemma first_last_all (p : ascii -> bool) (s : string) :
  all_chars p s = true -> s <> "" ->
  exists a c, Py.first_char s = Some a /\ p a = true
              /\ Py.last_char s = Some c /\ p c = true.
Proof.
  induction s as [| a s IH]; [contradiction |]. simpl all_chars.
  intros H _. apply andb_prop in H as (Ha & Hs).
  destruct s as [| b s].
  - exists a, a. auto.
  - destruct (IH Hs) as (_ & c & _ & _ & Hl & Hc); [discriminate |].
    exists a, c. repeat split; try assumption.
Qed.

Lemma str_of_Z_nonempty (z : Z) : Py.str_of_Z z <> "".
Proof.
  destruct (str_of_Z_shape z) as (d & Hne & _ & ->).
  destruct (z <? 0); [discriminate | assumption].
Qed.

Lemma str_of_Z_plain (z : Z) :
  plain_text (Py.str_of_Z z)
  /\ Py.str_of_Z z <> MISSING
  /\ (forall a, Py.first_char (Py.str_of_Z z) = Some a -> Re.is_quote a = false).
Proof.
  pose proof (str_of_Z_chars z) as Hc.
  destruct (first_last_all _ _ Hc (str_of_Z_nonempty z))
    as (a & c & Hf & Ha & Hl & Hlc).
  split; [| split].
  - split; [| split].
    + apply (all_chars_impl _ _ _ (fun c H => proj1 (digit_or_minus c H)) Hc).
    + apply (all_chars_impl _ _ _
               (fun c H => proj1 (proj2 (digit_or_minus c H))) Hc).
    + exists a, c. destruct (digit_or_minus a Ha) as (_ & _ & Hsa & _).
      destruct (digit_or_minus c Hlc) as (_ & _ & Hsc & _ & Hb & _).
      repeat split; assumption.
  - intros E. rewrite E in Hf. injection Hf as <-.
    destruct (digit_or_minus _ Ha) as (_ & _ & _ & _ & _ & Hq).
    apply Hq. reflexivity.
  - intros a' Hf'. rewrite Hf in Hf'. injection Hf' as <-.
    apply (digit_or_minus a Ha).
Qed.

Lemma contains_all_chars (c : ascii) (s : string) :
  all_chars (not_char c) s = true -> Py.contains c s = false.
Proof.
  induction s as [| a s IH]; simpl; [reflexivity |].
  intros H. apply andb_prop in H as (Ha & Hs).
  unfold not_char in Ha. apply negb_true_iff in Ha.
  rewrite Ha, (IH Hs). reflexivity.
Qed.

Lemma last_char_append (s t : string) (c : ascii) :
  Py.last_char t = Some c -> Py.last_char (s +:+ t) = Some c.
Proof.
  intros H. induction s as [| a s IH]; [assumption |].
  rewrite append_cons. apply last_char_cons, IH.
Qed.

Lemma first_char_append (s t : string) (a : ascii) :
  Py.first_char s = Some a -> Py.first_char (s +:+ t) = Some a.
Proof. destruct s; [discriminate | intros H; exact H]. Qed.

(** *** The pieces of a sparse line *)

(** A column that [re.split] leaves whole: no comma, and no backslash at
    the end, which would protect the comma that follows. *)
Definition sep_ok (t : string) : Prop :=
  all_chars (not_char ",") t = true
  /\ exists c, Py.last_char t = Some c /\ c <> Py.backslash.

Lemma split_commas_go_cons (b : bool) (c : ascii) (s : string) :
  Re.split_commas_go b (String c s)
  = if Ascii.eqb c "," && negb b
    then EmptyString :: Re.split_commas_go false s
    else match Re.split_commas_go (Ascii.eqb c Py.backslash) s with
         | x :: xs => String c x :: xs
         | [] => [Py.chr c]
         end.
Proof. reflexivity. Qed.

Lemma split_commas_go_one (t : string) (b : bool) :
  all_chars (not_char ",") t = true -> Re.split_commas_go b t = [t].
Proof.
  revert b. induction t as [| c t IH]; intros b H; [reflexivity |].
  simpl in H. apply andb_prop in H as (Hc & Ht).
  unfold not_char in Hc. apply negb_true_iff in Hc.
  rewrite split_commas_go_cons, Hc. cbn [andb]. rewrite (IH _ Ht). reflexivity.
Qed.

Lemma split_commas_go_app (t rest : string) (b : bool) :
  sep_ok t ->
  Re.split_commas_go b (t +:+ String "," rest)
  = t :: Re.split_commas_go false rest.
Proof.
  revert b. induction t as [| c t IH]; intros b (Hn & l & Hl & Hb);
    [discriminate |].
  simpl in Hn. apply andb_prop in Hn as (Hc & Ht).
  unfold not_char in Hc. apply negb_true_iff in Hc.
  rewrite append_cons, split_commas_go_cons, Hc. cbn [andb].
  destruct t as [| d t].
  - injection Hl as ->. rewrite append_nil_l, split_commas_go_cons.
    apply Ascii.eqb_neq in Hb. rewrite Hb. reflexivity.
  - rewrite IH; [reflexivity |]. split; [assumption |].
    exists l. split; [exact Hl | assumption].
Qed.

Lemma join_cons (sep t t' : string) (ts : list string) :
  Py.join sep (t :: t' :: ts) = t +:+ sep +:+ Py.join sep (t' :: ts).
Proof. reflexivity. Qed.

Lemma join_space_cons (sep t : string) (ts : list string) :
  String " " (Py.join sep (t :: ts)) = Py.join sep (String " " t :: ts).
Proof. destruct ts; reflexivity. Qed.

Lemma sep_ok_space (t : string) : sep_ok t -> sep_ok (String " " t).
Proof.
  intros (Hn & c & Hl & Hb). split.
  - simpl. rewrite Hn. reflexivity.
  - exists c. split; [apply last_char_cons, Hl | assumption].
Qed.

(** [re.split] on the joined columns gives the columns back, each but
    the first behind the space of the separator. *)
Lemma split_commas_join (ts : list string) (t : string) (b : bool) :
  Forall sep_ok (t :: ts) ->
  Re.split_commas_go b (Py.join ", " (t :: ts)) = t :: map (String " ") ts.
Proof.
  revert t b. induction ts as [| t' ts IH]; intros t b H.
  - apply split_commas_go_one. inversion H as [| ? ? (Hn & _) _]. exact Hn.
  - inversion H as [| ? ? Ht H']; subst.
    inversion H' as [| ? ? Ht' H'']; subst.
    rewrite join_cons.
    change (", " +:+ Py.join ", " (t' :: ts))
      with (String "," (String " " (Py.join ", " (t' :: ts)))).
    rewrite split_commas_go_app by assumption.
    rewrite join_space_cons, IH; [reflexivity |].
    constructor; [apply sep_ok_space; assumption | assumption].
Qed.

(** *** One column *)

Lemma str_of_Z_digits (i : Z) :
  0 <= i ->
  all_chars Py.isdigit (Py.str_of_Z i) = true /\ Py.str_of_Z i <> "".
Proof.
  intros Hi. destruct (str_of_Z_shape i) as (d & Hne & _ & ->).
  destruct (Z.ltb_spec i 0); [lia |].
  split; [apply uint_digits | assumption].
Qed.

(** The pattern of a column finds the index and the text in the column
    the writer makes of them. *)
Lemma index_value_token (i : Z) (e : string) :
  0 <= i -> plain_text e ->
  Re.index_value (Py.str_of_Z i +:+ " " +:+ e) = Some (Py.str_of_Z i, e).
Proof.
  intros Hi (_ & Hlf & a & c & Hf & Ha & _).
  destruct (str_of_Z_digits i Hi) as (Hd & Hne).
  unfold Re.index_value.
  rewrite (span_all Py.isdigit) by (assumption || reflexivity).
  rewrite (span_all Py.isspace " " e);
    [| reflexivity | rewrite Hf; simpl; rewrite Ha; reflexivity].
  destruct (Py.str_of_Z i) as [| d0 ds]; [contradiction |].
  rewrite (contains_all_chars _ _ Hlf). reflexivity.
Qed.

Lemma token_text (i : Z) (e : string) :
  0 <= i -> plain_text e ->
  let t := Py.str_of_Z i +:+ " " +:+ e in
  sep_ok t /\ Py.strip t = t.
Proof.
  intros Hi (Hc & _ & a & c & Hf & Ha & Hl & Hs & Hb) t.
  destruct (str_of_Z_digits i Hi) as (Hd & Hne).
  destruct (digits_first_last _ Hd Hne) as (a0 & _ & Hf0 & Ha0 & _).
  assert (Hlt : Py.last_char t = Some c).
  { apply last_char_append, last_char_cons, Hl. }
  split.
  - split; [| exists c; split; assumption].
    unfold t. rewrite all_chars_app.
    change (" " +:+ e) with (String " " e). simpl all_chars. rewrite Hc.
    rewrite (all_chars_impl Py.isdigit _ _ (fun c H =>
               proj1 (digit_or_minus c (orb_true_intro _ _ (or_introl H)))) Hd).
    reflexivity.
  - apply (strip_id t a0 c); try assumption.
    + apply first_char_append, Hf0.
    + apply isdigit_not_space, Ha0.
Qed.

Lemma is_missing_str (v : pyval) : is_missing v = true -> v = PStr MISSING.
Proof.
  unfold is_missing. destruct v; try discriminate.
  simpl. intros H. apply String.eqb_eq in H. congruence.
Qed.

Lemma plain_missing : plain_text MISSING.
Proof.
  split; [reflexivity |]. split; [reflexivity |].
  exists "?"%char, "?"%char. repeat split; discriminate.
Qed.

Lemma plain_quoted (s : string) :
  all_chars (not_char ",") s = true ->
  all_chars (not_char Py.LF) s = true ->
  plain_text (String Py.dquote (s +:+ Py.chr Py.dquote)).
Proof.
  intros Hc Hl. split; [| split].
  - simpl. rewrite all_chars_app, Hc. reflexivity.
  - simpl. rewrite all_chars_app, Hl. reflexivity.
  - exists Py.dquote, Py.dquote. repeat split; try discriminate.
    apply last_char_cons, last_char_app.
Qed.

Lemma unquote_quoted (s : string) :
  unquote (String Py.dquote (s +:+ Py.chr Py.dquote)) = Ok s.
Proof.
  unfold unquote. rewrite (last_char_cons _ _ _ (last_char_app s Py.dquote)).
  simpl Py.first_char. cbv iota.
  change (Py.tail (String Py.dquote (s +:+ Py.chr Py.dquote)))
    with (s +:+ Py.chr Py.dquote).
  rewrite init_app. reflexivity.
Qed.

Lemma unquote_bare (e : string) :
  plain_text e ->
  (forall a, Py.first_char e = Some a -> Re.is_quote a = false) ->
  unquote e = Ok e.
Proof.
  intros (_ & _ & a & c & Hf & _ & Hl & _) Hq. unfold unquote.
  rewrite Hf, Hl, (Hq a Hf), andb_false_r. reflexivity.
Qed.

Section Column.
Context (host : Host).

(** The text of an entry is plain, and the reader makes an equal value
    of it. *)
Lemma entry_reread (t : atype) (x : Value) :
  sparse_entry_ok host t x ->
  plain_text (entry_text host x)
  /\ exists x', reread host t (entry_text host x) = Ok x'
                /\ Value_eq x' x = true.
Proof.
  intros (Hk & Hv). unfold entry_text.
  destruct (is_missing (value x)) eqn:Hm.
  { split; [apply plain_missing |].
    eexists. split; [reflexivity |]. unfold Value_eq.
    rewrite (is_missing_str _ Hm). reflexivity. }
  destruct Hv as [Hv | Hv]; [rewrite Hv in Hm; discriminate |].
  rewrite Hk.
  destruct t; try contradiction; simpl TYPE_TO_CLASS; cbv iota.
  - destruct Hv as (z & Hz). rewrite Hz. simpl py_str.
    destruct (str_of_Z_plain z) as (Hp & Hne & Hq).
    split; [assumption |]. unfold reread.
    rewrite (unquote_bare _ Hp Hq). simpl.
    apply String.eqb_neq in Hne. rewrite Hne.
    unfold Int, is_missing. simpl. rewrite Hne. simpl.
    rewrite int_of_str_of_Z. simpl.
    eexists. split; [reflexivity |]. unfold Value_eq. rewrite Hz.
    apply py_eq_int_refl.
  - destruct Hv as (f & Hf & Hp & Hne & Hq & f' & Hr & He).
    rewrite Hf. simpl py_str. cbv zeta in *.
    split; [assumption |]. unfold reread.
    rewrite (unquote_bare _ Hp Hq). simpl.
    apply String.eqb_neq in Hne. rewrite Hne.
    unfold Num, is_missing. simpl. rewrite Hne. simpl.
    rewrite Hr. simpl.
    eexists. split; [reflexivity |]. unfold Value_eq. rewrite Hf. exact He.
  - destruct Hv as (f & Hf & Hp & Hne & Hq & f' & Hr & He).
    rewrite Hf. simpl py_str. cbv zeta in *.
    split; [assumption |]. unfold reread.
    rewrite (unquote_bare _ Hp Hq). simpl.
    apply String.eqb_neq in Hne. rewrite Hne.
    unfold Num, is_missing. simpl. rewrite Hne. simpl.
    rewrite Hr. simpl.
    eexists. split; [reflexivity |]. unfold Value_eq. rewrite Hf. exact He.
  - destruct Hv as (s & Hs & Hc & Hl). rewrite Hs in *. simpl py_str.
    split; [apply plain_quoted; assumption |]. unfold reread.
    rewrite unquote_quoted. simpl.
    unfold is_missing in Hm. simpl in Hm. rewrite Hm.
    unfold Str. simpl.
    eexists. split; [reflexivity |]. unfold Value_eq. rewrite Hs. simpl.
    apply String.eqb_refl.
Qed.

(** What the writer makes of an entry: the value it resolves to is not
    dropped, and its column holds the index and the text of the entry. *)
Lemma entry_token (a : ArffFile) (n : string) (t : atype) (x : Value) (i : Z) :
  attribute_types a !! n = Some t ->
  sparse_entry_ok host t x ->
  exists v, resolve host a n (CValue x) = Ok v
            /\ dropped host a n v = Ok false
            /\ token host i v = Py.str_of_Z i +:+ " " +:+ entry_text host x.
Proof.
  intros Ht (Hk & Hv). unfold resolve, entry_text.
  destruct (is_missing (value x)) eqn:Hm.
  { eexists. split; [reflexivity |]. split; reflexivity. }
  destruct Hv as [Hv | Hv]; [rewrite Hv in Hm; discriminate |].
  rewrite Hk.
  assert (Hd : forall v, t <> TYPE_NOMINAL -> dropped host a n v = Ok false).
  { intros v Hn. unfold dropped, type_of. rewrite Ht. simpl.
    destruct (negb (is_missing v)); [| reflexivity].
    case_bool_decide as Hc; [contradiction | reflexivity]. }
  destruct t; try contradiction; simpl TYPE_TO_CLASS; cbv iota.
  - destruct Hv as (z & ->). eexists. split; [reflexivity |].
    split; [apply Hd; discriminate | reflexivity].
  - destruct Hv as (f & -> & _). eexists. split; [reflexivity |].
    split; [apply Hd; discriminate | reflexivity].
  - destruct Hv as (f & -> & _). eexists. split; [reflexivity |].
    split; [apply Hd; discriminate | reflexivity].
  - destruct Hv as (s & -> & _). eexists. split; [reflexivity |].
    split; [apply Hd; discriminate |].
    unfold token, smart_quote. simpl py_str.
    rewrite andb_false_r. reflexivity.
Qed.

(** The reader on one piece of the line. *)
Lemma parse_sparse_part_token (a : ArffFile) (part n : string) (t : atype)
    (i : Z) (e : string) (x' : Value) :
  0 <= i ->
  attributes a !! Z.to_nat i = Some n ->
  attribute_types a !! n = Some t ->
  plain_text e ->
  reread host t e = Ok x' ->
  Py.strip part = Py.str_of_Z i +:+ " " +:+ e ->
  parse_sparse_part host a part = Ok (n, CValue x').
Proof.
  intros Hi Hn Ht Hp Hr Hs. unfold parse_sparse_part.
  rewrite Hs, (index_value_token i e Hi Hp). simpl.
  rewrite int_of_str_of_Z. simpl.
  unfold reread in Hr.
  destruct (unquote e) as [u |] eqn:Hu; [| discriminate]. simpl in Hr |- *.
  rewrite Hn. simpl. unfold type_of. rewrite Ht. simpl.
  rewrite Hr. reflexivity.
Qed.
End Column.

(** *** The whole row *)

(** The columns of a row of values: index, name and value of each
    attribute the row has an entry for, in schema order. *)
Fixpoint columns (xs : dict Value) (i : Z) (names : list string)
  : list (Z * string * Value) :=
  match names with
  | [] => []
  | n :: names' =>
      match dict_get n xs with
      | Some x => (i, n, x) :: columns xs (i + 1) names'
      | None => columns xs (i + 1) names'
      end
  end.

Definition column_text (host : Host) (c : Z * string * Value) : string :=
  Py.str_of_Z c.1.1 +:+ " " +:+ entry_text host c.2.

(** Every entry of the row belongs to a declared attribute and is one
    the writer and the reader agree on. *)
Definition entries_ok (host : Host) (a : ArffFile) (xs : dict Value) : Prop :=
  forall n x, (n, x) ∈ xs ->
    n ∈ attributes a
    /\ exists t, attribute_types a !! n = Some t /\ sparse_entry_ok host t x.

Definition column_ok (host : Host) (a : ArffFile) (xs : dict Value)
    (c : Z * string * Value) : Prop :=
  0 <= c.1.1
  /\ attributes a !! Z.to_nat c.1.1 = Some c.1.2
  /\ dict_get c.1.2 xs = Some c.2
  /\ exists t, attribute_types a !! c.1.2 = Some t /\ sparse_entry_ok host t c.2.

Lemma dict_get_values_row (n : string) (xs : dict Value) :
  dict_get n (values_row xs) = CValue <$> dict_get n xs.
Proof.
  induction xs as [| [k x] xs IH]; [reflexivity |]. simpl.
  destruct (String.eqb k n); [reflexivity | exact IH].
Qed.

Lemma dict_get_elem {A : Type} (n : string) (xs : dict A) (x : A) :
  dict_get n xs = Some x -> (n, x) ∈ xs.
Proof.
  induction xs as [| [k y] xs IH]; [discriminate |]. simpl.
  destruct (String.eqb_spec k n) as [-> | Hne].
  - intros [= ->]. apply list_elem_of_here.
  - intros H. apply list_elem_of_further, IH, H.
Qed.

Lemma dict_get_keys {A : Type} (n : string) (xs : dict A) :
  n ∈ dict_keys xs <-> is_Some (dict_get n xs).
Proof.
  induction xs as [| [k y] xs IH].
  - split; [intros H; inversion H | intros [? H]; discriminate].
  - change (dict_keys ((k, y) :: xs)) with (k :: dict_keys xs).
    rewrite elem_of_cons. simpl.
    destruct (String.eqb_spec k n) as [-> | Hne].
    + split; [eauto | intros _; left; reflexivity].
    + rewrite <- IH. split; [| auto].
      intros [E | H]; [congruence | assumption].
Qed.

Lemma dict_set_fresh {A : Type} (k : string) (v : A) (d : dict A) :
  k ∉ dict_keys d -> dict_set k v d = d ++ [(k, v)].
Proof.
  induction d as [| [k' v'] d IH]; [reflexivity |]. simpl. intros H.
  apply not_elem_of_cons in H as (Hne & H).
  destruct (String.eqb_spec k' k) as [E | _]; [congruence |].
  rewrite (IH H). reflexivity.
Qed.

Lemma columns_names (xs : dict Value) (names : list string) (i : Z) (n : string) :
  n ∈ map (fun c : Z * string * Value => c.1.2) (columns xs i names)
  <-> n ∈ names /\ is_Some (dict_get n xs).
Proof.
  revert i. induction names as [| m names IH]; intros i; simpl.
  - split; [intros H; inversion H | intros [H _]; inversion H].
  - rewrite (elem_of_cons names).
    destruct (dict_get m xs) as [x |] eqn:E; simpl;
      rewrite ?elem_of_cons, IH.
    + split; [intros [-> | [H1 H2]]; eauto | intros [[-> | H1] H2]; auto].
    + split; [intros [H1 H2]; auto |].
      intros [[-> | H1] H2]; [| auto].
      rewrite E in H2. destruct H2; discriminate.
Qed.

Lemma columns_NoDup (xs : dict Value) (names : list string) (i : Z) :
  NoDup names ->
  NoDup (map (fun c : Z * string * Value => c.1.2) (columns xs i names)).
Proof.
  revert i. induction names as [| m names IH]; intros i H; simpl.
  - constructor.
  - apply NoDup_cons in H as (Hm & H).
    destruct (dict_get m xs) as [x |]; simpl; [| apply IH, H].
    apply NoDup_cons. split; [| apply IH, H].
    rewrite columns_names. intros [H1 _]. contradiction.
Qed.

Lemma columns_length (xs : dict Value) (names : list string) :
  NoDup names -> NoDup (dict_keys xs) ->
  (forall n, n ∈ dict_keys xs -> n ∈ names) ->
  length (columns xs 0 names) = length xs.
Proof.
  intros Hn Hk Hin.
  rewrite <- (length_map (fun c : Z * string * Value => c.1.2)).
  rewrite <- (length_map fst xs). apply Permutation_length.
  apply NoDup_Permutation; [apply columns_NoDup, Hn | exact Hk |].
  intros n. rewrite columns_names, <- dict_get_keys.
  split; [intros [_ H]; exact H | intros H; split; [apply Hin, H | exact H]].
Qed.

Section Row.
Context (host : Host).

Lemma columns_ok (a : ArffFile) (xs : dict Value) :
  entries_ok host a xs ->
  forall names pre,
    attributes a = pre ++ names ->
    Forall (column_ok host a xs)
      (columns xs (Z.of_nat (length pre)) names).
Proof.
  intros Hok. induction names as [| n names IH]; intros pre Ha; simpl.
  - constructor.
  - assert (Hnext : Forall (column_ok host a xs)
                      (columns xs (Z.of_nat (length pre) + 1) names)).
    { replace (Z.of_nat (length pre) + 1)
        with (Z.of_nat (length (pre ++ [n])))
        by (rewrite length_app; simpl; lia).
      apply IH. rewrite Ha, <- app_assoc. reflexivity. }
    destruct (dict_get n xs) as [x |] eqn:E; [| exact Hnext].
    constructor; [| exact Hnext].
    destruct (Hok n x (dict_get_elem _ _ _ E)) as (_ & t & Ht & Hx).
    split; [simpl; lia |]. split; [| split; [exact E | eauto]].
    simpl. rewrite Nat2Z.id, Ha. apply list_lookup_middle. reflexivity.
Qed.

(** The second loop of the writer gives one column for each entry. *)
Lemma sparse_tokens_columns (a : ArffFile) (xs : dict Value) :
  entries_ok host a xs ->
  forall names i,
    sparse_tokens host a (values_row xs) i names
    = Ok (map (column_text host) (columns xs i names)).
Proof.
  intros Hok. induction names as [| n names IH]; intros i; [reflexivity |].
  cbn [sparse_tokens columns]. rewrite dict_get_values_row.
  destruct (dict_get n xs) as [x |] eqn:E; [| apply IH].
  change (CValue <$> Some x) with (Some (CValue x)). cbv iota.
  destruct (Hok n x (dict_get_elem _ _ _ E)) as (_ & t & Ht & Hx).
  destruct (entry_token host a n t x i Ht Hx) as (v & Hr & Hd & Htok).
  rewrite Hr, IH. simpl. rewrite Hd. simpl.
  rewrite Htok. reflexivity.
Qed.

(** The loop of the reader over the pieces of the line: each column
    adds its name with a value equal to the one written. *)
Lemma parse_sparse_parts_columns (a : ArffFile) (xs : dict Value)
    (parts : list string) (cols : list (Z * string * Value)) :
  Forall2 (fun p c => Py.strip p = column_text host c) parts cols ->
  Forall (column_ok host a xs) cols ->
  NoDup (map (fun c : Z * string * Value => c.1.2) cols) ->
  forall acc,
    (forall c, c ∈ cols -> c.1.2 ∉ dict_keys acc) ->
    exists ys,
      Forall2 (fun (c : Z * string * Value) y => Value_eq y c.2 = true) cols ys
      /\ parse_sparse_parts host a parts acc
         = Ok (acc ++ zip_with (fun (c : Z * string * Value) y =>
                                  (c.1.2, CValue y)) cols ys).
Proof.
  induction 1 as [| p c parts cols Hp _ IH]; intros Hok Hnd acc Hacc.
  - exists []. split; [constructor |]. simpl. rewrite app_nil_r. reflexivity.
  - apply Forall_cons in Hok as (Hc & Hok).
    simpl in Hnd. apply NoDup_cons in Hnd as (Hfresh & Hnd).
    destruct c as [[i n] x].
    destruct Hc as (Hi & Hn & _ & t & Ht & Hx). simpl in Hi, Hn, Ht, Hx.
    destruct (entry_reread host t x Hx) as (Hplain & y & Hy & Heq).
    pose proof (parse_sparse_part_token host a p n t i _ y Hi Hn Ht Hplain Hy Hp)
      as Hpart.
    assert (Hn_acc : n ∉ dict_keys acc).
    { apply (Hacc (i, n, x)), list_elem_of_here. }
    destruct (IH Hok Hnd (dict_set n (CValue y) acc)) as (ys & Hys & Hrun).
    { intros c Hc. rewrite (dict_set_fresh _ _ _ Hn_acc).
      unfold dict_keys. rewrite map_app. simpl.
      rewrite not_elem_of_app. split.
      - apply Hacc, list_elem_of_further, Hc.
      - rewrite list_elem_of_singleton. intros E. apply Hfresh.
        simpl. rewrite <- E. apply (list_elem_of_fmap_2 (fun c : Z * string * Value => c.1.2)), Hc. }
    exists (y :: ys). split; [constructor; assumption |].
    simpl. rewrite Hpart. simpl. rewrite Hrun.
    rewrite (dict_set_fresh _ _ _ Hn_acc), <- app_assoc. reflexivity.
Qed.

(** The row read is equal to the row written. *)
Lemma columns_row_eq (xs : dict Value) (cols : list (Z * string * Value))
    (ys : list Value) :
  Forall (fun c : Z * string * Value => dict_get c.1.2 xs = Some c.2) cols ->
  Forall2 (fun (c : Z * string * Value) y => Value_eq y c.2 = true) cols ys ->
  forallb (fun kv : string * cell =>
             match dict_get kv.1 (values_row xs) with
             | Some w => cell_eq kv.2 w
             | None => false
             end)
    (zip_with (fun (c : Z * string * Value) y => (c.1.2, CValue y)) cols ys)
  = true.
Proof.
  intros Hg H. induction H as [| c y cols ys Hy _ IH]; [reflexivity |].
  apply Forall_cons in Hg as (Hc & Hg). simpl.
  rewrite dict_get_values_row, Hc. simpl. rewrite Hy. apply IH, Hg.
Qed.
End Row.

Lemma sparse_line_Some (toks : list string) (line : string) :
  sparse_line toks = Some line ->
  toks <> [] /\ line = String "{" (Py.join ", " toks +:+ "}").
Proof.
  destruct toks as [| t [| t' ts]]; simpl; [discriminate | |].
  - destruct (Py.contains "?" t); [discriminate |].
    intros [= <-]. split; [discriminate | reflexivity].
  - intros [= <-]. split; [discriminate | reflexivity].
Qed.

(** What the writer gives for a row of values. *)
Lemma write_line_values (host : Host) (a : ArffFile) (xs : dict Value) :
  entries_ok host a xs ->
  write_line host a (RDict (values_row xs)) SPARSE
  = Ok (sparse_line (map (column_text host) (columns xs 0 (attributes a)))).
Proof.
  intros Hok.
  change (write_line host a (RDict (values_row xs)) SPARSE)
    with (line ← sparse_tokens host a (values_row xs) 0 (attributes a);
          Ok (sparse_line line)).
  rewrite (sparse_tokens_columns host a xs Hok). reflexivity.
Qed.

(** The line of a row is read back as an equal row. *)
Lemma sparse_row_reread (host : Host) (a : ArffFile)
    (xs : dict Value) (line : string) :
  fout a = None ->
  NoDup (attributes a) ->
  NoDup (dict_keys xs) ->
  entries_ok host a xs ->
  write_line host a (RDict (values_row xs)) SPARSE = Ok (Some line) ->
  exists dline,
    parse_data host (LStr line) a = Ok (set_data (data a ++ [RDict dline]) a)
    /\ row_eq (RDict dline) (RDict (values_row xs)) = true.
Proof.
  intros Hf Hna Hnk Hok Hw.
  change (write_line host a (RDict (values_row xs)) SPARSE)
    with (line ← sparse_tokens host a (values_row xs) 0 (attributes a);
          Ok (sparse_line line)) in Hw.
  rewrite (sparse_tokens_columns host a xs Hok) in Hw. simpl in Hw.
  injection Hw as Hl. apply sparse_line_Some in Hl as (Hne & ->).
  pose proof (columns_ok host a xs Hok (attributes a) [] eq_refl) as Hcols.
  change (Z.of_nat (length (@nil string))) with 0 in Hcols.
  pose proof (columns_NoDup xs (attributes a) 0 Hna) as Hnd.
  assert (Hlen : length (columns xs 0 (attributes a)) = length xs).
  { apply columns_length; try assumption.
    intros n Hn. apply dict_get_keys in Hn as [x Hx].
    apply (Hok n x), dict_get_elem, Hx. }
  set (cols := columns xs 0 (attributes a)) in *.
  set (toks := map (column_text host) cols) in *.
  assert (Htoks : Forall (fun t => sep_ok t /\ Py.strip t = t) toks).
  { unfold toks. apply Forall_fmap. eapply Forall_impl; [exact Hcols |].
    intros [[i n] x] (Hi & _ & _ & t & _ & Hx). simpl in Hi.
    apply (token_text i (entry_text host x) Hi),
      (proj1 (entry_reread host t x Hx)). }
  assert (Hparts : exists parts,
             Re.split_commas (Py.join ", " toks) = parts
             /\ Forall2 (fun p c => Py.strip p = column_text host c) parts cols).
  { destruct toks as [| t ts] eqn:Et; [contradiction |].
    exists (t :: map (String " ") ts). split.
    - apply split_commas_join. eapply Forall_impl; [exact Htoks |].
      intros ? [H _]. exact H.
    - rewrite <- (list_fmap_id (t :: map (String " ") ts)).
      apply Forall2_fmap_l.
      assert (Hs : Forall2 (fun p t' => Py.strip p = t')
                     (t :: map (String " ") ts) (t :: ts)).
      { apply Forall_cons in Htoks as ((_ & Ht) & Hts).
        constructor; [exact Ht |].
        clear -Hts. induction Hts as [| t' ts (_ & Ht') _ IH]; simpl;
          constructor; [rewrite strip_space_cons; exact Ht' | exact IH]. }
      rewrite <- Et in Hs. unfold toks in Hs.
      apply Forall2_fmap_r in Hs. exact Hs. }
  destruct Hparts as (parts & Hsplit & Hparts).
  destruct (parse_sparse_parts_columns host a xs parts cols Hparts Hcols Hnd [])
    as (ys & Hys & Hrun).
  { intros c _ H. inversion H. }
  rewrite app_nil_l in Hrun.
  eexists. split.
  - unfold parse_data.
    rewrite (strip_id _ "{" "}");
      [| reflexivity | reflexivity
       | apply last_char_cons, (last_char_app _ "}") | reflexivity].
    unfold Py.startswith. rewrite prefix_cons_eq.
    replace (String.prefix "" (Py.join ", " toks +:+ "}")) with true
      by (destruct (Py.join ", " toks +:+ "}"); reflexivity).
    assert (Hlast : Py.last_char (String "{" (Py.join ", " toks +:+ "}"))
                    = Some "}"%char)
      by apply last_char_cons, (last_char_app _ "}").
    rewrite Hlast.
    rewrite (bool_decide_eq_true_2 (Some "}"%char = Some "}"%char))
      by reflexivity.
    rewrite Hf.
    rewrite (bool_decide_eq_false_2 (is_Some None))
      by (intros [? H]; discriminate).
    change (Py.tail (String "{" (Py.join ", " toks +:+ "}")))
      with (Py.join ", " toks +:+ Py.chr "}").
    rewrite init_app, Hsplit. simpl. rewrite Hrun. reflexivity.
  - simpl. unfold dict_eq. apply andb_true_intro. split.
    + apply Nat.eqb_eq.
      rewrite length_zip_with, <- (Forall2_length _ _ _ Hys), Nat.min_id.
      unfold values_row. rewrite length_map. exact Hlen.
    + apply columns_row_eq; [| exact Hys].
      eapply Forall_impl; [exact Hcols |]. intros c (_ & _ & H & _). exact H.
Qed.

(** X15.  A name-keyed row of values that the sparse writer turns into a
    line is read back from that line as an equal row.  The dataset is in
    memory with distinct attribute names, the row has distinct keys, and
    each entry belongs to a declared attribute and is a value of its
    class: the missing marker, an integer, a float whose text the host
    reads back, or a string without comma and line feed.  [_parse_data]
    on the line written by [write_line] then appends one row, and that
    row is equal ([==]) to the one written. *)
Theorem sparse_row_round_trip (host : Host) (a : ArffFile)
    (xs : dict Value) (line : string) :
  fout a = None ->
  NoDup (attributes a) ->
  NoDup (dict_keys xs) ->
  entries_ok host a xs ->
  write_line host a (RDict (values_row xs)) SPARSE = Ok (Some line) ->
  exists dline,
    parse_data host (LStr line) a = Ok (set_data (data a ++ [RDict dline]) a)
    /\ row_eq (RDict dline) (RDict (values_row xs)) = true.
Proof. apply sparse_row_reread. Qed.

(** A dataset with an integer and a string attribute, and a row for it. *)
Definition sparse_example : ArffFile :=
  define_attribute "s" TYPE_STRING DNone
    (define_attribute "n" TYPE_INTEGER DNone ArffFile_new).

Definition sparse_example_row : dict Value :=
  [("s", MkValue KString (PStr "a b") false);
   ("n", MkValue KInteger (PInt 7) false)].

Lemma sparse_row_round_trip_witness :
  exists line dline,
    write_line example_host sparse_example
      (RDict (values_row sparse_example_row)) SPARSE = Ok (Some line)
    /\ parse_data example_host (LStr line) sparse_example
       = Ok (set_data (data sparse_example ++ [RDict dline]) sparse_example)
    /\ row_eq (RDict dline) (RDict (values_row sparse_example_row)) = true.
Proof.
  destruct (write_line example_host sparse_example
              (RDict (values_row sparse_example_row)) SPARSE)
    as [[line |] | e] eqn:E; try (vm_compute in E; discriminate).
  destruct (sparse_row_round_trip example_host sparse_example
              sparse_example_row line) as (dline & H1 & H2).
  - reflexivity.
  - apply (bool_decide_unpack _). vm_compute. reflexivity.
  - apply (bool_decide_unpack _). vm_compute. reflexivity.
  - intros n x Hx.
    apply elem_of_cons in Hx as [[= -> ->] | Hx];
      [| apply elem_of_cons in Hx as [[= -> ->] | Hx]; [| inversion Hx]].
    + split; [apply (bool_decide_unpack _); vm_compute; reflexivity |].
      exists TYPE_STRING. split; [reflexivity |].
      split; [reflexivity |]. right. exists "a b". repeat split.
    + split; [apply (bool_decide_unpack _); vm_compute; reflexivity |].
      exists TYPE_INTEGER. split; [reflexivity |].
      split; [reflexivity |]. right. exists 7. reflexivity.
  - exact E.
  - exists line, dline. repeat split; assumption.
Defined.

(** ** Reading back a written dataset *)

Lemma linebreak_is_space (c : ascii) :
  Py.islinebreak c = true -> Py.isspace c = true.
Proof.
  unfold Py.islinebreak, Py.isspace. cbv zeta.
  repeat match goal with
         | |- context [(?x <=? ?y)%N] => destruct (N.leb_spec x y)
         | |- context [(?x =? ?y)%N] => destruct (N.eqb_spec x y)
         end; simpl; try reflexivity; try discriminate; lia.
Qed.

Lemma not_space_one_line (s : string) :
  all_chars not_space s = true -> all_chars not_linebreak s = true.
Proof.
  apply all_chars_impl. intros c H. unfold not_space, not_linebreak in *.
  apply negb_true_iff in H. apply negb_true_iff.
  destruct (Py.islinebreak c) eqn:E; [| reflexivity].
  rewrite (linebreak_is_space c E) in H. discriminate.
Qed.

Lemma str_of_Z_one_line (z : Z) :
  all_chars not_linebreak (Py.str_of_Z z) = true.
Proof.
  apply not_space_one_line.
  apply (all_chars_impl (fun c => Py.isdigit c || Ascii.eqb c "-"));
    [| apply str_of_Z_chars].
  intros c H. unfold not_space. apply negb_true_iff.
  apply (digit_or_minus c H).
Qed.

(** An attribute whose directive is one line that is read back. *)
Definition header_attribute (a : ArffFile) (n : string) : Prop :=
  all_chars not_linebreak n = true
  /\ exists t d, plain_attribute a n t d
                 /\ attribute_data a !! n = Some d
                 /\ forall p, d = DPattern p -> all_chars not_linebreak p = true.

(** A row of values whose line is read back: distinct keys, entries the
    writer and the reader agree on, and no line boundary in the text of a
    payload. *)
Definition row_ok (host : Host) (a : ArffFile) (xs : dict Value) : Prop :=
  NoDup (dict_keys xs)
  /\ entries_ok host a xs
  /\ forall n x, (n, x) ∈ xs ->
       all_chars not_linebreak (py_str host (value x)) = true.

(** Whether [write_line] gives a line for a row of values. *)
Definition has_line (host : Host) (a : ArffFile) (xs : dict Value) : bool :=
  match write_line host a (RDict (values_row xs)) SPARSE with
  | Ok (Some _) => true
  | _ => false
  end.

(** The dataset in which the rows are read: the attributes of [a], with
    the types the directives of [a] are read as, no stream, and the
    header passed. *)
Definition reader_of (a b : ArffFile) : Prop :=
  attributes b = attributes a
  /\ fout b = None
  /\ state b = Some st_data
  /\ forall n, n ∈ attributes a ->
       attribute_types b !! n = reread_type <$> attribute_types a !! n.

Lemma sparse_entry_ok_reread (host : Host) (t : atype) (x : Value) :
  sparse_entry_ok host t x -> sparse_entry_ok host (reread_type t) x.
Proof. destruct t; exact (fun H => H). Qed.

Lemma entries_ok_reader (host : Host) (a b : ArffFile) (xs : dict Value) :
  reader_of a b -> entries_ok host a xs -> entries_ok host b xs.
Proof.
  intros (Ha & _ & _ & Ht) Hok n x Hx.
  destruct (Hok n x Hx) as (Hn & t & Hty & Hv).
  split; [rewrite Ha; exact Hn |].
  exists (reread_type t). split; [| apply sparse_entry_ok_reread, Hv].
  rewrite (Ht n Hn), Hty. reflexivity.
Qed.

Lemma entry_text_one_line (host : Host) (x : Value) :
  all_chars not_linebreak (py_str host (value x)) = true ->
  all_chars not_linebreak (entry_text host x) = true.
Proof.
  intros H. unfold entry_text.
  destruct (is_missing (value x)); [reflexivity |].
  destruct (kind_of x); try exact H.
  exact (quoted_one_line Py.dquote _ eq_refl H).
Qed.

Lemma join_one_line (ts : list string) :
  Forall (fun t => all_chars not_linebreak t = true) ts ->
  all_chars not_linebreak (Py.join ", " ts) = true.
Proof.
  induction 1 as [| t ts Ht Hts IH]; [reflexivity |].
  destruct ts as [| t' ts]; [exact Ht |].
  rewrite join_cons, !all_chars_app, Ht, IH. reflexivity.
Qed.

Section File.
Context (host : Host).

Lemma parse_lines_app (l1 l2 : list string) (b : ArffFile) :
  parse_lines host false (l1 ++ l2) b
  = b' ← parse_lines host false l1 b; parse_lines host false l2 b'.
Proof.
  revert b. induction l1 as [| l l1 IH]; intros b; [reflexivity |].
  cbn [app parse_lines].
  destruct (parseline host l b) as [b1 | e]; [| reflexivity].
  simpl. apply IH.
Qed.

Lemma parse_lines_cons (l : string) (ls : list string) (b b1 : ArffFile) :
  parseline host l b = Ok b1 ->
  parse_lines host false (l :: ls) b
  = parse_lines host false ls (set_lineno (lineno b1 + 1) b1).
Proof. intros H. cbn [parse_lines]. rewrite H. reflexivity. Qed.

(** The comment line of an empty comment and the relation line. *)
Lemma parse_lines_head (r : string) :
  r <> "" -> all_chars not_space r = true ->
  parse_lines host false ["% "; "@relation " +:+ r]
    (set_lineno 1 (set_state (Some st_comment) ArffFile_new))
  = Ok (MkArff r [] ∅ ∅ (CommentText "") [] 3 None None
          (Some st_in_header) []).
Proof.
  intros Hne Hr.
  rewrite (parse_lines_cons "% " _ _
             (set_comment (CommentLines [""])
                (set_lineno 1 (set_state (Some st_comment) ArffFile_new))))
    by reflexivity.
  rewrite (parse_lines_cons _ _ _
             (MkArff r [] ∅ ∅ (CommentText "") [] 2 None None
                (Some st_in_header) []));
    [reflexivity |].
  unfold parseline. cbn [state set_lineno set_comment set_state comment].
  rewrite bool_decide_eq_false_2 by discriminate.
  rewrite parse_header_line_relation by assumption. reflexivity.
Qed.

Lemma parse_header_line_attribute (rest : string) (b b' : ArffFile) :
  parse_attribute ("@attribute " +:+ rest) b = Ok b' ->
  parse_header_line ("@attribute " +:+ rest) b = Ok b'.
Proof.
  intros H. unfold parse_header_line. cbv zeta.
  unfold Py.startswith. rewrite lower_app.
  change (Py.lower "@attribute ") with "@attribute ".
  change (String.prefix "@relation " ("@attribute " +:+ Py.lower rest))
    with false.
  change (String.prefix "@data" ("@attribute " +:+ Py.lower rest))
    with false.
  rewrite (prefix_app "@attribute " (Py.lower rest)).
  simpl. rewrite H. reflexivity.
Qed.

(** What the directives of [a] are read as. *)
Definition read_type (a : ArffFile) (n : string) : option atype :=
  reread_type <$> attribute_types a !! n.

(** The directives of the attributes are written, each on one line, and
    read back in order. *)
Lemma attribute_lines_parse (a : ArffFile) (names : list string) :
  Forall (header_attribute a) names ->
  forall b, state b = Some st_in_header ->
    exists lines b',
      attribute_lines host a names = Ok lines
      /\ Forall (fun l => all_chars not_linebreak l = true) lines
      /\ parse_lines host false lines b = Ok b'
      /\ attributes b' = attributes b ++ names
      /\ state b' = Some st_in_header
      /\ fout b' = fout b /\ data b' = data b
      /\ relation b' = relation b /\ comment b' = comment b
      /\ (forall n, n ∈ names ->
            attribute_types b' !! n = read_type a n
            /\ attribute_data b' !! n = attribute_data a !! n)
      /\ (forall n, n ∉ names ->
            attribute_types b' !! n = attribute_types b !! n
            /\ attribute_data b' !! n = attribute_data b !! n).
Proof.
  induction 1 as [| n names Hn _ IH]; intros b Hst.
  - exists [], b. rewrite app_nil_r.
    do 9 (split; [first [reflexivity | assumption | constructor] |]).
    split; [intros n H; inversion H | intros n _; split; reflexivity].
  - destruct Hn as (Hone & t & d & Hplain & Hdata & Hpat).
    destruct (attribute_line_reread host a n t d Hplain)
      as (rest & Hline & Hread & Hl).
    specialize (Hl Hone Hpat).
    set (b1 := set_lineno (lineno (define_attribute n (reread_type t) d b) + 1)
                 (define_attribute n (reread_type t) d b)).
    destruct (IH b1 Hst) as (lines & b' & Hlines & Hones & Hparse & Hattrs
                             & Hst' & Hfout & Hdat & Hrel & Hcom & Hin & Hout).
    exists (("@attribute " +:+ rest) :: lines), b'.
    split; [cbn [attribute_lines]; rewrite Hline, Hlines; reflexivity |].
    split; [constructor; [exact Hl | exact Hones] |].
    split.
    { rewrite (parse_lines_cons _ _ _ (define_attribute n (reread_type t) d b)).
      - exact Hparse.
      - unfold parseline. rewrite Hst.
        apply parse_header_line_attribute, Hread. }
    split; [rewrite Hattrs; simpl; rewrite <- app_assoc; reflexivity |].
    split; [exact Hst' |].
    split; [rewrite Hfout; reflexivity |].
    split; [rewrite Hdat; reflexivity |].
    split; [rewrite Hrel; reflexivity |].
    split; [rewrite Hcom; reflexivity |].
    assert (Hty : attribute_types a !! n = Some t) by apply Hplain.
    split.
    + intros m Hm. destruct (decide (m ∈ names)) as [Hmn | Hmn];
        [apply Hin, Hmn |].
      apply elem_of_cons in Hm as [-> | Hm]; [| contradiction].
      destruct (Hout n Hmn) as (H1 & H2). rewrite H1, H2.
      unfold b1, read_type. simpl. rewrite !lookup_insert_eq, Hty, Hdata.
      split; reflexivity.
    + intros m Hm. apply not_elem_of_cons in Hm as (Hne & Hm).
      destruct (Hout m Hm) as (H1 & H2). rewrite H1, H2.
      unfold b1. simpl. rewrite !lookup_insert_ne by congruence.
      split; reflexivity.
Qed.
End File.

Section Rows.
Context (host : Host).

Lemma columns_one_line (a : ArffFile) (xs : dict Value) :
  row_ok host a xs ->
  Forall (fun t => all_chars not_linebreak t = true)
    (map (column_text host) (columns xs 0 (attributes a))).
Proof.
  intros (_ & Hok & Hone). apply Forall_fmap.
  pose proof (columns_ok host a xs Hok (attributes a) [] eq_refl) as Hcols.
  eapply Forall_impl; [exact Hcols |].
  intros [[i n] x] (_ & _ & Hget & _). simpl in Hget.
  unfold column_text. simpl.
  rewrite all_chars_app, str_of_Z_one_line.
  change (" " +:+ entry_text host x) with (String " " (entry_text host x)).
  cbn [all_chars andb].
  rewrite (entry_text_one_line host x (Hone n x (dict_get_elem _ _ _ Hget))).
  reflexivity.
Qed.

Lemma sparse_line_one_line (toks : list string) (line : string) :
  sparse_line toks = Some line ->
  Forall (fun t => all_chars not_linebreak t = true) toks ->
  all_chars not_linebreak line = true
  /\ exists s, line = String "{" s.
Proof.
  intros Hl Ht. apply sparse_line_Some in Hl as (_ & ->).
  split; [| eexists; reflexivity].
  cbn [all_chars]. rewrite all_chars_app, (join_one_line toks Ht). reflexivity.
Qed.

Lemma reader_of_row (a b : ArffFile) (d : list row) (n : Z) :
  reader_of a b -> reader_of a (set_lineno n (set_data d b)).
Proof. exact (fun H => H). Qed.

(** The rows are written, each on one line when it has a line at all,
    and the lines are read back as equal rows, in order. *)
Lemma data_lines_parse (a : ArffFile) (rows : list (dict Value)) :
  NoDup (attributes a) ->
  Forall (row_ok host a) rows ->
  forall b, reader_of a b ->
    exists lines b',
      data_lines host a SPARSE (map (fun xs => RDict (values_row xs)) rows)
      = Ok lines
      /\ Forall (fun l => all_chars not_linebreak l = true) lines
      /\ parse_lines host false lines b = Ok b'
      /\ reader_of a b'
      /\ relation b' = relation b /\ comment b' = comment b
      /\ attribute_types b' = attribute_types b
      /\ attribute_data b' = attribute_data b
      /\ exists new,
           data b' = data b ++ new
           /\ Forall2 (fun r xs => row_eq r (RDict (values_row xs)) = true)
                new (List.filter (has_line host a) rows).
Proof.
  intros Hnd. induction 1 as [| xs rows Hrow _ IH]; intros b Hb.
  - exists [], b. do 8 (split; [first [reflexivity | assumption | constructor] |]).
    exists []. rewrite app_nil_r. split; [reflexivity | constructor].
  - pose proof Hrow as (Hkeys & Hok & _).
    pose proof (write_line_values host a xs Hok) as Hw.
    pose proof (columns_one_line a xs Hrow) as Hone.
    assert (Hhas : has_line host a xs
                   = match sparse_line (map (column_text host)
                                          (columns xs 0 (attributes a))) with
                     | Some _ => true
                     | None => false
                     end)
      by (unfold has_line; rewrite Hw; reflexivity).
    cbn [map data_lines List.filter]. rewrite Hw, Hhas.
    destruct (sparse_line (map (column_text host) (columns xs 0 (attributes a))))
      as [line |] eqn:E.
    + destruct (sparse_line_one_line _ _ E Hone) as (Hline & s & ->).
      pose proof Hb as (Ha & Hf & Hst & _).
      pose proof (entries_ok_reader host a b xs Hb Hok) as Hokb.
      destruct (sparse_row_reread host b xs (String "{" s)) as (dline & Hp & Heq);
        try assumption.
      { rewrite Ha. exact Hnd. }
      { rewrite (write_line_values host b xs Hokb), Ha, E. reflexivity. }
      set (b1 := set_data (data b ++ [RDict dline]) b) in *.
      destruct (IH (set_lineno (lineno b1 + 1) b1))
        as (lines & b' & Hlines & Hones & Hparse & Hb' & Hrel & Hcom & Hty
            & Hdat & new & Hnew & Hrows).
      { apply reader_of_row, Hb. }
      exists (String "{" s :: lines), b'.
      split; [simpl; rewrite Hlines; reflexivity |].
      split; [constructor; assumption |].
      split.
      { rewrite (parse_lines_cons host _ _ _ b1); [exact Hparse |].
        unfold parseline. rewrite Hst. exact Hp. }
      split; [exact Hb' |].
      split; [rewrite Hrel; reflexivity |].
      split; [rewrite Hcom; reflexivity |].
      split; [rewrite Hty; reflexivity |].
      split; [rewrite Hdat; reflexivity |].
      exists (RDict dline :: new). split.
      * rewrite Hnew. unfold b1. simpl. rewrite <- app_assoc. reflexivity.
      * constructor; assumption.
    + destruct (IH b Hb)
        as (lines & b' & Hlines & Hones & Hparse & Hb' & Hrest).
      exists lines, b'.
      split; [simpl; rewrite Hlines; reflexivity |].
      split; [exact Hones |]. split; [exact Hparse |].
      split; [exact Hb' | exact Hrest].
Qed.
End Rows.

(** The text of a dataset whose header and rows are read back, and the
    dataset read from it. *)
Lemma write_parse_reread (host : Host) (a : ArffFile)
    (rows : list (dict Value)) :
  comment a = CommentLines [] ->
  relation a <> "" ->
  all_chars not_space (relation a) = true ->
  NoDup (attributes a) ->
  Forall (header_attribute a) (attributes a) ->
  data a = map (fun xs => RDict (values_row xs)) rows ->
  Forall (row_ok host a) rows ->
  exists text b,
    write host a SPARSE false false = Ok text
    /\ parse host text false = Ok b
    /\ relation b = relation a
    /\ attributes b = attributes a
    /\ (forall n, n ∈ attributes a ->
          attribute_types b !! n = reread_type <$> attribute_types a !! n
          /\ attribute_data b !! n = attribute_data a !! n)
    /\ Forall2 (fun r xs => row_eq r (RDict (values_row xs)) = true)
         (data b) (List.filter (has_line host a) rows).
Proof.
  intros Hcom Hne Hword Hnd Hattrs Hdata Hrows.
  set (b2 := MkArff (relation a) [] ∅ ∅ (CommentText "") [] 3 None None
               (Some st_in_header) []).
  destruct (attribute_lines_parse host a (attributes a) Hattrs b2 eq_refl)
    as (la & ba & Hla & Hone_a & Hpa & Hat & Hst & Hfout & Hd & Hrel & _
        & Hin & _).
  set (bd := set_lineno (lineno (set_state (Some st_data) ba) + 1)
               (set_state (Some st_data) ba)).
  assert (Hbd : reader_of a bd).
  { split; [exact Hat |]. split; [exact Hfout |]. split; [reflexivity |].
    intros n Hn. apply (Hin n Hn). }
  destruct (data_lines_parse host a rows Hnd Hrows bd Hbd)
    as (ld & b & Hld & Hone_d & Hpd & Hb & Hrel' & _ & Hty & Hdat
        & new & Hnew & Hrows').
  exists (text_of (("% " :: ("@relation " +:+ relation a) :: la)
                   ++ "@data" :: ld)), b.
  split.
  { unfold write, write_lines, write_attributes, comment_line.
    rewrite Hcom, Hla, Hdata, Hld. reflexivity. }
  split.
  { unfold parse. rewrite splitlines_text_of.
    - change (("% " :: ("@relation " +:+ relation a) :: la) ++ "@data" :: ld)
        with (["% "; "@relation " +:+ relation a] ++ la ++ ["@data"] ++ ld).
      rewrite parse_lines_app, (parse_lines_head host _ Hne Hword). simpl mbind.
      fold b2. rewrite parse_lines_app, Hpa. simpl mbind.
      assert (Hdir : parseline host "@data" ba
                     = Ok (set_state (Some st_data) ba))
        by (unfold parseline; rewrite Hst; reflexivity).
      rewrite Hdir. exact Hpd.
    - apply Forall_app. split.
      + constructor; [reflexivity |]. constructor; [| exact Hone_a].
        rewrite all_chars_app. rewrite (not_space_one_line _ Hword).
        reflexivity.
      + constructor; [reflexivity | exact Hone_d]. }
  split; [rewrite Hrel'; exact Hrel |].
  split; [apply Hb |].
  split.
  { intros n Hn. rewrite Hty, Hdat. apply (Hin n Hn). }
  rewrite Hnew. unfold bd. simpl data. rewrite Hd. exact Hrows'.
Qed.

(** X16.  A dataset written in the sparse format is read back.  The
    dataset has an empty comment list, a relation name that is one word,
    distinct attribute names, each attribute plain (a name without single
    quote and line boundary; the type integer, numeric, real or string, or
    date with a pattern without double quote and line boundary), and its
    rows are name-keyed rows of values that the sparse writer and reader
    agree on.  Then [write] returns a text, [parse] reads that text
    without error, and the dataset read has the same relation name, the
    same attributes in the same order with the same types ([numeric] for
    [real]) and data, and, in order, a row equal ([==]) to each row for
    which [write_line] gives a line. *)
Theorem write_parse_round_trip (host : Host) (a : ArffFile)
    (rows : list (dict Value)) :
  comment a = CommentLines [] ->
  relation a <> "" ->
  all_chars not_space (relation a) = true ->
  NoDup (attributes a) ->
  Forall (header_attribute a) (attributes a) ->
  data a = map (fun xs => RDict (values_row xs)) rows ->
  Forall (row_ok host a) rows ->
  exists text b,
    write host a SPARSE false false = Ok text
    /\ parse host text false = Ok b
    /\ relation b = relation a
    /\ attributes b = attributes a
    /\ (forall n, n ∈ attributes a ->
          attribute_types b !! n = reread_type <$> attribute_types a !! n
          /\ attribute_data b !! n = attribute_data a !! n)
    /\ Forall2 (fun r xs => row_eq r (RDict (values_row xs)) = true)
         (data b) (List.filter (has_line host a) rows).
Proof. apply write_parse_reread. Qed.

(** A dataset with a relation name, two attributes and two rows; the
    second row holds nothing but a missing value and has no line. *)
Definition file_example_rows : list (dict Value) :=
  [sparse_example_row; [("n", MkValue KInteger (PStr MISSING) false)]].

Definition file_example : ArffFile :=
  set_data (map (fun xs => RDict (values_row xs)) file_example_rows)
    (set_relation "people" sparse_example).

Lemma write_parse_round_trip_witness :
  exists text b,
    write example_host file_example SPARSE false false = Ok text
    /\ parse example_host text false = Ok b
    /\ relation b = "people"
    /\ attributes b = ["n"; "s"]
    /\ length (data b) = 1%nat.
Proof.
  destruct (write_parse_round_trip example_host file_example file_example_rows)
    as (text & b & H1 & H2 & H3 & H4 & _ & H6).
  - reflexivity.
  - discriminate.
  - reflexivity.
  - apply (bool_decide_unpack _). vm_compute. reflexivity.
  - constructor; [| constructor; [| constructor]].
    + split; [reflexivity |]. exists TYPE_INTEGER, DNone.
      split; [| split; [reflexivity | discriminate]].
      repeat split. discriminate.
    + split; [reflexivity |]. exists TYPE_STRING, DNone.
      split; [| split; [reflexivity | discriminate]].
      repeat split. discriminate.
  - reflexivity.
  - assert (Hn : forall n, n ∈ ["n"; "s"] -> n ∈ attributes file_example)
      by (intros n Hn; exact Hn).
    constructor; [| constructor; [| constructor]];
      (split; [| split]).
    + apply (bool_decide_unpack _). vm_compute. reflexivity.
    + intros n x Hx.
      apply elem_of_cons in Hx as [[= -> ->] | Hx];
        [| apply elem_of_cons in Hx as [[= -> ->] | Hx]; [| inversion Hx]].
      * split; [apply Hn; set_solver |].
        exists TYPE_STRING. split; [reflexivity |].
        split; [reflexivity |]. right. exists "a b". repeat split.
      * split; [apply Hn; set_solver |].
        exists TYPE_INTEGER. split; [reflexivity |].
        split; [reflexivity |]. right. exists 7. reflexivity.
    + intros n x Hx.
      apply elem_of_cons in Hx as [[= -> ->] | Hx];
        [| apply elem_of_cons in Hx as [[= -> ->] | Hx]; [| inversion Hx]];
        reflexivity.
    + apply (bool_decide_unpack _). vm_compute. reflexivity.
    + intros n x Hx.
      apply elem_of_cons in Hx as [[= -> ->] | Hx]; [| inversion Hx].
      split; [apply Hn; set_solver |].
      exists TYPE_INTEGER. split; [reflexivity |].
      split; [reflexivity |]. left. reflexivity.
    + intros n x Hx.
      apply elem_of_cons in Hx as [[= -> ->] | Hx]; [| inversion Hx].
      reflexivity.
  - exists text, b. split; [exact H1 |]. split; [exact H2 |].
    split; [exact H3 |]. split; [exact H4 |].
    apply Forall2_length in H6. rewrite H6. vm_compute. reflexivity.
Defined.

(** ** The declared values of a nominal attribute *)

Lemma set_add_keeps (w v : pyval) (s : list pyval) :
  existsb (py_eq w) s = true -> existsb (py_eq w) (set_add v s) = true.
Proof.
  intros H. unfold set_add. destruct (existsb (py_eq v) s); [exact H |].
  rewrite existsb_app, H. reflexivity.
Qed.

Lemma set_add_in (v : pyval) (s : list pyval) :
  py_eq v v = true -> existsb (py_eq v) (set_add v s) = true.
Proof.
  intros H. unfold set_add. destruct (existsb (py_eq v) s) eqn:E; [exact E |].
  rewrite existsb_app. simpl. rewrite H, orb_true_r. reflexivity.
Qed.

Lemma set_update_keeps (w : pyval) (values s : list pyval) :
  existsb (py_eq w) s = true ->
  existsb (py_eq w) (set_update s values) = true.
Proof.
  revert s. induction values as [| v values IH]; intros s H; [exact H |].
  apply (IH (set_add v s)), set_add_keeps, H.
Qed.

Lemma set_update_in (v : pyval) (values s : list pyval) :
  v ∈ values -> py_eq v v = true ->
  existsb (py_eq v) (set_update s values) = true.
Proof.
  intros Hin Hv. revert s.
  induction values as [| u values IH]; intros s; [inversion Hin |].
  apply elem_of_cons in Hin as [<- | Hin].
  - apply (set_update_keeps v values (set_add v s)), set_add_in, Hv.
  - apply (IH Hin (set_add u s)).
Qed.

(** X17.  [set_nominal_values(name, values)] on a nominal attribute that
    was declared without values fails with [TypeError]: the key is
    present, so [setdefault] leaves its [None], and [set(None)] fails.
    When the call returns, the attribute is listed and nominal, its data
    is a set that holds every given value and every value it held before
    (values equal to themselves, which leaves out a float that is not a
    number), and nothing else of the dataset changes. *)
Theorem set_nominal_values_members (name : string) (values : list pyval)
    (a : ArffFile) :
  (name ∈ attributes a ->
   attribute_types a !! name = Some TYPE_NOMINAL ->
   attribute_data a !! name = Some DNone ->
   set_nominal_values name values a = Raise TypeError)
  /\ forall a', set_nominal_values name values a = Ok a' ->
       name ∈ attributes a
       /\ attribute_types a !! name = Some TYPE_NOMINAL
       /\ a' = set_attribute_data (attribute_data a') a
       /\ (forall n, n <> name ->
             attribute_data a' !! n = attribute_data a !! n)
       /\ exists s,
            attribute_data a' !! name = Some (DSet s)
            /\ (forall v, v ∈ values -> py_eq v v = true ->
                  existsb (py_eq v) s = true)
            /\ (forall vs w,
                  attribute_data a !! name = Some (DList vs)
                  \/ attribute_data a !! name = Some (DSet vs) ->
                  w ∈ vs -> py_eq w w = true ->
                  existsb (py_eq w) s = true).
Proof.
  split.
  - intros Hn Ht Hd. unfold set_nominal_values, type_of.
    rewrite bool_decide_eq_true_2 by exact Hn. rewrite Ht, Hd. reflexivity.
  - intros a' H. unfold set_nominal_values, type_of in H.
    case_bool_decide as Hn; [| discriminate]. simpl in H.
    destruct (attribute_types a !! name) as [t |] eqn:Ht; [| discriminate].
    simpl in H. case_bool_decide as Hnom; [subst t | discriminate].
    simpl in H.
    set (old := match attribute_data a !! name with
                | None => Ok []
                | Some DNone => Raise TypeError
                | Some (DList vs) | Some (DSet vs) => Ok (set_update [] vs)
                | Some (DPattern p) =>
                    Ok (set_update []
                          (map (fun c => PStr (Py.chr c))
                             (list_ascii_of_string p)))
                end) in H.
    destruct old as [s0 | e] eqn:Hold; [| discriminate].
    simpl in H. injection H as <-.
    split; [exact Hn |]. split; [reflexivity |]. split; [reflexivity |].
    split.
    { intros n Hne. simpl. apply lookup_insert_ne. congruence. }
    exists (set_update s0 values). split; [simpl; apply lookup_insert_eq |].
    split.
    + intros v Hv Hvv. apply set_update_in; assumption.
    + intros vs w Hvs Hw Hww. apply set_update_keeps.
      assert (Hs0 : s0 = set_update [] vs).
      { unfold old in Hold. destruct Hvs as [Hvs | Hvs];
          rewrite Hvs in Hold; injection Hold as <-; reflexivity. }
      rewrite Hs0. apply set_update_in; assumption.
Qed.

Lemma set_nominal_values_members_witness :
  let a := define_attribute "c" TYPE_NOMINAL DNone ArffFile_new in
  let b := define_attribute "c" TYPE_NOMINAL (DList [PStr "x"]) ArffFile_new in
  set_nominal_values "c" [PStr "y"] a = Raise TypeError
  /\ exists b',
       set_nominal_values "c" [PStr "y"; PStr "x"] b = Ok b'
       /\ attribute_data b' !! "c" = Some (DSet [PStr "x"; PStr "y"]).
Proof.
  intros a b. split.
  - apply (proj1 (set_nominal_values_members "c" [PStr "y"] a)).
    + apply (bool_decide_unpack _). vm_compute. reflexivity.
    + reflexivity.
    + reflexivity.
  - destruct (set_nominal_values "c" [PStr "y"; PStr "x"] b) as [b' | e] eqn:E;
      [| vm_compute in E; discriminate].
    exists b'. split; [reflexivity |].
    destruct (proj2 (set_nominal_values_members "c" [PStr "y"; PStr "x"] b)
                b' E) as (_ & _ & _ & _ & s & Hs & _).
    vm_compute in E. injection E as <-. reflexivity.
Defined.

(** ** Reading back a dense line *)

(** A field of a dense line that [split] and [strip] leave whole, that
    is not the missing marker, and that does not open a sparse line. *)
Definition field_ok (f : string) : Prop :=
  all_chars (not_char ",") f = true
  /\ f <> MISSING
  /\ exists a c, Py.first_char f = Some a /\ Py.isspace a = false
                 /\ a <> "{"%char
                 /\ Py.last_char f = Some c /\ Py.isspace c = false.

(** The text the host gives for a [Decimal] is such a field, and
    [Decimal] reads it as the same value. *)
Definition decimal_text_ok (host : Host) (d : decimal) : Prop :=
  field_ok (str_of_Decimal host d)
  /\ Decimal_of_str host (str_of_Decimal host d) = Some d.

(** The entries of a positional row that the dense writer accepts and the
    dense reader reads: an [int] for an integer attribute, a [Decimal]
    whose text the host reads back for a numeric one, and for a string
    attribute a text that is not empty and holds no single quote and no
    comma. *)
Definition dense_cell_ok (host : Host) (a : ArffFile) (n : string) (c : cell)
  : Prop :=
  match attribute_types a !! n with
  | Some TYPE_INTEGER => exists z, c = CRaw (PInt z)
  | Some TYPE_NUMERIC | Some TYPE_REAL =>
      exists d, c = CRaw (PDecimal d) /\ decimal_text_ok host d
  | Some TYPE_STRING =>
      exists s, c = CRaw (PStr s) /\ s <> ""
                /\ all_chars (not_char Py.squote) s = true
                /\ all_chars (not_char ",") s = true
  | _ => False
  end.

(** What is read back for an entry: a text comes back inside the single
    quotes that [esc] put around it. *)
Definition dense_reread (c : cell) : cell :=
  match c with
  | CRaw (PStr s) => CRaw (PStr (String Py.squote (s +:+ Py.chr Py.squote)))
  | _ => c
  end.

Lemma split_on_cons (c a : ascii) (s : string) :
  Py.split_on c (String a s)
  = if Ascii.eqb a c then EmptyString :: Py.split_on c s
    else match Py.split_on c s with
         | x :: xs => String a x :: xs
         | [] => [Py.chr a]
         end.
Proof. reflexivity. Qed.

Lemma split_on_one (c : ascii) (t : string) :
  all_chars (not_char c) t = true -> Py.split_on c t = [t].
Proof.
  induction t as [| a t IH]; intros H; [reflexivity |].
  simpl in H. apply andb_prop in H as (Ha & Ht).
  unfold not_char in Ha. apply negb_true_iff in Ha.
  rewrite split_on_cons, Ha, (IH Ht). reflexivity.
Qed.

Lemma split_on_app (c : ascii) (t rest : string) :
  all_chars (not_char c) t = true ->
  Py.split_on c (t +:+ String c rest) = t :: Py.split_on c rest.
Proof.
  induction t as [| a t IH]; intros H.
  - rewrite append_nil_l, split_on_cons, Ascii.eqb_refl. reflexivity.
  - simpl in H. apply andb_prop in H as (Ha & Ht).
    unfold not_char in Ha. apply negb_true_iff in Ha.
    rewrite append_cons, split_on_cons, Ha, (IH Ht). reflexivity.
Qed.

Lemma split_on_join (t : string) (ts : list string) :
  Forall (fun f => all_chars (not_char ",") f = true) (t :: ts) ->
  Py.split_on "," (Py.join "," (t :: ts)) = t :: ts.
Proof.
  revert t. induction ts as [| t' ts IH]; intros t H.
  - apply split_on_one. inversion H; assumption.
  - inversion H as [| ? ? Ht H']; subst.
    rewrite join_cons.
    change ("," +:+ Py.join "," (t' :: ts))
      with (String "," (Py.join "," (t' :: ts))).
    rewrite (split_on_app "," t _ Ht), (IH t' H'). reflexivity.
Qed.

Lemma field_ok_strip (f : string) : field_ok f -> Py.strip f = f.
Proof.
  intros (_ & _ & a & c & Hf & Ha & _ & Hl & Hc).
  apply (strip_id f a c); assumption.
Qed.

(** The joined fields start and end as a field does. *)
Lemma join_fields_ends (f : string) (fs : list string) :
  Forall field_ok (f :: fs) ->
  exists a c, Py.first_char (Py.join "," (f :: fs)) = Some a
              /\ Py.isspace a = false /\ a <> "{"%char
              /\ Py.last_char (Py.join "," (f :: fs)) = Some c
              /\ Py.isspace c = false.
Proof.
  revert f. induction fs as [| f' fs IH]; intros f H.
  - inversion H as [| ? ? (_ & _ & Hf) _]. exact Hf.
  - inversion H as [| ? ? (_ & _ & a & _ & Hfa & Ha & Hb & _) H']; subst.
    destruct (IH f' H') as (_ & c & _ & _ & _ & Hl & Hc).
    exists a, c. rewrite join_cons.
    split; [apply first_char_append, Hfa |].
    split; [exact Ha |]. split; [exact Hb |].
    split; [| exact Hc].
    apply last_char_append.
    change ("," +:+ Py.join "," (f' :: fs))
      with (String "," (Py.join "," (f' :: fs))).
    apply last_char_cons, Hl.
Qed.

Lemma quoted_field (s : string) :
  all_chars (not_char ",") s = true ->
  field_ok (String Py.squote (s +:+ Py.chr Py.squote)).
Proof.
  intros Hc. split; [| split].
  - cbn [all_chars]. rewrite all_chars_app, Hc. reflexivity.
  - intros E. injection E as E _. discriminate E.
  - exists Py.squote, Py.squote. repeat split; try discriminate.
    apply last_char_cons, last_char_app.
Qed.

Lemma str_of_Z_field (z : Z) : field_ok (Py.str_of_Z z).
Proof.
  destruct (str_of_Z_plain z) as ((Hc & _ & a & c & Hf & Ha & Hl & Hs & _) & Hne & _).
  split; [exact Hc |]. split; [exact Hne |].
  exists a, c. repeat split; try assumption.
  intros ->.
  pose proof (str_of_Z_chars z) as Hd.
  destruct (Py.str_of_Z z) as [| a' r]; [discriminate |].
  injection Hf as ->. simpl in Hd. discriminate Hd.
Qed.

Section DenseLine.
Context (host : Host) (a : ArffFile).

(** One entry: the field written for it, and what the reader stores for
    that field. *)
Lemma dense_cell_reread (n : string) (c : cell) :
  dense_cell_ok host a n c ->
  exists f,
    dense_field host a c n = Ok f
    /\ field_ok f
    /\ forall names fs rest,
         dense_datum host a names fs = Ok rest ->
         dense_datum host a (n :: names) (CRaw (PStr f) :: fs)
         = Ok (dense_reread c :: rest).
Proof.
  unfold dense_cell_ok, dense_field, type_of.
  destruct (attribute_types a !! n) as [[] |] eqn:Ht;
    try contradiction; simpl.
  - intros (z & ->). exists (Py.str_of_Z z).
    split; [reflexivity |]. split; [apply str_of_Z_field |].
    intros names fs rest Hrest. cbn [dense_datum]. unfold type_of.
    rewrite Ht, Hrest. simpl.
    destruct (str_of_Z_field z) as (_ & Hne & _).
    apply String.eqb_neq in Hne. unfold is_missing. simpl. rewrite Hne.
    rewrite int_of_str_of_Z. reflexivity.
  - intros (d & -> & Hf & Hd). exists (str_of_Decimal host d).
    split; [reflexivity |]. split; [exact Hf |].
    intros names fs rest Hrest. cbn [dense_datum]. unfold type_of.
    rewrite Ht, Hrest. simpl.
    destruct Hf as (_ & Hne & _).
    apply String.eqb_neq in Hne. unfold is_missing. simpl. rewrite Hne.
    rewrite Hd. reflexivity.
  - intros (d & -> & Hf & Hd). exists (str_of_Decimal host d).
    split; [reflexivity |]. split; [exact Hf |].
    intros names fs rest Hrest. cbn [dense_datum]. unfold type_of.
    rewrite Ht, Hrest. simpl.
    destruct Hf as (_ & Hne & _).
    apply String.eqb_neq in Hne. unfold is_missing. simpl. rewrite Hne.
    rewrite Hd. reflexivity.
  - intros (s & -> & Hne & Hq & Hc).
    exists (String Py.squote (s +:+ Py.chr Py.squote)).
    split; [rewrite (esc_plain s Hne Hq); reflexivity |].
    split; [apply quoted_field, Hc |].
    intros names fs rest Hrest. cbn [dense_datum]. unfold type_of.
    rewrite Ht, Hrest. reflexivity.
Qed.

Lemma dense_row_reread (names : list string) (l : list cell) :
  Forall2 (dense_cell_ok host a) names l ->
  exists fs,
    dense_fields host a l names = Ok fs
    /\ Forall field_ok fs
    /\ length fs = length names
    /\ dense_datum host a names (map (fun f => CRaw (PStr f)) fs)
       = Ok (map dense_reread l).
Proof.
  induction 1 as [| n c names l Hc _ IH].
  - exists []. repeat split. constructor.
  - destruct IH as (fs & Hfs & Hok & Hlen & Hd).
    destruct (dense_cell_reread n c Hc) as (f & Hf & Hfok & Hstep).
    exists (f :: fs). split; [cbn [dense_fields]; rewrite Hf, Hfs; reflexivity |].
    split; [constructor; assumption |].
    split; [simpl; rewrite Hlen; reflexivity |].
    apply Hstep, Hd.
Qed.
End DenseLine.

(** X18.  Dense round trip of one row.  For an in-memory dataset and a
    positional row with one entry per attribute ([int] for an integer
    attribute, a [Decimal] whose text the host reads back for a numeric
    one, a non-empty text without single quote and comma for a string
    one), [write_line] gives a dense line, and [_parse_data] on that line
    appends one row: the numbers are the ones written, and every text
    comes back inside single quotes, the quotes of [esc] being kept by
    the reader. *)
Theorem dense_row_round_trip (host : Host) (a : ArffFile) (l : list cell) :
  fout a = None ->
  l <> [] ->
  Forall2 (dense_cell_ok host a) (attributes a) l ->
  exists line,
    write_line host a (RList l) DENSE = Ok (Some line)
    /\ parse_data host (LStr line) a
       = Ok (set_data (data a ++ [RList (map dense_reread l)]) a).
Proof.
  intros Hf Hne Hcells.
  destruct (dense_row_reread host a _ _ Hcells) as (fs & Hfs & Hok & Hlen & Hd).
  exists (Py.join "," fs).
  split; [unfold write_line; rewrite Hfs; reflexivity |].
  destruct fs as [| f fs].
  { destruct l; [contradiction |].
    apply Forall2_length in Hcells. simpl in Hlen, Hcells.
    rewrite <- Hlen in Hcells. discriminate. }
  destruct (join_fields_ends f fs Hok) as (x & y & Hx & Hsx & Hb & Hy & Hsy).
  unfold parse_data.
  rewrite (strip_id _ x y Hx Hsx Hy Hsy).
  assert (Hstart : Py.startswith (Py.join "," (f :: fs)) "{" = false).
  { unfold Py.startswith. destruct (Py.join "," (f :: fs)) as [| x' r];
      [discriminate |]. injection Hx as ->.
    apply prefix_cons_ne. congruence. }
  rewrite Hstart, split_on_join.
  2:{ eapply Forall_impl; [exact Hok |]. intros ? (H & _). exact H. }
  assert (Hstrip : map (fun f0 => CRaw (PStr (Py.strip f0))) (f :: fs)
                   = map (fun f0 => CRaw (PStr f0)) (f :: fs)).
  { clear -Hok. induction Hok as [| g gs Hg _ IH]; [reflexivity |].
    simpl. rewrite (field_ok_strip g Hg), IH. reflexivity. }
  rewrite Hstrip. unfold store_dense.
  rewrite length_map, Hlen, Nat.eqb_refl. cbn [negb].
  rewrite Hd, Hf. reflexivity.
Qed.

Lemma dense_row_round_trip_witness :
  exists line,
    write_line example_host sparse_example
      (RList [CRaw (PInt 7); CRaw (PStr "a b")]) DENSE = Ok (Some line)
    /\ parse_data example_host (LStr line) sparse_example
       = Ok (set_data [RList [CRaw (PInt 7); CRaw (PStr "'a b'")]]
               sparse_example).
Proof.
  apply (dense_row_round_trip example_host sparse_example
           [CRaw (PInt 7); CRaw (PStr "a b")]).
  - reflexivity.
  - discriminate.
  - constructor; [| constructor; [| constructor]].
    + exists 7. reflexivity.
    + exists "a b". repeat split. discriminate.
Defined.

(** ** The round trip of a dataset without nominal and date attributes *)








